(** * Terminal calculator: tokenizer, shunting-yard converter, postfix
      evaluator and result formatter of [calculator.py]

    The development embeds the class [Calculator] and states the
    properties of its pipeline

      raw string -> tokens -> postfix tokens -> value -> formatted result.

    Python strings are Rocq strings; a character is a code point below
    256 and is classified the way Python classifies U+0000..U+00FF.
    Python floats are IEEE binary64 numbers, in the representation of the
    standard library's [SpecFloat]. *)

From Stdlib Require Import ZArith QArith Qpower Qfield.
From Stdlib Require Import List String Ascii Bool Arith Lia.
From Stdlib Require Import SpecFloat.
Import ListNotations.

Close Scope Q_scope.
Local Open Scope string_scope.
Local Open Scope list_scope.

(* ================================================================= *)
(** * Characters and strings *)

Module PyStr.

Definition code (c : ascii) : nat := nat_of_ascii c.

Definition between (lo hi : nat) (c : ascii) : bool :=
  (lo <=? code c)%nat && (code c <=? hi)%nat.

(** [\d] of a [str] pattern: the decimal digits; below 256 these are
    [0-9] only. *)
Definition is_digit (c : ascii) : bool := between 48 57 c.

(** [[a-zA-Z_]]. *)
Definition is_ident_start (c : ascii) : bool :=
  between 97 122 c || between 65 90 c || (code c =? 95)%nat.

(** [\w] of a [str] pattern: alphanumeric characters and the underscore.
    Below 256 the alphanumerics are the ASCII ones and the Latin-1
    letters, superscript digits and vulgar fractions. *)
Definition is_word (c : ascii) : bool :=
  is_digit c || is_ident_start c
  || (code c =? 170)%nat || between 178 179 c || (code c =? 181)%nat
  || between 185 186 c || between 188 190 c
  || between 192 214 c || between 216 246 c || between 248 255 c.

(** Whitespace of [str.strip()] and [str.isspace()]. *)
Definition is_space (c : ascii) : bool :=
  between 9 13 c || between 28 32 c || (code c =? 133)%nat || (code c =? 160)%nat.

(** Whitespace of C's [isspace] in the "C" locale ([Py_ISSPACE]). *)
Definition is_c_space (c : ascii) : bool :=
  between 9 13 c || (code c =? 32)%nat.

Definition is_ascii (c : ascii) : bool := (code c <? 128)%nat.

Fixpoint forallb (p : ascii -> bool) (s : string) : bool :=
  match s with
  | EmptyString => true
  | String c s' => p c && forallb p s'
  end.

(** Longest prefix whose characters satisfy [p], and what follows it. *)
Fixpoint span (p : ascii -> bool) (s : string) : string * string :=
  match s with
  | EmptyString => (EmptyString, EmptyString)
  | String c s' =>
      if p c then let (a, b) := span p s' in (String c a, b)
      else (EmptyString, s)
  end.

Fixpoint drop_while (p : ascii -> bool) (s : string) : string :=
  match s with
  | EmptyString => EmptyString
  | String c s' => if p c then drop_while p s' else s
  end.

Fixpoint rev_onto (s acc : string) : string :=
  match s with
  | EmptyString => acc
  | String c s' => rev_onto s' (String c acc)
  end.

Definition rev (s : string) : string := rev_onto s EmptyString.

(** Strip the characters satisfying [p] from both ends. *)
Definition strip_with (p : ascii -> bool) (s : string) : string :=
  rev (drop_while p (rev (drop_while p s))).

(** [s.strip()]. *)
Definition strip (s : string) : string := strip_with is_space s.

Definition is_empty (s : string) : bool :=
  match s with EmptyString => true | _ => false end.

Fixpoint map (f : ascii -> ascii) (s : string) : string :=
  match s with
  | EmptyString => EmptyString
  | String c s' => String (f c) (map f s')
  end.

Fixpoint join (parts : list string) : string :=
  match parts with
  | [] => EmptyString
  | p :: rest => p ++ join rest
  end.

(** [s.replace(old, new)]: the occurrences of [old] are found from left
    to right and do not overlap.  [skip] counts the characters of an
    occurrence that are still to be passed over. *)
Fixpoint replace_from (skip : nat) (old new s : string) : string :=
  match s with
  | EmptyString => EmptyString
  | String c s' =>
      match skip with
      | S k => replace_from k old new s'
      | O =>
          if prefix old s
          then new ++ replace_from (String.length old - 1) old new s'
          else String c (replace_from 0 old new s')
      end
  end.

(** With an empty [old], Python puts [new] before every character and at
    the end. *)
Fixpoint intersperse (new s : string) : string :=
  match s with
  | EmptyString => new
  | String c s' => new ++ String c (intersperse new s')
  end.

Definition replace (old new s : string) : string :=
  match old with
  | EmptyString => intersperse new s
  | _ => replace_from 0 old new s
  end.

(** ASCII lower case, for the case-insensitive literals of [float()]. *)
Definition lower (c : ascii) : ascii :=
  if between 65 90 c then ascii_of_nat (code c + 32) else c.

End PyStr.

(* ================================================================= *)
(** * Python floats: IEEE binary64 *)

Module F64.

Local Open Scope Z_scope.

Definition float64 : Type := spec_float.

Definition prec : Z := 53.
Definition emax : Z := 1024.

Definition add : float64 -> float64 -> float64 := SFadd prec emax.
Definition sub : float64 -> float64 -> float64 := SFsub prec emax.
Definition mul : float64 -> float64 -> float64 := SFmul prec emax.
Definition div : float64 -> float64 -> float64 := SFdiv prec emax.

(** [x == 0.0]: both signed zeros. *)
Definition is_zero (x : float64) : bool :=
  match x with S754_zero _ => true | _ => false end.

(** The float nearest to an integer. *)
Definition of_Z (n : Z) : float64 := binary_normalize prec emax n 0 false.

(** The float nearest to [n / d] for [0 <= n] and [0 < d], with the sign
    [neg]; a single rounding, to nearest, ties to even. *)
Definition of_ratio (neg : bool) (n d : Z) : float64 :=
  match n, d with
  | Zpos pn, Zpos pd => div (S754_finite neg pn 0) (S754_finite false pd 0)
  | _, _ => S754_zero neg
  end.

(** The float nearest to [mant * 10 ^ exp10] for [0 <= mant], with the
    sign [neg]: what [float()] makes of a decimal literal. *)
Definition of_decimal (neg : bool) (mant exp10 : Z) : float64 :=
  if 0 <=? exp10
  then match mant * 10 ^ exp10 with
       | Zpos p => binary_round prec emax neg p 0
       | _ => S754_zero neg
       end
  else of_ratio neg mant (10 ^ (- exp10)).

(** [x.is_integer()]: finite and without a fractional part. *)
Definition is_integer (x : float64) : bool :=
  match x with
  | S754_zero _ => true
  | S754_finite _ m e => (0 <=? e) || (Zpos m mod 2 ^ (- e) =? 0)
  | _ => false
  end.

(** [int(x)]: truncation towards zero (Python raises on infinities and
    NaN, which [is_integer] excludes; they are sent to 0 here). *)
Definition to_Z (x : float64) : Z :=
  match x with
  | S754_finite s m e =>
      cond_Zopp s (if 0 <=? e then Zpos m * 2 ^ e else Zpos m / 2 ^ (- e))
  | _ => 0
  end.

(** The integer nearest to [n / d] for [0 <= n] and [0 < d], ties to
    even. *)
Definition round_half_even (n d : Z) : Z :=
  let q := n / d in
  match 2 * (n mod d) ?= d with
  | Lt => q
  | Gt => q + 1
  | Eq => if Z.even q then q else q + 1
  end.

(** [round(x, ndigits)] for [0 <= ndigits]: the exact value of [x] is
    rounded to [ndigits] decimal places, ties to even, and the decimal
    obtained is converted back to the nearest float.  Zeros, infinities
    and NaN round to themselves. *)
Definition round_ndigits (x : float64) (ndigits : Z) : float64 :=
  match x with
  | S754_finite s m e =>
      if 0 <=? e then x
      else of_ratio s (round_half_even (Zpos m * 10 ^ ndigits) (2 ^ (- e)))
                      (10 ^ ndigits)
  | _ => x
  end.

(** The rational number a finite float stands for. *)
Definition exact (x : float64) : option Q :=
  match x with
  | S754_zero _ => Some (inject_Z 0)
  | S754_finite s m e =>
      Some (inject_Z (cond_Zopp s (Zpos m)) * Qpower (inject_Z 2) e)%Q
  | _ => None
  end.

(** [math.pi] and [math.e]. *)
Definition math_pi : float64 := S754_finite false 7074237752028440 (-51).
Definition math_e : float64 := S754_finite false 6121026514868073 (-51).

(** ** [float(s)] for a string [s] *)

Local Open Scope string_scope.

(** Whitespace that [float()] strips from both ends. *)
Definition is_float_space (c : ascii) : bool :=
  PyStr.is_c_space c || (PyStr.code c =? 133)%nat || (PyStr.code c =? 160)%nat.

Definition is_underscore (c : ascii) : bool := (PyStr.code c =? 95)%nat.

(** Underscores are allowed between two digits only, and are removed;
    [prev] is the character before [s]. *)
Fixpoint remove_underscores (prev : ascii) (s : string) : option string :=
  match s with
  | EmptyString => if is_underscore prev then None else Some EmptyString
  | String c s' =>
      if is_underscore c then
        if PyStr.is_digit prev then remove_underscores c s' else None
      else if is_underscore prev && negb (PyStr.is_digit c) then None
      else option_map (String c) (remove_underscores c s')
  end.

Definition parse_sign (s : string) : bool * string :=
  match s with
  | String "-" r => (true, r)
  | String "+" r => (false, r)
  | _ => (false, s)
  end.

Fixpoint digits_value_from (acc : Z) (s : string) : Z :=
  match s with
  | EmptyString => acc
  | String c s' => digits_value_from (10 * acc + Z.of_nat (PyStr.code c - 48)) s'
  end.

Definition digits_value (s : string) : Z := digits_value_from 0 s.

Definition is_exponent_mark (c : ascii) : bool :=
  (PyStr.code c =? 101)%nat || (PyStr.code c =? 69)%nat.

(** A decimal literal: digits with an optional point, at least one
    digit, and an optional exponent; nothing may follow. *)
Definition parse_decimal (neg : bool) (s : string) : option float64 :=
  let (ip, r1) := PyStr.span PyStr.is_digit s in
  let (fp, r2) := match r1 with
                  | String "." r => PyStr.span PyStr.is_digit r
                  | _ => (EmptyString, r1)
                  end in
  let mant := digits_value (ip ++ fp) in
  let scale := Z.of_nat (String.length fp) in
  if PyStr.is_empty ip && PyStr.is_empty fp then None
  else match r2 with
       | EmptyString => Some (of_decimal neg mant (- scale))
       | String c r3 =>
           if is_exponent_mark c then
             let (eneg, r4) := parse_sign r3 in
             let (ed, r5) := PyStr.span PyStr.is_digit r4 in
             if PyStr.is_empty ed || negb (PyStr.is_empty r5) then None
             else Some (of_decimal neg mant
                          (cond_Zopp eneg (digits_value ed) - scale))
           else None
       end.

(** [float(s)]: [None] stands for the [ValueError] Python raises. *)
Definition of_string (s : string) : option float64 :=
  match remove_underscores zero (PyStr.strip_with is_float_space s) with
  | None => None
  | Some t =>
      let (neg, body) := parse_sign t in
      let low := PyStr.map PyStr.lower body in
      if (low =? "inf") || (low =? "infinity") then Some (S754_infinity neg)
      else if low =? "nan" then Some S754_nan
      else parse_decimal neg body
  end.

End F64.

(* ================================================================= *)
(** * The regular expression of the tokenizer *)

Module Re.

Local Open Scope string_scope.

(** One alternative of a pattern, tried at the start of [s]: the text
    it matches there, if any. *)
Definition alternative : Type := string -> option string.

(** [\d+\.?\d*]: every quantifier is greedy, and what follows each of
    them can match the empty string, so nothing is ever given back. *)
Definition alt_number : alternative := fun s =>
  match s with
  | String c _ =>
      if PyStr.is_digit c then
        let (d1, r1) := PyStr.span PyStr.is_digit s in
        match r1 with
        | String "." r2 => Some (d1 ++ String "." (fst (PyStr.span PyStr.is_digit r2)))
        | _ => Some d1
        end
      else None
  | EmptyString => None
  end.

(** The class [[+\-*/()^%]]. *)
Definition is_single_operator (c : ascii) : bool :=
  existsb (Ascii.eqb c) ["+"; "-"; "*"; "/"; "("; ")"; "^"; "%"]%char.

Definition alt_single : alternative := fun s =>
  match s with
  | String c _ => if is_single_operator c then Some (String c EmptyString) else None
  | EmptyString => None
  end.

(** A literal such as [\*\*] or [//]. *)
Definition alt_literal (lit : string) : alternative := fun s =>
  if prefix lit s then Some lit else None.

(** [[a-zA-Z_]\w*]. *)
Definition alt_identifier : alternative := fun s =>
  match s with
  | String c r =>
      if PyStr.is_ident_start c
      then Some (String c (fst (PyStr.span PyStr.is_word r)))
      else None
  | EmptyString => None
  end.

(** An alternation [a1|a2|...]: the alternatives are tried from left to
    right and the first one that matches is taken. *)
Fixpoint match_at (alts : list alternative) (s : string) : option string :=
  match alts with
  | [] => None
  | a :: rest =>
      match a s with
      | Some m => Some m
      | None => match_at rest s
      end
  end.

(** [re.findall(pattern, s)] for a pattern that is one group and never
    matches the empty string: the matches are searched from left to
    right, each search starting where the previous match ended; a
    position where nothing matches is passed over.  [skip] counts the
    characters of the last match that are still to be passed over. *)
Fixpoint findall_from (skip : nat) (alts : list alternative) (s : string)
  : list string :=
  match s with
  | EmptyString => []
  | String _ s' =>
      match skip with
      | S k => findall_from k alts s'
      | O =>
          match match_at alts s with
          | Some m => m :: findall_from (String.length m - 1) alts s'
          | None => findall_from 0 alts s'
          end
      end
  end.

Definition findall (alts : list alternative) (s : string) : list string :=
  findall_from 0 alts s.

End Re.

(* ================================================================= *)
(** * The Python runtime under the calculator *)

(** The exceptions [calculate] tells apart: [ZeroDivisionError],
    [ValueError] with its text, and every other [Exception] with its
    text. *)
Inductive exn : Type :=
| ZeroDivisionError
| ValueError (msg : string)
| OtherException (msg : string).

Inductive outcome (A : Type) : Type :=
| Ret (a : A)
| Raise (e : exn).

Arguments Ret {A} a.
Arguments Raise {A} e.

(** A computation followed by another; a fault ends both. *)
Definition and_then {A B : Type} (o : outcome A) (k : A -> outcome B)
  : outcome B :=
  match o with
  | Ret a => k a
  | Raise e => Raise e
  end.

(** What the operand stack holds: a float, or another object of the
    runtime (the [int] that [round] returns, the [complex] that [**]
    returns for a negative base and a fractional exponent). *)
Inductive value (obj : Type) : Type :=
| VFloat (x : F64.float64)
| VObj (o : obj).

Arguments VFloat {obj} x.
Arguments VObj {obj} o.

(** What the runtime provides and this file does not define: the
    library functions of the [functions] table, the operators on
    operands that are not both floats, [//], [%] and [**] on floats
    (C's [fmod], [floor] and [pow]), and [str] of a float. *)
Class Runtime : Type := {
  pyobj : Type;
  float_str : F64.float64 -> string;
  float_floordiv : F64.float64 -> F64.float64 -> F64.float64;
  float_mod : F64.float64 -> F64.float64 -> F64.float64;
  float_pow : F64.float64 -> F64.float64 -> outcome (value pyobj);
  obj_binop : string -> value pyobj -> value pyobj -> outcome (value pyobj);
  math_sin : value pyobj -> outcome (value pyobj);
  math_cos : value pyobj -> outcome (value pyobj);
  math_tan : value pyobj -> outcome (value pyobj);
  math_sqrt : value pyobj -> outcome (value pyobj);
  math_log10 : value pyobj -> outcome (value pyobj);
  math_log : value pyobj -> outcome (value pyobj);
  builtin_abs : value pyobj -> outcome (value pyobj);
  builtin_round : value pyobj -> outcome (value pyobj);
  obj_is_integer : pyobj -> outcome bool;
  obj_int : pyobj -> outcome Z;
  obj_round : pyobj -> Z -> outcome (value pyobj)
}.

(* ================================================================= *)
(** * The class [Calculator] *)

Section CalculatorClass.

Context {RT : Runtime}.

Definition val : Type := value pyobj.

(** ** The operators' lambdas *)

Definition py_add (x y : val) : outcome val :=
  match x, y with
  | VFloat a, VFloat b => Ret (VFloat (F64.add a b))
  | _, _ => obj_binop "+" x y
  end.

Definition py_sub (x y : val) : outcome val :=
  match x, y with
  | VFloat a, VFloat b => Ret (VFloat (F64.sub a b))
  | _, _ => obj_binop "-" x y
  end.

Definition py_mul (x y : val) : outcome val :=
  match x, y with
  | VFloat a, VFloat b => Ret (VFloat (F64.mul a b))
  | _, _ => obj_binop "*" x y
  end.

(** [x / y] on floats raises [ZeroDivisionError] when [y == 0.0]; there
    is no test of the divisor in [calculator.py]. *)
Definition py_truediv (x y : val) : outcome val :=
  match x, y with
  | VFloat a, VFloat b =>
      if F64.is_zero b then Raise ZeroDivisionError
      else Ret (VFloat (F64.div a b))
  | _, _ => obj_binop "/" x y
  end.

Definition py_floordiv (x y : val) : outcome val :=
  match x, y with
  | VFloat a, VFloat b =>
      if F64.is_zero b then Raise ZeroDivisionError
      else Ret (VFloat (float_floordiv a b))
  | _, _ => obj_binop "//" x y
  end.

Definition py_mod (x y : val) : outcome val :=
  match x, y with
  | VFloat a, VFloat b =>
      if F64.is_zero b then Raise ZeroDivisionError
      else Ret (VFloat (float_mod a b))
  | _, _ => obj_binop "%" x y
  end.

Definition py_pow (x y : val) : outcome val :=
  match x, y with
  | VFloat a, VFloat b => float_pow a b
  | _, _ => obj_binop "**" x y
  end.

(** ** The object and its methods' monad *)

(** A dict is kept as the list of its items in insertion order. *)
Definition dict (A : Type) : Type := list (string * A).

Fixpoint lookup {A : Type} (k : string) (d : dict A) : option A :=
  match d with
  | [] => None
  | (k', v) :: rest => if String.eqb k k' then Some v else lookup k rest
  end.

(** [k in d]. *)
Definition contains {A : Type} (d : dict A) (k : string) : bool :=
  match lookup k d with Some _ => true | None => false end.

Record Calculator : Type := {
  operators : dict (nat * (val -> val -> outcome val));
  functions : dict (val -> outcome val);
  constants : dict F64.float64
}.

(** [__init__]. *)
Definition init : Calculator := {|
  operators := [ ("+", (1, py_add));
                 ("-", (1, py_sub));
                 ("*", (2, py_mul));
                 ("/", (2, py_truediv));
                 ("//", (2, py_floordiv));
                 ("%", (2, py_mod));
                 ("^", (3, py_pow));
                 ("**", (3, py_pow)) ];
  functions := [ ("sin", math_sin);
                 ("cos", math_cos);
                 ("tan", math_tan);
                 ("sqrt", math_sqrt);
                 ("log", math_log10);
                 ("ln", math_log);
                 ("abs", builtin_abs);
                 ("round", builtin_round) ];
  constants := [ ("pi", F64.math_pi);
                 ("e", F64.math_e) ]
|}.

(** A method runs on the object [self]: it returns or raises, and leaves
    an object behind. *)
Definition M (A : Type) : Type := Calculator -> outcome A * Calculator.

Definition ret {A : Type} (a : A) : M A := fun self => (Ret a, self).

Definition raise {A : Type} (e : exn) : M A := fun self => (Raise e, self).

Definition bind {A B : Type} (m : M A) (k : A -> M B) : M B := fun self =>
  match m self with
  | (Ret a, self') => k a self'
  | (Raise e, self') => (Raise e, self')
  end.

(** Reading an attribute of [self]. *)
Definition attr {A : Type} (field : Calculator -> A) : M A :=
  fun self => (Ret (field self), self).

(** A call into the runtime. *)
Definition lift {A : Type} (o : outcome A) : M A := fun self => (o, self).

(** [d[k]], a [KeyError] when [k] is missing. *)
Definition getitem {A : Type} (d : dict A) (k : string) : M A :=
  match lookup k d with
  | Some v => ret v
  | None => raise (OtherException ("'" ++ k ++ "'")%string)
  end.

End CalculatorClass.

Declare Scope py_scope.
Delimit Scope py_scope with py.

Notation "x <- m ;; k" := (bind m (fun x => k))
  (at level 100, m at next level, right associativity) : py_scope.
Notation "' pat <- m ;; k" := (bind m (fun x => match x with pat => k end))
  (at level 100, pat pattern, m at next level, right associativity) : py_scope.

Section CalculatorMethods.

Context {RT : Runtime}.

Local Open Scope py_scope.

(** The pattern of [tokenize], one group whose alternatives are, in this
    order: [\d+\.?\d*], [[+\-*/()^%]], [\*\*], [//] and
    [[a-zA-Z_]\w*]. *)
Definition pattern : list Re.alternative :=
  [ Re.alt_number; Re.alt_single; Re.alt_literal "**"; Re.alt_literal "//";
    Re.alt_identifier ].

(** The loop of [tokenize] over [self.constants.items()]. *)
Definition replace_constants (items : dict F64.float64) (expression : string)
  : string :=
  fold_left (fun expression '(const, value) =>
               PyStr.replace const (float_str value) expression)
            items expression.

Definition tokenize (expression : string) : M (list string) :=
  items <- attr constants ;;
  let expression := replace_constants items expression in
  let tokens := Re.findall pattern (PyStr.replace " " "" expression) in
  ret tokens.

(** [float(token)]; the text of the error is not observed, every call
    being guarded by [is_number]. *)
Definition py_float (token : string) : outcome F64.float64 :=
  match F64.of_string token with
  | Some x => Ret x
  | None =>
      Raise (ValueError ("could not convert string to float: '" ++ token ++ "'")%string)
  end.

Definition is_number (token : string) : M bool :=
  match py_float token with
  | Ret _ => ret true
  | Raise (ValueError _) => ret false
  | Raise e => raise e
  end.

(** Stacks are lists whose head is the top ([operator_stack[-1]],
    [stack[-1]]); [output] is in the order of the appends. *)

(** The [while] loop of the operator branch of [infix_to_postfix]. *)
Fixpoint pop_operators (token : string) (output operator_stack : list string)
  : M (list string * list string) :=
  match operator_stack with
  | [] => ret (output, operator_stack)
  | top :: below =>
      if String.eqb top "(" then ret (output, operator_stack)
      else
        ops <- attr operators ;;
        if contains ops top then
          top_entry <- (ops <- attr operators ;; getitem ops top) ;;
          token_entry <- (ops <- attr operators ;; getitem ops token) ;;
          if (fst token_entry <=? fst top_entry)%nat
          then pop_operators token (output ++ [top]) below
          else ret (output, operator_stack)
        else ret (output, operator_stack)
  end.

(** The first [while] loop of the [')'] branch. *)
Fixpoint pop_until_paren (output operator_stack : list string)
  : list string * list string :=
  match operator_stack with
  | [] => (output, operator_stack)
  | top :: below =>
      if String.eqb top "(" then (output, operator_stack)
      else pop_until_paren (output ++ [top]) below
  end.

(** The [for] loop of [infix_to_postfix], followed by the final
    [while] loop, which appends the stack from its top down. *)
Fixpoint convert_loop (tokens output operator_stack : list string)
  : M (list string) :=
  match tokens with
  | [] => ret (output ++ operator_stack)
  | token :: rest =>
      isnum <- is_number token ;;
      if isnum then convert_loop rest (output ++ [token]) operator_stack
      else
        funs <- attr functions ;;
        if contains funs token
        then convert_loop rest output (token :: operator_stack)
        else
          ops <- attr operators ;;
          if contains ops token then
            '(output, operator_stack) <- pop_operators token output operator_stack ;;
            convert_loop rest output (token :: operator_stack)
          else if String.eqb token "("
          then convert_loop rest output (token :: operator_stack)
          else if String.eqb token ")" then
            let '(output, operator_stack) := pop_until_paren output operator_stack in
            let operator_stack :=
              match operator_stack with
              | top :: below => if String.eqb top "(" then below else operator_stack
              | [] => operator_stack
              end in
            match operator_stack with
            | top :: below =>
                funs <- attr functions ;;
                if contains funs top
                then convert_loop rest (output ++ [top]) below
                else convert_loop rest output operator_stack
            | [] => convert_loop rest output operator_stack
            end
          else convert_loop rest output operator_stack
  end.

Definition infix_to_postfix (tokens : list string) : M (list string) :=
  convert_loop tokens [] [].

Definition not_enough_operands (token : string) : string :=
  ("Invalid expression: not enough operands for '" ++ token ++ "'")%string.

Definition not_enough_arguments (token : string) : string :=
  ("Invalid expression: not enough arguments for '" ++ token ++ "'")%string.

(** The [for] loop of [evaluate_postfix]. *)
Fixpoint evaluate_loop (postfix : list string) (stack : list val)
  : M (list val) :=
  match postfix with
  | [] => ret stack
  | token :: rest =>
      isnum <- is_number token ;;
      if isnum then
        x <- lift (py_float token) ;;
        evaluate_loop rest (VFloat x :: stack)
      else
        ops <- attr operators ;;
        if contains ops token then
          match stack with
          | b :: a :: stack =>
              ops <- attr operators ;;
              entry <- getitem ops token ;;
              result <- lift (snd entry a b) ;;
              evaluate_loop rest (result :: stack)
          | _ => raise (ValueError (not_enough_operands token))
          end
        else
          funs <- attr functions ;;
          if contains funs token then
            match stack with
            | a :: stack =>
                funs <- attr functions ;;
                f <- getitem funs token ;;
                result <- lift (f a) ;;
                evaluate_loop rest (result :: stack)
            | [] => raise (ValueError (not_enough_arguments token))
            end
          else evaluate_loop rest stack
  end.

Definition evaluate_postfix (postfix : list string) : M val :=
  stack <- evaluate_loop postfix [] ;;
  match stack with
  | [x] => ret x
  | _ => raise (ValueError "Invalid expression")
  end.

(** ** The result formatter and [calculate] *)

(** What [calculate] returns: an [int], the value [round] gives, or a
    message. *)
Inductive result : Type :=
| RInt (n : Z)
| RVal (v : val)
| RStr (s : string).

(** [result.is_integer()]. *)
Definition py_is_integer (v : val) : outcome bool :=
  match v with
  | VFloat x => Ret (F64.is_integer x)
  | VObj o => obj_is_integer o
  end.

(** [int(result)]. *)
Definition py_int (v : val) : outcome Z :=
  match v with
  | VFloat (S754_infinity _) =>
      Raise (OtherException "cannot convert float infinity to integer")
  | VFloat S754_nan => Raise (ValueError "cannot convert float NaN to integer")
  | VFloat x => Ret (F64.to_Z x)
  | VObj o => obj_int o
  end.

(** [round(result, ndigits)]. *)
Definition py_round (v : val) (ndigits : Z) : outcome val :=
  match v with
  | VFloat x => Ret (VFloat (F64.round_ndigits x ndigits))
  | VObj o => obj_round o ndigits
  end.

Definition format_result (res : val) : M result :=
  isint <- lift (py_is_integer res) ;;
  if isint then n <- lift (py_int res) ;; ret (RInt n)
  else r <- lift (py_round res 10) ;; ret (RVal r).

(** The body of the [try] statement. *)
Definition calculate_body (expression : string) : M result :=
  if PyStr.is_empty (PyStr.strip expression)
  then ret (RStr "Error: Empty expression")
  else
    tokens <- tokenize expression ;;
    postfix <- infix_to_postfix tokens ;;
    res <- evaluate_postfix postfix ;;
    format_result res.

(** The [except] clauses. *)
Definition handle (e : exn) : result :=
  match e with
  | ZeroDivisionError => RStr "Error: Division by zero"
  | ValueError msg => RStr ("Error: " ++ msg)%string
  | OtherException msg => RStr ("Error: Invalid expression - " ++ msg)%string
  end.

Definition calculate (expression : string) (self : Calculator)
  : result * Calculator :=
  match calculate_body expression self with
  | (Ret r, self') => (r, self')
  | (Raise e, self') => (handle e, self')
  end.

End CalculatorMethods.

(* ================================================================= *)
(** * A runtime whose only values are floats *)

(** The examples are run on it.  Powers are taken by repeated
    multiplication, for a non-negative integral exponent; the library
    functions other than [abs] are not provided. *)
Module FloatRuntime.

Definition unsupported {A : Type} : outcome A :=
  Raise (OtherException "unsupported operand").

Definition str (x : F64.float64) : string :=
  match x with
  | S754_finite false 7074237752028440 (-51) => "3.141592653589793"
  | S754_finite false 6121026514868073 (-51) => "2.718281828459045"
  | S754_nan => "nan"
  | S754_infinity false => "inf"
  | S754_infinity true => "-inf"
  | _ => "0.0"
  end.

Definition pow (x y : F64.float64) : outcome (value Empty_set) :=
  if F64.is_integer y && (0 <=? F64.to_Z y)%Z
  then Ret (VFloat (Z.iter (F64.to_Z y) (F64.mul x) (F64.of_Z 1)))
  else unsupported.

Definition abs (v : value Empty_set) : outcome (value Empty_set) :=
  match v with
  | VFloat x => Ret (VFloat (SFabs x))
  | VObj o => match o with end
  end.

Definition floordiv (x y : F64.float64) : F64.float64 :=
  F64.of_Z (F64.to_Z x / F64.to_Z y).

Definition modulo (x y : F64.float64) : F64.float64 :=
  F64.of_Z (F64.to_Z x mod F64.to_Z y).

#[export] Instance runtime : Runtime := {|
  pyobj := Empty_set;
  float_str := str;
  float_floordiv := floordiv;
  float_mod := modulo;
  float_pow := pow;
  obj_binop := fun _ _ _ => unsupported;
  math_sin := fun _ => unsupported;
  math_cos := fun _ => unsupported;
  math_tan := fun _ => unsupported;
  math_sqrt := fun _ => unsupported;
  math_log10 := fun _ => unsupported;
  math_log := fun _ => unsupported;
  builtin_abs := abs;
  builtin_round := fun _ => unsupported;
  obj_is_integer := fun o => match o with end;
  obj_int := fun o => match o with end;
  obj_round := fun o _ => match o with end
|}.

End FloatRuntime.

(* ================================================================= *)
(** * The loops as functions of the tables *)

(** The methods read [self] and nothing else of the object; the
    functions below are what they compute from the tables read.  They
    are proved equal to the methods and carry the proofs that go by
    induction on the token list. *)
Section FunctionalForm.

Context {RT : Runtime}.

Definition is_num (token : string) : bool :=
  match F64.of_string token with Some _ => true | None => false end.

Definition precedence (ops : dict (nat * (val -> val -> outcome val)))
  (token : string) : nat :=
  match lookup token ops with Some entry => fst entry | None => 0 end.

Fixpoint pop_ops (ops : dict (nat * (val -> val -> outcome val)))
  (token : string) (output operator_stack : list string)
  : list string * list string :=
  match operator_stack with
  | [] => (output, operator_stack)
  | top :: below =>
      if String.eqb top "(" then (output, operator_stack)
      else if contains ops top then
        if (precedence ops token <=? precedence ops top)%nat
        then pop_ops ops token (output ++ [top]) below
        else (output, operator_stack)
      else (output, operator_stack)
  end.

Definition close_paren (funs : dict (val -> outcome val))
  (output operator_stack : list string) : list string * list string :=
  let '(output, operator_stack) := pop_until_paren output operator_stack in
  let operator_stack :=
    match operator_stack with
    | top :: below => if String.eqb top "(" then below else operator_stack
    | [] => operator_stack
    end in
  match operator_stack with
  | top :: below =>
      if contains funs top then (output ++ [top], below)
      else (output, operator_stack)
  | [] => (output, operator_stack)
  end.

Fixpoint shunt (ops : dict (nat * (val -> val -> outcome val)))
  (funs : dict (val -> outcome val))
  (tokens output operator_stack : list string) : list string :=
  match tokens with
  | [] => output ++ operator_stack
  | token :: rest =>
      if is_num token then shunt ops funs rest (output ++ [token]) operator_stack
      else if contains funs token
      then shunt ops funs rest output (token :: operator_stack)
      else if contains ops token then
        let '(output, operator_stack) := pop_ops ops token output operator_stack in
        shunt ops funs rest output (token :: operator_stack)
      else if String.eqb token "("
      then shunt ops funs rest output (token :: operator_stack)
      else if String.eqb token ")" then
        let '(output, operator_stack) := close_paren funs output operator_stack in
        shunt ops funs rest output operator_stack
      else shunt ops funs rest output operator_stack
  end.

(** One token of the postfix sequence, on the operand stack. *)
Definition eval_token (ops : dict (nat * (val -> val -> outcome val)))
  (funs : dict (val -> outcome val)) (token : string) (stack : list val)
  : outcome (list val) :=
  match F64.of_string token with
  | Some x => Ret (VFloat x :: stack)
  | None =>
      match lookup token ops with
      | Some entry =>
          match stack with
          | b :: a :: stack =>
              match snd entry a b with
              | Ret result => Ret (result :: stack)
              | Raise e => Raise e
              end
          | _ => Raise (ValueError (not_enough_operands token))
          end
      | None =>
          match lookup token funs with
          | Some f =>
              match stack with
              | a :: stack =>
                  match f a with
                  | Ret result => Ret (result :: stack)
                  | Raise e => Raise e
                  end
              | [] => Raise (ValueError (not_enough_arguments token))
              end
          | None => Ret stack
          end
      end
  end.

Fixpoint eval_tokens (ops : dict (nat * (val -> val -> outcome val)))
  (funs : dict (val -> outcome val)) (postfix : list string) (stack : list val)
  : outcome (list val) :=
  match postfix with
  | [] => Ret stack
  | token :: rest =>
      match eval_token ops funs token stack with
      | Ret stack => eval_tokens ops funs rest stack
      | Raise e => Raise e
      end
  end.

Definition tokens_in (items : dict F64.float64) (expression : string)
  : list string :=
  Re.findall pattern (PyStr.replace " " "" (replace_constants items expression)).

(** The end of [evaluate_postfix]: exactly one value must be left. *)
Definition single (stack : list val) : outcome val :=
  match stack with
  | [x] => Ret x
  | _ => Raise (ValueError "Invalid expression")
  end.

Definition format_value (v : val) : outcome result :=
  and_then (py_is_integer v) (fun isint =>
    if isint then and_then (py_int v) (fun n => Ret (RInt n))
    else and_then (py_round v 10) (fun r => Ret (RVal r))).

(** The postfix sequence [calculate] evaluates. *)
Definition postfix_in (self : Calculator) (expression : string) : list string :=
  shunt (operators self) (functions self)
        (tokens_in (constants self) expression) [] [].

(** The body of the [try] statement of [calculate]. *)
Definition calculation (self : Calculator) (expression : string)
  : outcome result :=
  if PyStr.is_empty (PyStr.strip expression)
  then Ret (RStr "Error: Empty expression")
  else
    and_then (eval_tokens (operators self) (functions self)
                          (postfix_in self expression) [])
      (fun stack => and_then (single stack) format_value).

End FunctionalForm.

(* ================================================================= *)
(** * Arithmetic expressions and their reference evaluator *)

(** The expressions over decimal numbers, [+ - * /] and parentheses,
    by their grammar

      expr   ::= term | expr addop term        addop ::= + | -
      term   ::= factor | term mulop factor     mulop ::= * | /
      factor ::= number | ( expr )

    so that an expression is its own parse: [*] and [/] bind tighter
    than [+] and [-], operators of one level group from left to right,
    and parentheses group first. *)
Inductive addop : Type := Plus | Minus.

Inductive mulop : Type := Times | Divide.

Inductive expr : Type :=
| ETerm (t : term)
| EAdd (e : expr) (o : addop) (t : term)
with term : Type :=
| TFactor (f : factor)
| TMul (t : term) (o : mulop) (f : factor)
with factor : Type :=
| FNum (lit : string)
| FParen (e : expr).

Scheme expr_term_ind := Induction for expr Sort Prop
  with term_expr_ind := Induction for term Sort Prop
  with factor_expr_ind := Induction for factor Sort Prop.

Combined Scheme expr_mutind from expr_term_ind, term_expr_ind, factor_expr_ind.

Module Grammar.

Local Open Scope string_scope.

(** A decimal number: digits, at least one, then possibly a point and
    digits. *)
Definition is_literal (lit : string) : bool :=
  let (ip, r) := PyStr.span PyStr.is_digit lit in
  negb (PyStr.is_empty ip) &&
  match r with
  | EmptyString => true
  | String "." fp => PyStr.forallb PyStr.is_digit fp
  | _ => false
  end.

(** The float nearest to the number a literal denotes. *)
Definition literal_value (lit : string) : F64.float64 :=
  let (ip, r) := PyStr.span PyStr.is_digit lit in
  let fp := match r with String "." fp => fp | _ => EmptyString end in
  F64.of_decimal false (F64.digits_value (ip ++ fp))
                 (- Z.of_nat (String.length fp)).

Definition addop_token (o : addop) : string :=
  match o with Plus => "+" | Minus => "-" end.

Definition mulop_token (o : mulop) : string :=
  match o with Times => "*" | Divide => "/" end.

(** The tokens of an expression, in the order they are written. *)
Fixpoint expr_tokens (e : expr) : list string :=
  match e with
  | ETerm t => term_tokens t
  | EAdd e o t => (expr_tokens e ++ addop_token o :: term_tokens t)%list
  end
with term_tokens (t : term) : list string :=
  match t with
  | TFactor f => factor_tokens f
  | TMul t o f => (term_tokens t ++ mulop_token o :: factor_tokens f)%list
  end
with factor_tokens (f : factor) : list string :=
  match f with
  | FNum lit => [lit]
  | FParen e => ("(" :: expr_tokens e ++ [")"])%list
  end.

(** The expression in postfix order. *)
Fixpoint expr_postfix (e : expr) : list string :=
  match e with
  | ETerm t => term_postfix t
  | EAdd e o t => (expr_postfix e ++ term_postfix t ++ [addop_token o])%list
  end
with term_postfix (t : term) : list string :=
  match t with
  | TFactor f => factor_postfix f
  | TMul t o f => (term_postfix t ++ factor_postfix f ++ [mulop_token o])%list
  end
with factor_postfix (f : factor) : list string :=
  match f with
  | FNum lit => [lit]
  | FParen e => expr_postfix e
  end.

(** Every number of the expression is a decimal number. *)
Fixpoint valid_expr (e : expr) : bool :=
  match e with
  | ETerm t => valid_term t
  | EAdd e _ t => valid_expr e && valid_term t
  end
with valid_term (t : term) : bool :=
  match t with
  | TFactor f => valid_factor f
  | TMul t _ f => valid_term t && valid_factor f
  end
with valid_factor (f : factor) : bool :=
  match f with
  | FNum lit => is_literal lit
  | FParen e => valid_expr e
  end.

Definition apply_addop (o : addop) (x y : F64.float64) : outcome F64.float64 :=
  match o with
  | Plus => Ret (F64.add x y)
  | Minus => Ret (F64.sub x y)
  end.

Definition apply_mulop (o : mulop) (x y : F64.float64) : outcome F64.float64 :=
  match o with
  | Times => Ret (F64.mul x y)
  | Divide => if F64.is_zero y then Raise ZeroDivisionError
              else Ret (F64.div x y)
  end.

(** The reference evaluator: by recursion on the parse, the left operand
    before the right one; a division by zero is a fault. *)
Fixpoint eval_expr (e : expr) : outcome F64.float64 :=
  match e with
  | ETerm t => eval_term t
  | EAdd e o t =>
      and_then (eval_expr e) (fun x =>
      and_then (eval_term t) (fun y => apply_addop o x y))
  end
with eval_term (t : term) : outcome F64.float64 :=
  match t with
  | TFactor f => eval_factor f
  | TMul t o f =>
      and_then (eval_term t) (fun x =>
      and_then (eval_factor f) (fun y => apply_mulop o x y))
  end
with eval_factor (f : factor) : outcome F64.float64 :=
  match f with
  | FNum lit => Ret (literal_value lit)
  | FParen e => eval_expr e
  end.

(** The characters of the tokens of an expression. *)
Definition is_token_char (c : ascii) : bool :=
  PyStr.is_digit c || Ascii.eqb c "." || Re.is_single_operator c.

(** A token of an expression: not empty, made of such characters. *)
Definition token_ok (t : string) : bool :=
  negb (PyStr.is_empty t) && PyStr.forallb is_token_char t.

(** The characters of an expression as it is written. *)
Definition is_layout_char (c : ascii) : bool :=
  is_token_char c || Ascii.eqb c " ".

(** What can follow a number in an expression: nothing, or a character
    that is neither a digit nor a point. *)
Definition ends_number (rest : string) : bool :=
  match rest with
  | EmptyString => true
  | String c _ => negb (PyStr.is_digit c || Ascii.eqb c ".")
  end.

Fixpoint blanks (n : nat) : string :=
  match n with
  | O => EmptyString
  | S k => String " " (blanks k)
  end.

(** The tokens written one after the other, the i-th one after
    [gaps[i]] blanks (none where [gaps] has run out), and the blanks
    left in [gaps] for the end. *)
Fixpoint layout (gaps : list nat) (tokens : list string) : string :=
  match tokens with
  | [] => blanks (hd O gaps)
  | t :: rest => blanks (hd O gaps) ++ t ++ layout (tl gaps) rest
  end.

(** [2 + 3 * 4], [(2 + 3) * 4] and [1 / 3]. *)
Definition sum_with_product : expr :=
  EAdd (ETerm (TFactor (FNum "2"))) Plus
       (TMul (TFactor (FNum "3")) Times (FNum "4")).

Definition product_of_sum : expr :=
  ETerm (TMul (TFactor (FParen (EAdd (ETerm (TFactor (FNum "2"))) Plus
                                     (TFactor (FNum "3")))))
              Times (FNum "4")).

Definition one_third : expr :=
  ETerm (TMul (TFactor (FNum "1")) Divide (FNum "3")).

End Grammar.

Section Presentation.

Context {RT : Runtime}.

(** A value of the reference evaluator as the result formatter presents
    it, a fault as the [except] clauses do. *)
Definition present (o : outcome F64.float64) : result :=
  match o with
  | Ret x =>
      if F64.is_integer x then RInt (F64.to_Z x)
      else RVal (VFloat (F64.round_ndigits x 10))
  | Raise e => handle e
  end.

(** A result that is the number [x]: the float itself, or the integer
    equal to it. *)
Definition same_value (r : result) (x : F64.float64) : Prop :=
  r = RVal (VFloat x) \/ exists n : Z, r = RInt n /\ F64.of_Z n = x.

(** The three kinds of answers of [calculate]. *)
Definition is_answer (r : result) : Prop :=
  (exists n : Z, r = RInt n) \/ (exists v : val, r = RVal v)
  \/ (exists msg : string, r = RStr ("Error: " ++ msg)%string).

(** The operators pending on the stack above [st] after an expression
    of one level has been read: keys of [operators] whose precedence is
    at least that of the level. *)
Definition pending (ops : dict (nat * (val -> val -> outcome val)))
  (level : nat) (pend : list string) : Prop :=
  Forall (fun t => contains ops t = true
                   /\ (level <= precedence ops t)%nat) pend.

(** The top of the stack stays where it is when an operator of
    precedence [level] comes in. *)
Definition low_top (ops : dict (nat * (val -> val -> outcome val)))
  (level : nat) (st : list string) : bool :=
  match st with
  | [] => true
  | top :: _ =>
      String.eqb top "(" || negb (contains ops top)
      || (precedence ops top <? level)%nat
  end.

(** The top of the stack is not a function waiting for its argument. *)
Definition no_function_on_top (funs : dict (val -> outcome val))
  (st : list string) : bool :=
  match st with
  | [] => true
  | top :: _ => negb (contains funs top)
  end.

(** The operators that divide. *)
Definition is_division (token : string) : bool :=
  existsb (String.eqb token) ["/"; "//"; "%"].

End Presentation.

(* ================================================================= *)
(** * The shapes of tokens *)

Module Token.

Local Open Scope string_scope.

(** [[a-zA-Z_]\w*], matching the whole of [t]. *)
Definition is_identifier (t : string) : bool :=
  match t with
  | String c r => PyStr.is_ident_start c && PyStr.forallb PyStr.is_word r
  | EmptyString => false
  end.

(** One character of the class [[+\-*/()^%]]. *)
Definition is_operator_char (t : string) : bool :=
  match t with
  | String c EmptyString => Re.is_single_operator c
  | _ => false
  end.

(** The three shapes of a token: a decimal number, one character of the
    class, an identifier. *)
Definition shape_ok (t : string) : bool :=
  Grammar.is_literal t || is_operator_char t || is_identifier t.

(** A word that [float()] takes for a number: [inf], [infinity] or
    [nan], in any mix of upper and lower case. *)
Definition is_float_word (t : string) : bool :=
  existsb (String.eqb (PyStr.map PyStr.lower t)) ["inf"; "infinity"; "nan"].

(** A character at which the pattern matches. *)
Definition starts_token (c : ascii) : bool :=
  PyStr.is_digit c || Re.is_single_operator c || PyStr.is_ident_start c.

(** A character that no constant's name begins with: the constants are
    [pi] and [e]. *)
Definition is_plain (c : ascii) : bool :=
  negb (Ascii.eqb c "p" || Ascii.eqb c "e").

(** A token as it can be written in an expression and found again: not
    empty, without whitespace and without the letters [p] and [e]. *)
Definition is_written (t : string) : bool :=
  negb (PyStr.is_empty t)
  && PyStr.forallb (fun c => is_plain c && negb (PyStr.is_space c)) t.

End Token.

(** [a] is [b] with some of its characters left out. *)
Inductive subsequence : string -> string -> Prop :=
| sub_empty : subsequence EmptyString EmptyString
| sub_drop (c : ascii) (a b : string) :
    subsequence a b -> subsequence a (String c b)
| sub_keep (c : ascii) (a b : string) :
    subsequence a b -> subsequence (String c a) (String c b).

Section ScannedText.

Context {RT : Runtime}.

(** The text [tokenize] hands to [re.findall]: the expression with the
    constants replaced, then without its blanks. *)
Definition scanned_text (items : dict F64.float64) (expression : string)
  : string :=
  PyStr.replace " " "" (replace_constants items expression).

End ScannedText.

(* ================================================================= *)
(** * Kinds of tokens *)

Section TokenKinds.

Context {RT : Runtime}.

(** A token the converter puts on the output or on the stack without
    asking whether it is a parenthesis: a number, a key of [functions]
    or a key of [operators]. *)
Definition is_converted (ops : dict (nat * (val -> val -> outcome val)))
  (funs : dict (val -> outcome val)) (token : string) : bool :=
  is_num token || contains funs token || contains ops token.

(** A token the evaluator takes for an operator: not a number, and a
    key of [operators]. *)
Definition is_operator_token (ops : dict (nat * (val -> val -> outcome val)))
  (token : string) : bool :=
  negb (is_num token) && contains ops token.

(** [calculate] returned a message, not a number. *)
Definition is_message (r : result) : bool :=
  match r with RStr _ => true | _ => false end.

End TokenKinds.

(* ================================================================= *)
(** * The whole language of the calculator *)

(** What the tokenizer and the converter make an expression of: decimal
    numbers, the six operators the tokenizer can return, parentheses
    and calls of the functions of the table. *)
Inductive binop : Type := OpAdd | OpSub | OpMul | OpDiv | OpMod | OpPow.

Inductive formula : Type :=
| Number (lit : string)
| Binary (l : formula) (o : binop) (r : formula)
| Group (e : formula)
| Apply (name : string) (e : formula).

Module Formula.

Section Reference.

Context {RT : Runtime}.

Local Open Scope string_scope.

Definition binop_token (o : binop) : string :=
  match o with
  | OpAdd => "+" | OpSub => "-"
  | OpMul => "*" | OpDiv => "/" | OpMod => "%"
  | OpPow => "^"
  end.

(** The three levels of the operators, from the loosest. *)
Definition binop_level (o : binop) : nat :=
  match o with
  | OpAdd | OpSub => 1
  | OpMul | OpDiv | OpMod => 2
  | OpPow => 3
  end.

(** The level of a formula: that of its operator, and above all of them
    for a number, a group and a call. *)
Definition level (e : formula) : nat :=
  match e with
  | Binary _ o _ => binop_level o
  | _ => 4
  end.

Definition is_function_name (name : string) : bool :=
  existsb (String.eqb name)
          ["sin"; "cos"; "tan"; "sqrt"; "log"; "ln"; "abs"; "round"].

(** A formula that is its own parse: the left operand of an operator is
    of its level at least, the right operand of a higher one (operators
    of one level group from left to right), anything else is in
    parentheses; numbers are decimal numbers and the functions called
    are those of the table. *)
Fixpoint well_formed (e : formula) : bool :=
  match e with
  | Number lit => Grammar.is_literal lit
  | Binary l o r =>
      well_formed l && well_formed r
      && (binop_level o <=? level l)%nat && (binop_level o <? level r)%nat
  | Group e => well_formed e
  | Apply name e => is_function_name name && well_formed e
  end.

(** The tokens of a formula, in the order they are written. *)
Fixpoint tokens (e : formula) : list string :=
  match e with
  | Number lit => [lit]
  | Binary l o r => (tokens l ++ binop_token o :: tokens r)%list
  | Group e => ("(" :: tokens e ++ [")"])%list
  | Apply name e => (name :: "(" :: tokens e ++ [")"])%list
  end.

(** The formula in postfix order. *)
Fixpoint postfix (e : formula) : list string :=
  match e with
  | Number lit => [lit]
  | Binary l o r => (postfix l ++ postfix r ++ [binop_token o])%list
  | Group e => postfix e
  | Apply name e => (postfix e ++ [name])%list
  end.

Definition apply_binop (o : binop) (x y : val) : outcome val :=
  match o with
  | OpAdd => py_add x y
  | OpSub => py_sub x y
  | OpMul => py_mul x y
  | OpDiv => py_truediv x y
  | OpMod => py_mod x y
  | OpPow => py_pow x y
  end.

Definition call (name : string) (x : val) : outcome val :=
  if name =? "sin" then math_sin x
  else if name =? "cos" then math_cos x
  else if name =? "tan" then math_tan x
  else if name =? "sqrt" then math_sqrt x
  else if name =? "log" then math_log10 x
  else if name =? "ln" then math_log x
  else if name =? "abs" then builtin_abs x
  else if name =? "round" then builtin_round x
  else Raise (OtherException ("'" ++ name ++ "'")).

(** The reference evaluator: by recursion on the parse, the left operand
    before the right one, a fault of the runtime ending the
    evaluation. *)
Fixpoint eval (e : formula) : outcome val :=
  match e with
  | Number lit => Ret (VFloat (Grammar.literal_value lit))
  | Binary l o r =>
      and_then (eval l) (fun x =>
      and_then (eval r) (fun y => apply_binop o x y))
  | Group e => eval e
  | Apply name e => and_then (eval e) (call name)
  end.

(** What [calculate] answers for a value or a fault of the reference
    evaluator: the value through the result formatter, the fault through
    the [except] clauses. *)
Definition answer (o : outcome val) : result :=
  match and_then o format_value with
  | Ret r => r
  | Raise e => handle e
  end.

(** Parentheses that do not balance: [n] opening ones before the
    tokens, [m] closing ones after them. *)
Definition wrapped (n m : nat) (tokens : list string) : list string :=
  (repeat "(" n ++ tokens ++ repeat ")" m)%list.

(** A token as it is written, read as the tokenizer will see it: the
    name of a constant stands for the digits CPython's [str] gives its
    value. *)
Definition read_constant (t : string) : string :=
  if t =? "pi" then "3.141592653589793"
  else if t =? "e" then "2.718281828459045"
  else t.

(** [2 * pi], the constant read as its digits. *)
Definition twice_pi : formula :=
  Binary (Number "2") OpMul (Number "3.141592653589793").

(** [abs(2 - 5) * 2 ^ 3 % 5]. *)
Definition sample : formula :=
  Binary (Binary (Apply "abs" (Binary (Number "2") OpSub (Number "5")))
                 OpMul
                 (Binary (Number "2") OpPow (Number "3")))
         OpMod (Number "5").

End Reference.

End Formula.

(* ================================================================= *)
(** * The program around the class *)

(** What [input()] does when the program calls it: it returns a line,
    or raises [KeyboardInterrupt] or [EOFError]. *)
Inductive input_event : Type :=
| Line (s : string)
| KeyboardInterrupt
| EOFError.

Module Console.

Local Open Scope string_scope.

(** A printed text, as code points: the two pictographs the program
    prints lie outside the characters of [string]. *)
Definition text : Type := list N.

Definition text_of (s : string) : text :=
  List.map N_of_ascii (list_ascii_of_string s).

(** What the program has done to the terminal: [input(prompt)] has
    written its prompt, [print(t)] has written [t] and a newline,
    [os.system(command)] has run a command. *)
Inductive effect : Type :=
| Prompted (t : text)
| Printed (t : text)
| Shell (command : string).

(** The program has returned, or waits in [input()] for a line. *)
Inductive status : Type := Exited | Waiting.

(** [c.lower()] below 256: the ASCII capitals and the Latin-1 ones. *)
Definition lower_char (c : ascii) : ascii :=
  if PyStr.between 65 90 c || PyStr.between 192 214 c
     || PyStr.between 216 222 c
  then ascii_of_nat (PyStr.code c + 32) else c.

(** [s.lower()]. *)
Definition lower (s : string) : string := PyStr.map lower_char s.

(** [sep.join(parts)]. *)
Fixpoint join_with (sep : string) (parts : list string) : string :=
  match parts with
  | [] => ""
  | [p] => p
  | p :: rest => p ++ sep ++ join_with sep rest
  end.

(** [s * n]. *)
Fixpoint times (s : string) (n : nat) : string :=
  match n with
  | O => ""
  | S k => s ++ times s k
  end.

Fixpoint str_uint (d : Decimal.uint) : string :=
  match d with
  | Decimal.Nil => ""
  | Decimal.D0 d => String "0" (str_uint d)
  | Decimal.D1 d => String "1" (str_uint d)
  | Decimal.D2 d => String "2" (str_uint d)
  | Decimal.D3 d => String "3" (str_uint d)
  | Decimal.D4 d => String "4" (str_uint d)
  | Decimal.D5 d => String "5" (str_uint d)
  | Decimal.D6 d => String "6" (str_uint d)
  | Decimal.D7 d => String "7" (str_uint d)
  | Decimal.D8 d => String "8" (str_uint d)
  | Decimal.D9 d => String "9" (str_uint d)
  end.

(** [str(n)] for an [int]. *)
Definition str_int (n : Z) : string :=
  match Z.to_int n with
  | Decimal.Pos d => str_uint d
  | Decimal.Neg d => String "-" (str_uint d)
  end.

Definition newline : string := String (ascii_of_nat 10) "".

(** The lines of [help_text]; the text begins with a newline, and each
    line is followed by one. *)
Definition help_lines : list string :=
  [
    "Terminal Calculator Help";
    "========================";
    "";
    "Basic Operations:";
    "  +, -, *, /        Basic arithmetic";
    "  **, ^             Exponentiation";
    "  //, %             Floor division, modulo";
    "  ( )               Parentheses for grouping";
    "";
    "Functions:";
    "  sin(x), cos(x), tan(x)    Trigonometric functions";
    "  sqrt(x)                   Square root";
    "  log(x), ln(x)             Logarithms (base 10 and natural)";
    "  abs(x)                    Absolute value";
    "  round(x)                  Round to nearest integer";
    "";
    "Constants:";
    "  pi                3.14159...";
    "  e                 2.71828...";
    "";
    "Commands:";
    "  help              Show this help";
    "  quit, exit        Exit the calculator";
    "  clear             Clear screen";
    "";
    "Examples:";
    "  2 + 3 * 4         = 14";
    "  (2 + 3) * 4       = 20";
    "  sqrt(16)          = 4";
    "  sin(pi/2)         = 1";
    "  2^3               = 8";
    "  10 % 3            = 1"
  ].

Definition help_text : string :=
  newline ++ PyStr.join (List.map (fun l => l ++ newline) help_lines).

(** The abacus and the waving hand. *)
Definition abacus : N := 129518.
Definition waving_hand : N := 128075.

Definition goodbye : text := (text_of "Goodbye! " ++ [waving_hand])%list.

Definition prompt : text := text_of "calc> ".

(** An event at which the loop of the interactive mode ends: an
    interrupt, the end of the input, or a line that reads [quit], [exit]
    or [q] once stripped and in lower case. *)
Definition stops (ev : input_event) : bool :=
  match ev with
  | Line raw =>
      existsb (String.eqb (lower (PyStr.strip raw))) ["quit"; "exit"; "q"]
  | KeyboardInterrupt | EOFError => true
  end.

Section Program.

Context {RT : Runtime}.

(** [str(o)] for a value that is not a float, and [os.name]. *)
Variable obj_str : pyobj -> string.
Variable os_name : string.

(** [str(result)], which [print] and the f-string write. *)
Definition str_result (r : result) : string :=
  match r with
  | RInt n => str_int n
  | RVal (VFloat x) => float_str x
  | RVal (VObj o) => obj_str o
  | RStr s => s
  end.

(** [print_help]. *)
Definition print_help : list effect := [Printed (text_of help_text)].

(** The body of the [while] loop of [interactive_mode], from what
    [input()] did: what is written, whether the loop goes on, and the
    object.  An interrupt is taken where the program waits, in
    [input()]. *)
Definition loop_body (calc : Calculator) (ev : input_event)
  : list effect * bool * Calculator :=
  match ev with
  | KeyboardInterrupt | EOFError =>
      ([Printed (text_of newline ++ goodbye)%list], false, calc)
  | Line raw =>
      let expression := PyStr.strip raw in
      if PyStr.is_empty expression then ([], true, calc)
      else if existsb (String.eqb (lower expression)) ["quit"; "exit"; "q"]
      then ([Printed goodbye], false, calc)
      else if lower expression =? "help" then (print_help, true, calc)
      else if lower expression =? "clear"
      then ([Shell (if os_name =? "posix" then "clear" else "cls")],
            true, calc)
      else
        let (res, calc) := calculate expression calc in
        ([Printed (text_of ("  = " ++ str_result res))], true, calc)
  end.

(** The [while True] loop on the events that [input()] meets, one for
    each call; when they have run out, the program waits in
    [input()]. *)
Fixpoint session (calc : Calculator) (events : list input_event)
  : list effect * status :=
  match events with
  | [] => ([Prompted prompt], Waiting)
  | ev :: rest =>
      let '(written, goes_on, calc) := loop_body calc ev in
      if goes_on then
        let (effects, st) := session calc rest in
        ((Prompted prompt :: written ++ effects)%list, st)
      else ((Prompted prompt :: written)%list, Exited)
  end.

Definition banner : list effect :=
  [ Printed (abacus :: text_of " Terminal Calculator");
    Printed (text_of "Type 'help' for commands, 'quit' to exit");
    Printed (text_of (times "-" 40)) ].

(** [interactive_mode]. *)
Definition interactive_mode (events : list input_event)
  : list effect * status :=
  let (effects, st) := session init events in
  ((banner ++ effects)%list, st).

(** [main], from [sys.argv] and what [input()] will meet. *)
Definition main (argv : list string) (events : list input_event)
  : list effect * status :=
  match argv with
  | [_] => interactive_mode events
  | _ =>
      if (List.length argv =? 2)%nat
         && existsb (String.eqb (nth 1 argv "")) ["-h"; "--help"]
      then (print_help, Exited)
      else
        let expression := join_with " " (tl argv) in
        let (res, _) := calculate expression init in
        ([Printed (text_of (str_result res))], Exited)
  end.

(** What one event makes the session write, and whether the loop goes
    on after it. *)
Definition written_for (calc : Calculator) (ev : input_event) : list effect :=
  Prompted prompt :: fst (fst (loop_body calc ev)).

Definition goes_on (calc : Calculator) (ev : input_event) : bool :=
  snd (fst (loop_body calc ev)).

End Program.

End Console.

(* ================================================================= *)
(** * The methods leave the object as it is *)

Section Methods.

Context {RT : Runtime}.

Local Open Scope py_scope.

(** A method that reads [self] only: it leaves [self] behind, and what
    it returns is a function of [self]. *)
Definition reads_only {A : Type} (m : M A) (f : Calculator -> outcome A)
  : Prop :=
  forall self, m self = (f self, self).

Lemma reads_ret {A : Type} (a : A) : reads_only (ret a) (fun _ => Ret a).
Proof. intro self. reflexivity. Qed.

Lemma reads_bind {A B : Type} (m : M A) (k : A -> M B)
  (f : Calculator -> outcome A) (g : A -> Calculator -> outcome B) :
  reads_only m f ->
  (forall a, reads_only (k a) (g a)) ->
  reads_only (bind m k) (fun self => and_then (f self) (fun a => g a self)).
Proof.
  intros Hm Hk self. unfold bind. rewrite Hm.
  destruct (f self) as [a | e]; simpl.
  - apply Hk.
  - reflexivity.
Qed.

Lemma lookup_contains {A : Type} (d : dict A) (k : string) :
  contains d k = true -> exists v, lookup k d = Some v.
Proof.
  unfold contains. destruct (lookup k d) as [v | ].
  - intros _. exists v. reflexivity.
  - discriminate.
Qed.

Lemma is_number_run (token : string) (self : Calculator) :
  is_number token self = (Ret (is_num token), self).
Proof.
  unfold is_number, is_num, py_float.
  destruct (F64.of_string token); reflexivity.
Qed.

Lemma pop_operators_run (token : string) (operator_stack output : list string)
  (self : Calculator) :
  contains (operators self) token = true ->
  pop_operators token output operator_stack self
  = (Ret (pop_ops (operators self) token output operator_stack), self).
Proof.
  intros Htok. revert output.
  induction operator_stack as [ | top below IH]; intro output; simpl.
  - reflexivity.
  - destruct (String.eqb top "("); [reflexivity | ].
    unfold bind at 1, attr at 1.
    destruct (contains (operators self) top) eqn:Htop; [ | reflexivity].
    destruct (lookup_contains _ _ Htop) as [pt Hpt].
    destruct (lookup_contains _ _ Htok) as [pk Hpk].
    unfold bind, attr, getitem, precedence.
    rewrite Hpt. simpl. rewrite Hpk. simpl.
    destruct (fst pk <=? fst pt)%nat.
    + apply IH.
    + reflexivity.
Qed.

Lemma convert_loop_run (tokens output operator_stack : list string)
  (self : Calculator) :
  convert_loop tokens output operator_stack self
  = (Ret (shunt (operators self) (functions self) tokens output operator_stack),
     self).
Proof.
  revert output operator_stack.
  induction tokens as [ | token rest IH]; intros output operator_stack; simpl.
  - reflexivity.
  - unfold bind at 1. rewrite is_number_run.
    destruct (is_num token); [apply IH | ].
    unfold bind at 1, attr at 1.
    destruct (contains (functions self) token); [apply IH | ].
    unfold bind at 1, attr at 1.
    destruct (contains (operators self) token) eqn:Hop.
    + unfold bind. rewrite (pop_operators_run _ _ _ _ Hop).
      destruct (pop_ops (operators self) token output operator_stack).
      apply IH.
    + destruct (String.eqb token "("); [apply IH | ].
      destruct (String.eqb token ")"); [ | apply IH].
      unfold close_paren.
      destruct (pop_until_paren output operator_stack) as [out1 st1].
      destruct st1 as [ | top below]; [apply IH | ].
      destruct (String.eqb top "(").
      * destruct below as [ | top' below']; [apply IH | ].
        unfold bind, attr.
        destruct (contains (functions self) top'); apply IH.
      * unfold bind, attr.
        destruct (contains (functions self) top); apply IH.
Qed.

Lemma infix_to_postfix_run (tokens : list string) (self : Calculator) :
  infix_to_postfix tokens self
  = (Ret (shunt (operators self) (functions self) tokens [] []), self).
Proof. apply convert_loop_run. Qed.

Lemma tokenize_run (expression : string) (self : Calculator) :
  tokenize expression self
  = (Ret (tokens_in (constants self) expression), self).
Proof. reflexivity. Qed.

Lemma contains_lookup_none {A : Type} (d : dict A) (k : string) :
  contains d k = false -> lookup k d = None.
Proof.
  unfold contains. destruct (lookup k d); [discriminate | reflexivity].
Qed.

Lemma evaluate_loop_run (postfix : list string) (stack : list val)
  (self : Calculator) :
  evaluate_loop postfix stack self
  = (eval_tokens (operators self) (functions self) postfix stack, self).
Proof.
  revert stack.
  induction postfix as [ | token rest IH]; intro stack; simpl.
  - reflexivity.
  - unfold bind at 1. rewrite is_number_run.
    unfold eval_token, is_num, py_float.
    destruct (F64.of_string token) as [x | ].
    + unfold bind, lift. apply IH.
    + unfold bind at 1, attr at 1.
      destruct (contains (operators self) token) eqn:Hop.
      * destruct (lookup_contains _ _ Hop) as [entry Hentry]. rewrite Hentry.
        destruct stack as [ | b [ | a stack]]; try reflexivity.
        unfold bind, attr, getitem, lift. rewrite Hentry. simpl.
        destruct (snd entry a b); [apply IH | reflexivity].
      * rewrite (contains_lookup_none _ _ Hop).
        unfold bind at 1, attr at 1.
        destruct (contains (functions self) token) eqn:Hfun.
        -- destruct (lookup_contains _ _ Hfun) as [f Hf]. rewrite Hf.
           destruct stack as [ | a stack]; try reflexivity.
           unfold bind, attr, getitem, lift. rewrite Hf. simpl.
           destruct (f a); [apply IH | reflexivity].
        -- rewrite (contains_lookup_none _ _ Hfun). apply IH.
Qed.

Lemma evaluate_postfix_run (postfix : list string) (self : Calculator) :
  evaluate_postfix postfix self
  = (and_then (eval_tokens (operators self) (functions self) postfix []) single,
     self).
Proof.
  unfold evaluate_postfix, bind. rewrite evaluate_loop_run.
  destruct (eval_tokens (operators self) (functions self) postfix [])
    as [stack | e]; simpl; [ | reflexivity].
  destruct stack as [ | x [ | y stack]]; reflexivity.
Qed.

Lemma format_result_run (v : val) (self : Calculator) :
  format_result v self = (format_value v, self).
Proof.
  unfold format_result, format_value, bind, lift.
  destruct (py_is_integer v) as [[ | ] | e]; simpl; try reflexivity.
  - destruct (py_int v); reflexivity.
  - destruct (py_round v 10); reflexivity.
Qed.

Lemma calculate_body_run (expression : string) (self : Calculator) :
  calculate_body expression self = (calculation self expression, self).
Proof.
  unfold calculate_body, calculation, postfix_in.
  destruct (PyStr.is_empty (PyStr.strip expression)); [reflexivity | ].
  unfold bind at 1. rewrite tokenize_run.
  unfold bind at 1. rewrite infix_to_postfix_run.
  unfold bind. rewrite evaluate_postfix_run.
  destruct (eval_tokens _ _ _ _) as [stack | e]; simpl; [ | reflexivity].
  destruct (single stack) as [v | e]; simpl; [ | reflexivity].
  apply format_result_run.
Qed.

Lemma calculate_run (expression : string) (self : Calculator) :
  calculate expression self
  = (match calculation self expression with
     | Ret r => r
     | Raise e => handle e
     end, self).
Proof.
  unfold calculate. rewrite calculate_body_run.
  destruct (calculation self expression); reflexivity.
Qed.

End Methods.

(* ================================================================= *)
(** * The postfix evaluator *)

Section Evaluator.

Context {RT : Runtime}.

Variable ops : dict (nat * (val -> val -> outcome val)).
Variable funs : dict (val -> outcome val).

Lemma eval_tokens_app (pre post : list string) (stack : list val) :
  eval_tokens ops funs (pre ++ post) stack
  = and_then (eval_tokens ops funs pre stack) (eval_tokens ops funs post).
Proof.
  revert stack. induction pre as [ | t pre IH]; intro stack; simpl.
  - reflexivity.
  - destruct (eval_token ops funs t stack); simpl; [apply IH | reflexivity].
Qed.

(** A fault of the loop is the fault of one token, met on the stack the
    tokens before it have built. *)
Lemma eval_tokens_raise (postfix : list string) (stack : list val) (e : exn) :
  eval_tokens ops funs postfix stack = Raise e ->
  exists pre token post stack',
    postfix = pre ++ token :: post
    /\ eval_tokens ops funs pre stack = Ret stack'
    /\ eval_token ops funs token stack' = Raise e.
Proof.
  revert stack. induction postfix as [ | t rest IH]; intros stack H; simpl in H.
  - discriminate.
  - destruct (eval_token ops funs t stack) as [stack1 | e1] eqn:Ht.
    + destruct (IH _ H) as (pre & token & post & stack' & -> & Hpre & Htok).
      exists (t :: pre), token, post, stack'. simpl. rewrite Ht.
      repeat split; assumption.
    + injection H as ->.
      exists [], t, rest, stack. repeat split. exact Ht.
Qed.

(** The ways one token can fail. *)
Lemma eval_token_raise (token : string) (stack : list val) (e : exn) :
  eval_token ops funs token stack = Raise e ->
  is_num token = false /\
  ( (contains ops token = true /\ (List.length stack < 2)%nat
     /\ e = ValueError (not_enough_operands token))
    \/ (contains ops token = false /\ contains funs token = true
        /\ stack = [] /\ e = ValueError (not_enough_arguments token))
    \/ (exists entry a b rest,
          lookup token ops = Some entry /\ stack = b :: a :: rest
          /\ snd entry a b = Raise e)
    \/ (exists f a rest,
          lookup token ops = None /\ lookup token funs = Some f
          /\ stack = a :: rest /\ f a = Raise e) ).
Proof.
  unfold eval_token, is_num, contains.
  destruct (F64.of_string token); [discriminate | ].
  intro H. split; [reflexivity | ].
  destruct (lookup token ops) as [entry | ].
  - destruct stack as [ | b [ | a rest]].
    + left. injection H as <-. simpl. auto.
    + left. injection H as <-. simpl. auto.
    + right; right; left. exists entry, a, b, rest.
      destruct (snd entry a b); [discriminate | ].
      injection H as <-. auto.
  - destruct (lookup token funs) as [f | ]; [ | discriminate].
    destruct stack as [ | a rest].
    + right; left. injection H as <-. auto.
    + right; right; right. exists f, a, rest.
      destruct (f a); [discriminate | ]. injection H as <-. auto.
Qed.

Lemma eval_token_skip (token : string) (stack : list val) :
  is_num token = false -> contains ops token = false ->
  contains funs token = false ->
  eval_token ops funs token stack = Ret stack.
Proof.
  unfold eval_token, is_num. intros Hn Ho Hf.
  destruct (F64.of_string token); [discriminate | ].
  rewrite (contains_lookup_none _ _ Ho), (contains_lookup_none _ _ Hf).
  reflexivity.
Qed.

Lemma eval_token_operands (token : string) (stack : list val) :
  is_num token = false -> contains ops token = true ->
  (List.length stack < 2)%nat ->
  eval_token ops funs token stack
  = Raise (ValueError (not_enough_operands token)).
Proof.
  unfold eval_token, is_num. intros Hn Ho Hlen.
  destruct (F64.of_string token); [discriminate | ].
  destruct (lookup_contains _ _ Ho) as [entry ->].
  destruct stack as [ | b [ | a rest]]; simpl in Hlen; try reflexivity; lia.
Qed.

Lemma eval_token_arguments (token : string) :
  is_num token = false -> contains ops token = false ->
  contains funs token = true ->
  eval_token ops funs token []
  = Raise (ValueError (not_enough_arguments token)).
Proof.
  unfold eval_token, is_num. intros Hn Ho Hf.
  destruct (F64.of_string token); [discriminate | ].
  rewrite (contains_lookup_none _ _ Ho).
  destruct (lookup_contains _ _ Hf) as [f ->]. reflexivity.
Qed.

End Evaluator.

(* ================================================================= *)
(** * Properties of the pipeline *)

(** A method applied to the object, by its functional form. *)
Ltac by_run :=
  rewrite ?calculate_run, ?tokenize_run, ?infix_to_postfix_run,
          ?evaluate_postfix_run, ?evaluate_loop_run, ?is_number_run.

Ltac run := by_run; f_equal; vm_compute; reflexivity.

Section Properties.

Context {RT : Runtime}.

Lemma is_number_false (token : string) (self : Calculator) :
  is_number token self = (Ret false, self) -> is_num token = false.
Proof.
  rewrite is_number_run. intro H. injection H as H. exact H.
Qed.

(** C9: the postfix evaluator passes over a token that is not a number,
    not a key of [operators] and not a key of [functions], the operand
    stack being left as it is; so the evaluation of a postfix sequence
    is that of the sequence without the token.  For ["(2+3"] the final
    loop of the converter puts the ["("] left on the stack at the end of
    the postfix sequence, the evaluator passes over it, and [calculate]
    returns the integer 5. *)
Theorem evaluator_skips_unknown_tokens :
  (forall (self : Calculator) (token : string) (rest : list string)
          (stack : list val),
      is_number token self = (Ret false, self) ->
      contains (operators self) token = false ->
      contains (functions self) token = false ->
      evaluate_loop (token :: rest) stack self = evaluate_loop rest stack self)
  /\ (forall (self : Calculator) (pre post : list string) (token : string),
      is_number token self = (Ret false, self) ->
      contains (operators self) token = false ->
      contains (functions self) token = false ->
      evaluate_postfix (pre ++ token :: post) self
      = evaluate_postfix (pre ++ post) self)
  /\ tokenize "(2+3" init = (Ret ["("; "2"; "+"; "3"], init)
  /\ infix_to_postfix ["("; "2"; "+"; "3"] init
     = (Ret ["2"; "3"; "+"; "("], init)
  /\ evaluate_postfix ["2"; "3"; "+"; "("] init
     = (Ret (VFloat (F64.of_Z 5)), init)
  /\ calculate "(2+3" init = (RInt 5, init).
Proof.
  split; [ | split; [ | repeat split; run]].
  - intros self token rest stack Hn Ho Hf. apply is_number_false in Hn.
    rewrite !evaluate_loop_run. simpl.
    rewrite (eval_token_skip _ _ _ _ Hn Ho Hf). reflexivity.
  - intros self pre post token Hn Ho Hf. apply is_number_false in Hn.
    rewrite !evaluate_postfix_run, !eval_tokens_app.
    destruct (eval_tokens (operators self) (functions self) pre [])
      as [stack | e]; simpl; [ | reflexivity].
    rewrite (eval_token_skip _ _ _ _ Hn Ho Hf). reflexivity.
Qed.

(** C5: the faults of the postfix evaluator.  An operator met on a
    stack of fewer than two values is a [ValueError] "not enough
    operands", a function met on an empty stack a [ValueError] "not
    enough arguments", a final stack that does not hold exactly one
    value a [ValueError] "Invalid expression"; the evaluator has no
    other fault of its own: any other one is raised by the operator or
    the function that was applied.  [calculate] turns each [ValueError]
    into the message made of "Error: " and its text, and
    [calculate("+")] is such a message. *)
Theorem evaluate_postfix_failures :
  (forall (self : Calculator) (pre post : list string) (token : string)
          (stack : list val),
      evaluate_loop pre [] self = (Ret stack, self) ->
      is_number token self = (Ret false, self) ->
      contains (operators self) token = true ->
      (List.length stack < 2)%nat ->
      evaluate_postfix (pre ++ token :: post) self
      = (Raise (ValueError (not_enough_operands token)), self))
  /\ (forall (self : Calculator) (pre post : list string) (token : string),
      evaluate_loop pre [] self = (Ret [], self) ->
      is_number token self = (Ret false, self) ->
      contains (operators self) token = false ->
      contains (functions self) token = true ->
      evaluate_postfix (pre ++ token :: post) self
      = (Raise (ValueError (not_enough_arguments token)), self))
  /\ (forall (self : Calculator) (postfix : list string) (stack : list val),
      evaluate_loop postfix [] self = (Ret stack, self) ->
      List.length stack <> 1%nat ->
      evaluate_postfix postfix self
      = (Raise (ValueError "Invalid expression"), self))
  /\ (forall (self : Calculator) (postfix : list string) (e : exn),
      evaluate_postfix postfix self = (Raise e, self) ->
      (exists pre token post stack,
          postfix = pre ++ token :: post
          /\ evaluate_loop pre [] self = (Ret stack, self)
          /\ is_number token self = (Ret false, self)
          /\ ( (contains (operators self) token = true
                /\ (List.length stack < 2)%nat
                /\ e = ValueError (not_enough_operands token))
               \/ (contains (operators self) token = false
                   /\ contains (functions self) token = true
                   /\ stack = []
                   /\ e = ValueError (not_enough_arguments token))
               \/ (exists entry a b rest,
                      lookup token (operators self) = Some entry
                      /\ stack = b :: a :: rest
                      /\ snd entry a b = Raise e)
               \/ (exists f a rest,
                      lookup token (operators self) = None
                      /\ lookup token (functions self) = Some f
                      /\ stack = a :: rest /\ f a = Raise e) ))
      \/ (exists stack,
             evaluate_loop postfix [] self = (Ret stack, self)
             /\ List.length stack <> 1%nat
             /\ e = ValueError "Invalid expression"))
  /\ (forall (self : Calculator) (expression : string) (tokens postfix : list string)
             (msg : string),
      PyStr.is_empty (PyStr.strip expression) = false ->
      tokenize expression self = (Ret tokens, self) ->
      infix_to_postfix tokens self = (Ret postfix, self) ->
      evaluate_postfix postfix self = (Raise (ValueError msg), self) ->
      calculate expression self = (RStr ("Error: " ++ msg), self))
  /\ calculate "+" init
     = (RStr "Error: Invalid expression: not enough operands for '+'", init).
Proof.
  refine (conj _ (conj _ (conj _ (conj _ (conj _ _))))).
  - intros self pre post token stack Hpre Hn Ho Hlen.
    apply is_number_false in Hn.
    rewrite evaluate_loop_run in Hpre. injection Hpre as Hpre.
    rewrite evaluate_postfix_run, eval_tokens_app, Hpre. simpl.
    rewrite (eval_token_operands _ _ _ _ Hn Ho Hlen). reflexivity.
  - intros self pre post token Hpre Hn Ho Hf.
    apply is_number_false in Hn.
    rewrite evaluate_loop_run in Hpre. injection Hpre as Hpre.
    rewrite evaluate_postfix_run, eval_tokens_app, Hpre. simpl.
    rewrite (eval_token_arguments _ _ _ Hn Ho Hf). reflexivity.
  - intros self postfix stack Hrun Hlen.
    rewrite evaluate_loop_run in Hrun. injection Hrun as Hrun.
    rewrite evaluate_postfix_run, Hrun. simpl.
    destruct stack as [ | x [ | y stack]]; try reflexivity.
    exfalso. apply Hlen. reflexivity.
  - intros self postfix e H.
    rewrite evaluate_postfix_run in H. injection H as H.
    destruct (eval_tokens (operators self) (functions self) postfix [])
      as [stack | e'] eqn:Hrun; simpl in H.
    + right. exists stack. rewrite evaluate_loop_run, Hrun.
      destruct stack as [ | x [ | y stack]]; simpl in H;
        try discriminate; injection H as <-;
        repeat split; simpl; congruence.
    + injection H as ->. left.
      destruct (eval_tokens_raise _ _ _ _ _ Hrun)
        as (pre & token & post & stack & -> & Hpre & Htok).
      destruct (eval_token_raise _ _ _ _ _ Htok) as [Hn Hcases].
      exists pre, token, post, stack.
      rewrite evaluate_loop_run, is_number_run, Hpre, Hn.
      repeat split. exact Hcases.
  - intros self expression tokens postfix msg Hblank Htok Hconv Heval.
    rewrite tokenize_run in Htok. injection Htok as Htok.
    rewrite infix_to_postfix_run in Hconv. injection Hconv as Hconv.
    rewrite evaluate_postfix_run in Heval. injection Heval as Heval.
    rewrite calculate_run. unfold calculation, postfix_in.
    rewrite Hblank, Htok, Hconv.
    destruct (eval_tokens (operators self) (functions self) postfix [])
      as [stack | e]; simpl in Heval |- *.
    + rewrite Heval. reflexivity.
    + injection Heval as ->. reflexivity.
  - run.
Qed.

(** C8: [calculate] leaves the object as it is, tables included, so a
    second call on the object the first one leaves returns what the
    first returned; and what it returns is a function of the object and
    of the expression.  The same holds of the methods it calls. *)
Theorem calculate_stateless :
  forall (self : Calculator) (expression : string),
    snd (calculate expression self) = self
    /\ operators (snd (calculate expression self)) = operators self
    /\ functions (snd (calculate expression self)) = functions self
    /\ constants (snd (calculate expression self)) = constants self
    /\ fst (calculate expression (snd (calculate expression self)))
       = fst (calculate expression self)
    /\ snd (tokenize expression self) = self
    /\ (forall tokens, snd (infix_to_postfix tokens self) = self)
    /\ (forall postfix, snd (evaluate_postfix postfix self) = self)
    /\ (forall token, snd (is_number token self) = self).
Proof.
  intros self expression.
  assert (Hsnd : snd (calculate expression self) = self)
    by (rewrite calculate_run; reflexivity).
  rewrite !Hsnd. repeat split.
  - intro tokens. rewrite infix_to_postfix_run. reflexivity.
  - intro postfix. rewrite evaluate_postfix_run. reflexivity.
  - intro token. rewrite is_number_run. reflexivity.
Qed.

Lemma format_value_answer (v : val) (r : result) :
  format_value v = Ret r -> is_answer r.
Proof.
  unfold format_value, is_answer.
  destruct (py_is_integer v) as [[ | ] | e]; simpl; try discriminate.
  - destruct (py_int v) as [n | e]; simpl; try discriminate.
    intro H. injection H as <-. left. exists n. reflexivity.
  - destruct (py_round v 10) as [x | e]; simpl; try discriminate.
    intro H. injection H as <-. right; left. exists x. reflexivity.
Qed.

Lemma calculation_answer (self : Calculator) (expression : string) (r : result) :
  calculation self expression = Ret r -> is_answer r.
Proof.
  unfold calculation.
  destruct (PyStr.is_empty (PyStr.strip expression)).
  - intro H. injection H as <-. right; right.
    exists "Empty expression". reflexivity.
  - destruct (eval_tokens _ _ _ _) as [stack | e]; simpl; try discriminate.
    destruct (single stack) as [v | e]; simpl; try discriminate.
    apply format_value_answer.
Qed.

Lemma handle_answer (e : exn) : is_answer (handle e).
Proof.
  right; right. destruct e as [ | msg | msg]; simpl.
  - exists "Division by zero". reflexivity.
  - exists msg. reflexivity.
  - exists ("Invalid expression - " ++ msg)%string. reflexivity.
Qed.


End Properties.

(* ================================================================= *)
(** * Division by zero *)

Section Division.

Context {RT : Runtime}.

Lemma pair_fst {A B : Type} (a b : A) (s t : B) : (a, s) = (b, t) -> a = b.
Proof. intro H. injection H as H _. exact H. Qed.

Lemma pair_ret {A B : Type} (a b : A) (s t : B) :
  (Ret a, s) = (Ret b, t) -> a = b.
Proof. intro H. injection H as H _. exact H. Qed.

Lemma is_division_cases (token : string) :
  is_division token = true -> token = "/" \/ token = "//" \/ token = "%".
Proof.
  unfold is_division. simpl. intro H.
  destruct (String.eqb token "/") eqn:H1;
    [left; apply String.eqb_eq; exact H1 | ].
  destruct (String.eqb token "//") eqn:H2;
    [right; left; apply String.eqb_eq; exact H2 | ].
  destruct (String.eqb token "%") eqn:H3;
    [right; right; apply String.eqb_eq; exact H3 | discriminate].
Qed.

Lemma division_token_zero (token : string) (a b : F64.float64)
  (rest : list val) :
  is_division token = true -> F64.is_zero b = true ->
  eval_token (operators init) (functions init) token
             (VFloat b :: VFloat a :: rest)
  = Raise ZeroDivisionError.
Proof.
  intros Hd Hz.
  destruct (is_division_cases _ Hd) as [-> | [-> | ->]];
    unfold eval_token; simpl; rewrite Hz; reflexivity.
Qed.

End Division.

(* ================================================================= *)
(** * The tokenizer *)

Section Tokenizer.

Context {RT : Runtime}.

Local Open Scope string_scope.

(** Every string [findall] returns is a match of the pattern at some
    position. *)
Lemma findall_from_match (alts : list Re.alternative) (s : string)
  (skip : nat) (m : string) :
  In m (Re.findall_from skip alts s) ->
  exists s', Re.match_at alts s' = Some m.
Proof.
  revert skip. induction s as [ | c s IH]; intros skip Hin; simpl in Hin.
  - contradiction.
  - destruct skip as [ | k].
    + destruct (Re.match_at alts (String c s)) as [m' | ] eqn:Hm.
      * destruct Hin as [<- | Hin].
        -- exists (String c s). exact Hm.
        -- exact (IH _ Hin).
      * exact (IH _ Hin).
    + exact (IH _ Hin).
Qed.

Lemma span_head (p : ascii -> bool) (c : ascii) (s : string) :
  p c = true ->
  exists a, fst (PyStr.span p (String c s)) = String c a.
Proof.
  intro Hp. simpl. rewrite Hp.
  destruct (PyStr.span p s) as [a b]. exists a. reflexivity.
Qed.

(** What the number alternative matches begins with a digit. *)
Lemma alt_number_head (s m : string) :
  Re.alt_number s = Some m ->
  exists c m', m = String c m' /\ PyStr.is_digit c = true.
Proof.
  unfold Re.alt_number. destruct s as [ | c s]; [discriminate | ].
  destruct (PyStr.is_digit c) eqn:Hd; [ | discriminate].
  destruct (span_head PyStr.is_digit c s Hd) as [a Ha].
  destruct (PyStr.span PyStr.is_digit (String c s)) as [d1 r1].
  simpl in Ha. subst d1.
  destruct r1 as [ | c1 r2].
  - intro H. injection H as <-. exists c, a. auto.
  - destruct (Ascii.eqb c1 ".") eqn:Hdot.
    + apply Ascii.eqb_eq in Hdot. subst c1.
      intro H. injection H as <-. simpl. eexists c, _. auto.
    + assert (H : forall X Y : option string,
                 match c1 with "."%char => X | _ => Y end = Y).
      { intros X Y.
        destruct c1 as [[] [] [] [] [] [] [] []]; try reflexivity.
        discriminate Hdot. }
      rewrite H. intro H'. injection H' as <-. exists c, a. auto.
Qed.

Lemma prefix_head (c a : ascii) (lit s : string) :
  prefix (String c lit) (String a s) = true -> a = c.
Proof.
  simpl. destruct (ascii_dec c a) as [-> | ]; [reflexivity | discriminate].
Qed.

(** A match of the pattern is never one of the two-character operators:
    where [**] or [//] could match, the class of the one-character
    operators, which comes first, matches. *)
Lemma match_at_pattern_single (s m : string) :
  Re.match_at pattern s = Some m -> m <> "**" /\ m <> "//".
Proof.
  unfold pattern. simpl.
  destruct (Re.alt_number s) as [m1 | ] eqn:H1.
  - intro H. injection H as <-.
    destruct (alt_number_head _ _ H1) as (c & m' & -> & Hd).
    split; intro H; injection H as -> _; discriminate Hd.
  - destruct (Re.alt_single s) as [m2 | ] eqn:H2.
    + intro H. injection H as <-. unfold Re.alt_single in H2.
      destruct s as [ | c s]; [discriminate | ].
      destruct (Re.is_single_operator c); [ | discriminate].
      injection H2 as <-. split; discriminate.
    + unfold Re.alt_single in H2. unfold Re.alt_literal.
      destruct s as [ | c s].
      * simpl. discriminate.
      * destruct (Re.is_single_operator c) eqn:Hc; [discriminate | ].
        destruct (prefix "**" (String c s)) eqn:Hp1.
        { apply prefix_head in Hp1. subst c. discriminate Hc. }
        destruct (prefix "//" (String c s)) eqn:Hp2.
        { apply prefix_head in Hp2. subst c. discriminate Hc. }
        unfold Re.alt_identifier.
        destruct (PyStr.is_ident_start c) eqn:Hi; [ | discriminate].
        intro H. injection H as <-.
        split; intro H; injection H as -> _; discriminate Hi.
Qed.

(** C1 (what the code does): the pattern lists the one-character
    operators before [**] and [//], and an alternation takes its first
    alternative that matches, not the longest; so [tokenize] never
    returns ["**"] or ["//"], whatever the expression and the object.
    ["2**3"] is split into [2 * * 3], its postfix sequence is
    [2 * 3 *], and [calculate] returns the message of an operator that
    lacks an operand instead of 8; the same happens to ["7//2"]. *)
Theorem tokenize_splits_two_character_operators :
  (forall (self : Calculator) (expression : string) (tokens : list string),
      tokenize expression self = (Ret tokens, self) ->
      ~ In "**" tokens /\ ~ In "//" tokens)
  /\ tokenize "2**3" init = (Ret ["2"; "*"; "*"; "3"], init)
  /\ infix_to_postfix ["2"; "*"; "*"; "3"] init
     = (Ret ["2"; "*"; "3"; "*"], init)
  /\ calculate "2**3" init
     = (RStr "Error: Invalid expression: not enough operands for '*'", init)
  /\ tokenize "7//2" init = (Ret ["7"; "/"; "/"; "2"], init)
  /\ calculate "7//2" init
     = (RStr "Error: Invalid expression: not enough operands for '/'", init).
Proof.
  refine (conj _ (conj _ (conj _ (conj _ (conj _ _))))); try run.
  intros self expression tokens H.
  rewrite tokenize_run in H. apply pair_ret in H. subst tokens.
  unfold tokens_in, Re.findall.
  split; intro Hin; apply findall_from_match in Hin;
    destruct Hin as [s' Hs']; apply match_at_pattern_single in Hs';
    destruct Hs' as [H1 H2]; congruence.
Qed.

End Tokenizer.

(* ================================================================= *)
(** * The result formatter *)

Section Formatter.

Context {RT : Runtime}.

Lemma cond_Zopp_mul (s : bool) (a b : Z) :
  cond_Zopp s (a * b) = (cond_Zopp s a * b)%Z.
Proof. destruct s; simpl; ring. Qed.

Lemma pow2_pos (k : Z) : (0 <= k -> 0 < 2 ^ k)%Z.
Proof. intro H. apply Z.pow_pos_nonneg; lia. Qed.

Lemma Qpower2_neg (e : Z) :
  (e < 0)%Z ->
  (Qpower (inject_Z 2) e == / inject_Z (2 ^ (- e)))%Q.
Proof.
  intro He.
  rewrite <- (Z.opp_involutive e) at 1.
  rewrite Qpower_opp. rewrite Zpower_Qpower by lia. reflexivity.
Qed.

Lemma is_integer_exact (x : F64.float64) :
  F64.is_integer x = true ->
  exists q, F64.exact x = Some q /\ (q == inject_Z (F64.to_Z x))%Q.
Proof.
  destruct x as [s | s | | s m e];
    unfold F64.is_integer, F64.exact, F64.to_Z; try discriminate.
  - intros _. exists (inject_Z 0). split; reflexivity.
  - intro H. eexists. split; [reflexivity | ].
    destruct (0 <=? e)%Z eqn:He.
    + apply Z.leb_le in He.
      rewrite cond_Zopp_mul, inject_Z_mult, Zpower_Qpower by exact He.
      reflexivity.
    + apply Z.leb_gt in He. simpl in H. apply Z.eqb_eq in H.
      assert (HD : (0 < 2 ^ (- e))%Z) by (apply pow2_pos; lia).
      rewrite (Qpower2_neg e He).
      set (D := (2 ^ (- e))%Z) in *.
      assert (Hm : Zpos m = (Zpos m / D * D)%Z).
      { rewrite Z.mul_comm. apply Z.div_exact; lia. }
      rewrite Hm at 1. rewrite cond_Zopp_mul, inject_Z_mult.
      field. intro H0.
      assert (D = 0%Z) by (apply inject_Z_injective; exact H0). lia.
Qed.

Lemma not_integer_fractional (x : F64.float64) (q : Q) :
  F64.is_integer x = false -> F64.exact x = Some q ->
  forall n : Z, ~ (q == inject_Z n)%Q.
Proof.
  destruct x as [s | s | | s m e];
    unfold F64.is_integer, F64.exact; try discriminate.
  intros H Hq n Hn. injection Hq as <-.
  apply orb_false_iff in H. destruct H as [He H].
  apply Z.leb_gt in He. apply Z.eqb_neq in H. apply H.
  assert (HD : (0 < 2 ^ (- e))%Z) by (apply pow2_pos; lia).
  rewrite (Qpower2_neg e He) in Hn.
  set (D := (2 ^ (- e))%Z) in *.
  assert (HDq : ~ (inject_Z D == 0)%Q).
  { intro H0. assert (D = 0%Z) by (apply inject_Z_injective; exact H0). lia. }
  assert (Hz : cond_Zopp s (Zpos m) = (n * D)%Z).
  { apply inject_Z_injective. rewrite inject_Z_mult, <- Hn. field. exact HDq. }
  destruct s; simpl in Hz.
  - replace (Zpos m) with ((- n) * D)%Z by lia. apply Z.mod_mul. lia.
  - rewrite Hz. apply Z.mod_mul. lia.
Qed.

Lemma round_half_even_nearest (n d : Z) :
  (0 <= n)%Z -> (0 < d)%Z ->
  (2 * Z.abs (n - F64.round_half_even n d * d) <= d)%Z.
Proof.
  intros Hn Hd. unfold F64.round_half_even.
  pose proof (Z.div_mod n d ltac:(lia)) as Hdm.
  pose proof (Z.mod_pos_bound n d Hd) as Hr.
  set (q := (n / d)%Z) in *. set (r := (n mod d)%Z) in *.
  clearbody q r.
  assert (E1 : (n - q * d = r)%Z) by (rewrite (Z.mul_comm q d); lia).
  assert (E2 : (n - (q + 1) * d = r - d)%Z)
    by (rewrite Z.mul_add_distr_r, (Z.mul_comm q d); lia).
  destruct (2 * r ?= d)%Z eqn:Hc.
  - apply Z.compare_eq in Hc.
    destruct (Z.even q); rewrite ?E1, ?E2; lia.
  - rewrite Z.compare_lt_iff in Hc. rewrite E1. lia.
  - rewrite Z.compare_gt_iff in Hc. rewrite E2. lia.
Qed.


End Formatter.

(* ================================================================= *)
(** * The converter: operators of one precedence *)

Section Converter.

Context {RT : Runtime}.

Lemma shunt_number (ops : dict (nat * (val -> val -> outcome val)))
  (funs : dict (val -> outcome val)) (t : string)
  (rest output stack : list string) :
  is_num t = true ->
  shunt ops funs (t :: rest) output stack
  = shunt ops funs rest (output ++ [t]) stack.
Proof. intro H. simpl. rewrite H. reflexivity. Qed.

Lemma shunt_operator (ops : dict (nat * (val -> val -> outcome val)))
  (funs : dict (val -> outcome val)) (t : string)
  (rest output stack : list string) :
  is_num t = false -> contains funs t = false -> contains ops t = true ->
  shunt ops funs (t :: rest) output stack
  = shunt ops funs rest (fst (pop_ops ops t output stack))
          (t :: snd (pop_ops ops t output stack)).
Proof.
  intros Hn Hf Ho. simpl. rewrite Hn, Hf, Ho.
  destruct (pop_ops ops t output stack). reflexivity.
Qed.

(** The keys of [operators] are not numbers, not keys of [functions]
    and not the parenthesis. *)
Lemma operator_key (o : string) :
  contains (operators init) o = true ->
  is_num o = false /\ contains (functions init) o = false
  /\ String.eqb o "(" = false.
Proof.
  unfold contains. simpl.
  repeat match goal with
         | |- context [String.eqb o ?k] =>
             let E := fresh "E" in
             destruct (String.eqb o k) eqn:E;
             [apply String.eqb_eq in E; subst o; intros _;
              repeat split; vm_compute; reflexivity | ]
         end.
  discriminate.
Qed.

(** An operator on top of the stack is popped when its precedence is at
    least that of the incoming operator. *)
Lemma pop_ops_top (o1 o2 : string) (output below : list string) :
  contains (operators init) o1 = true ->
  (precedence (operators init) o2 <= precedence (operators init) o1)%nat ->
  pop_ops (operators init) o2 output (o1 :: below)
  = pop_ops (operators init) o2 (output ++ [o1]) below.
Proof.
  intros H1 Hle.
  destruct (operator_key _ H1) as (_ & _ & Hparen).
  cbn [pop_ops]. rewrite Hparen, H1.
  apply Nat.leb_le in Hle. rewrite Hle. reflexivity.
Qed.

Lemma is_number_true (token : string) (self : Calculator) :
  is_number token self = (Ret true, self) -> is_num token = true.
Proof.
  rewrite is_number_run. intro H. apply pair_ret in H. exact H.
Qed.

Lemma eval_number_two (stack : list val) :
  eval_token (operators init) (functions init) "2" stack
  = Ret (VFloat (F64.of_Z 2) :: stack).
Proof. vm_compute. reflexivity. Qed.

Lemma eval_number_three (stack : list val) :
  eval_token (operators init) (functions init) "3" stack
  = Ret (VFloat (F64.of_Z 3) :: stack).
Proof. vm_compute. reflexivity. Qed.

Lemma eval_caret (a b : val) (stack : list val) :
  eval_token (operators init) (functions init) "^" (b :: a :: stack)
  = and_then (py_pow a b) (fun r => Ret (r :: stack)).
Proof. reflexivity. Qed.

Lemma calculation_postfix (self : Calculator) (expression : string) :
  PyStr.is_empty (PyStr.strip expression) = false ->
  calculation self expression
  = and_then (and_then (eval_tokens (operators self) (functions self)
                                    (postfix_in self expression) []) single)
             format_value.
Proof.
  intro H. unfold calculation. rewrite H.
  destruct (eval_tokens _ _ _ _); reflexivity.
Qed.

Lemma eval_two_carets :
  and_then (eval_tokens (operators init) (functions init)
                        ["2"; "3"; "^"; "2"; "^"] []) single
  = and_then (py_pow (VFloat (F64.of_Z 2)) (VFloat (F64.of_Z 3)))
             (fun x => py_pow x (VFloat (F64.of_Z 2))).
Proof.
  cbn [eval_tokens]. rewrite eval_number_two.
  cbn [eval_tokens]. rewrite eval_number_three.
  cbn [eval_tokens]. rewrite eval_caret.
  destruct (py_pow (VFloat (F64.of_Z 2)) (VFloat (F64.of_Z 3))) as [x | e];
    [ | reflexivity].
  cbn [and_then eval_tokens]. rewrite eval_number_two.
  cbn [eval_tokens]. rewrite eval_caret.
  destruct (py_pow x (VFloat (F64.of_Z 2))) as [y | e]; reflexivity.
Qed.

(** C2: [^] groups from the left.  The converter pops the operator on
    top of the stack before it pushes an incoming operator whose
    precedence is not greater, so that [a o1 b o2 c] becomes
    [a b o1 c o2] whenever the precedence of [o2] is at most that of
    [o1], in particular for two operators of one precedence.  The
    postfix sequence of ["2^3^2"] is [2 3 ^ 2 ^]; its value is
    [(2 ** 3) ** 2]; and where the runtime's [**] gives 8.0 for
    2.0 ** 3.0 and 64.0 for 8.0 ** 2.0, [calculate] returns the integer
    64, which is not 512. *)
Theorem exponentiation_left_associative :
  (forall (o1 o2 : string) (output below : list string),
      contains (operators init) o1 = true ->
      contains (operators init) o2 = true ->
      (precedence (operators init) o2 <= precedence (operators init) o1)%nat ->
      pop_operators o2 output (o1 :: below) init
      = pop_operators o2 (output ++ [o1]) below init)
  /\ (forall a b c o1 o2 : string,
      is_number a init = (Ret true, init) ->
      is_number b init = (Ret true, init) ->
      is_number c init = (Ret true, init) ->
      contains (operators init) o1 = true ->
      contains (operators init) o2 = true ->
      (precedence (operators init) o2 <= precedence (operators init) o1)%nat ->
      infix_to_postfix [a; o1; b; o2; c] init = (Ret [a; b; o1; c; o2], init))
  /\ precedence (operators init) "^" = precedence (operators init) "^"
  /\ tokenize "2^3^2" init = (Ret ["2"; "^"; "3"; "^"; "2"], init)
  /\ infix_to_postfix ["2"; "^"; "3"; "^"; "2"] init
     = (Ret ["2"; "3"; "^"; "2"; "^"], init)
  /\ evaluate_postfix ["2"; "3"; "^"; "2"; "^"] init
     = (and_then (py_pow (VFloat (F64.of_Z 2)) (VFloat (F64.of_Z 3)))
                 (fun x => py_pow x (VFloat (F64.of_Z 2))), init)
  /\ (float_pow (F64.of_Z 2) (F64.of_Z 3) = Ret (VFloat (F64.of_Z 8)) ->
      float_pow (F64.of_Z 8) (F64.of_Z 2) = Ret (VFloat (F64.of_Z 64)) ->
      calculate "2^3^2" init = (RInt 64, init)
      /\ calculate "2^3^2" init <> (RInt 512, init)).
Proof.
  refine (conj _ (conj _ (conj _ (conj _ (conj _ (conj _ _)))))).
  - intros o1 o2 output below H1 H2 Hle.
    rewrite !pop_operators_run by exact H2.
    rewrite (pop_ops_top _ _ _ _ H1 Hle). reflexivity.
  - intros a b c o1 o2 Ha Hb Hc H1 H2 Hle.
    apply is_number_true in Ha, Hb, Hc.
    destruct (operator_key _ H1) as (Hn1 & Hf1 & _).
    destruct (operator_key _ H2) as (Hn2 & Hf2 & _).
    rewrite infix_to_postfix_run. f_equal. f_equal.
    rewrite (shunt_number _ _ _ _ _ _ Ha).
    rewrite (shunt_operator _ _ _ _ _ _ Hn1 Hf1 H1). cbn [pop_ops fst snd].
    rewrite (shunt_number _ _ _ _ _ _ Hb).
    rewrite (shunt_operator _ _ _ _ _ _ Hn2 Hf2 H2).
    rewrite (pop_ops_top _ _ _ _ H1 Hle). cbn [pop_ops fst snd].
    rewrite (shunt_number _ _ _ _ _ _ Hc).
    reflexivity.
  - reflexivity.
  - run.
  - run.
  - rewrite evaluate_postfix_run. f_equal. exact eval_two_carets.
  - intros H1 H2.
    assert (H : calculate "2^3^2" init = (RInt 64, init)).
    { rewrite calculate_run. f_equal.
      rewrite calculation_postfix by (vm_compute; reflexivity).
      replace (postfix_in init "2^3^2") with ["2"; "3"; "^"; "2"; "^"]
        by (vm_compute; reflexivity).
      rewrite eval_two_carets.
      change (py_pow (VFloat (F64.of_Z 2)) (VFloat (F64.of_Z 3)))
        with (float_pow (F64.of_Z 2) (F64.of_Z 3)).
      rewrite H1. cbn [and_then].
      change (py_pow (VFloat (F64.of_Z 8)) (VFloat (F64.of_Z 2)))
        with (float_pow (F64.of_Z 8) (F64.of_Z 2)).
      rewrite H2. vm_compute. reflexivity. }
    split; [exact H | ]. rewrite H. intro Heq.
    apply (f_equal fst) in Heq. discriminate Heq.
Qed.

End Converter.

(* ================================================================= *)
(** * Strings: lemmas *)

Section Strings.

Local Open Scope string_scope.

Lemma sapp_assoc (a b c : string) : (a ++ b) ++ c = a ++ (b ++ c).
Proof. induction a as [ | x a IH]; simpl; [ | rewrite IH]; reflexivity. Qed.

Lemma sapp_nil_r (a : string) : a ++ "" = a.
Proof. induction a as [ | x a IH]; simpl; [ | rewrite IH]; reflexivity. Qed.

Lemma slength_app (a b : string) :
  String.length (a ++ b) = (String.length a + String.length b)%nat.
Proof. induction a as [ | x a IH]; simpl; [ | rewrite IH]; reflexivity. Qed.

Lemma join_app (l1 l2 : list string) :
  PyStr.join (l1 ++ l2)%list = PyStr.join l1 ++ PyStr.join l2.
Proof.
  induction l1 as [ | t l1 IH]; simpl.
  - reflexivity.
  - rewrite IH, sapp_assoc. reflexivity.
Qed.

Lemma forallb_app (p : ascii -> bool) (a b : string) :
  PyStr.forallb p (a ++ b) = PyStr.forallb p a && PyStr.forallb p b.
Proof.
  induction a as [ | x a IH]; simpl.
  - reflexivity.
  - rewrite IH, andb_assoc. reflexivity.
Qed.

Lemma forallb_impl (p q : ascii -> bool) (s : string) :
  (forall c, p c = true -> q c = true) ->
  PyStr.forallb p s = true -> PyStr.forallb q s = true.
Proof.
  intro Hpq. induction s as [ | x s IH]; simpl.
  - reflexivity.
  - intro H. apply andb_true_iff in H. destruct H as [Hx Hs].
    rewrite (Hpq _ Hx), (IH Hs). reflexivity.
Qed.

(** ** [span] *)

Lemma span_app (p : ascii -> bool) (a rest : string) :
  PyStr.forallb p a = true ->
  PyStr.span p (a ++ rest)
  = (a ++ fst (PyStr.span p rest), snd (PyStr.span p rest)).
Proof.
  induction a as [ | x a IH]; simpl.
  - intros _. destruct (PyStr.span p rest). reflexivity.
  - intro H. apply andb_true_iff in H. destruct H as [Hx Ha].
    rewrite Hx, (IH Ha). reflexivity.
Qed.

Lemma span_spec (p : ascii -> bool) (s : string) :
  s = fst (PyStr.span p s) ++ snd (PyStr.span p s)
  /\ PyStr.forallb p (fst (PyStr.span p s)) = true
  /\ match snd (PyStr.span p s) with
     | EmptyString => True
     | String c _ => p c = false
     end.
Proof.
  induction s as [ | x s IH]; simpl.
  - auto.
  - destruct (p x) eqn:Hx.
    + destruct (PyStr.span p s) as [a b]. simpl in *.
      destruct IH as (-> & Ha & Hb). rewrite Hx, Ha. auto.
    + simpl. auto.
Qed.

Lemma span_stop (p : ascii -> bool) (rest : string) :
  match rest with
  | EmptyString => True
  | String c _ => p c = false
  end ->
  PyStr.span p rest = ("", rest).
Proof.
  destruct rest as [ | c r]; simpl.
  - reflexivity.
  - intros ->. reflexivity.
Qed.

Lemma span_all (p : ascii -> bool) (a : string) :
  PyStr.forallb p a = true -> PyStr.span p a = (a, "").
Proof.
  intro H. rewrite <- (sapp_nil_r a) at 1.
  rewrite (span_app _ _ _ H). simpl. rewrite sapp_nil_r. reflexivity.
Qed.

(** ** [rev] and [strip] *)

Lemma rev_onto_app (s acc : string) :
  PyStr.rev_onto s acc = PyStr.rev_onto s "" ++ acc.
Proof.
  revert acc. induction s as [ | x s IH]; intro acc; simpl.
  - reflexivity.
  - rewrite (IH (String x acc)), (IH (String x "")), sapp_assoc. reflexivity.
Qed.

Lemma rev_app (a b : string) :
  PyStr.rev (a ++ b) = PyStr.rev b ++ PyStr.rev a.
Proof.
  unfold PyStr.rev. induction a as [ | x a IH]; simpl.
  - rewrite sapp_nil_r. reflexivity.
  - rewrite (rev_onto_app (a ++ b)), IH, (rev_onto_app a (String x "")),
      sapp_assoc. reflexivity.
Qed.

Lemma rev_involutive (s : string) : PyStr.rev (PyStr.rev s) = s.
Proof.
  induction s as [ | x s IH].
  - reflexivity.
  - change (String x s) with (String x "" ++ s) at 1.
    rewrite rev_app, rev_app, IH. reflexivity.
Qed.

Lemma forallb_rev (p : ascii -> bool) (s : string) :
  PyStr.forallb p (PyStr.rev s) = PyStr.forallb p s.
Proof.
  induction s as [ | x s IH].
  - reflexivity.
  - change (String x s) with (String x "" ++ s) at 1.
    rewrite rev_app, forallb_app, IH. simpl.
    rewrite andb_true_r, andb_comm. reflexivity.
Qed.

Lemma drop_while_none (p : ascii -> bool) (s : string) :
  PyStr.forallb (fun c => negb (p c)) s = true -> PyStr.drop_while p s = s.
Proof.
  destruct s as [ | x s]; simpl.
  - reflexivity.
  - intro H. apply andb_true_iff in H. destruct H as [Hx _].
    apply negb_true_iff in Hx. rewrite Hx. reflexivity.
Qed.

(** Nothing is stripped from a string without a character to strip. *)
Lemma strip_with_none (p : ascii -> bool) (s : string) :
  PyStr.forallb (fun c => negb (p c)) s = true -> PyStr.strip_with p s = s.
Proof.
  intro H. unfold PyStr.strip_with.
  rewrite (drop_while_none _ _ H), drop_while_none.
  - apply rev_involutive.
  - rewrite forallb_rev. exact H.
Qed.

Lemma drop_while_some (p : ascii -> bool) (s : string) :
  PyStr.forallb p s = false -> PyStr.forallb p (PyStr.drop_while p s) = false.
Proof.
  induction s as [ | x s IH]; simpl.
  - discriminate.
  - destruct (p x) eqn:Hx; simpl.
    + exact IH.
    + intros _. rewrite Hx. reflexivity.
Qed.

(** A string with a character that is not stripped does not strip to
    the empty string. *)
Lemma strip_with_some (p : ascii -> bool) (s : string) :
  PyStr.forallb p s = false -> PyStr.is_empty (PyStr.strip_with p s) = false.
Proof.
  intro H. unfold PyStr.strip_with.
  assert (H' : PyStr.forallb p
                 (PyStr.rev (PyStr.drop_while p
                    (PyStr.rev (PyStr.drop_while p s)))) = false).
  { rewrite forallb_rev. apply drop_while_some.
    rewrite forallb_rev. apply drop_while_some. exact H. }
  destruct (PyStr.rev _); [discriminate H' | reflexivity].
Qed.

(** ** [replace] *)

(** A string in which the first character of [old] does not occur is
    left as it is. *)
Lemma replace_absent (c : ascii) (old new s : string) :
  PyStr.forallb (fun a => negb (Ascii.eqb a c)) s = true ->
  PyStr.replace (String c old) new s = s.
Proof.
  unfold PyStr.replace.
  induction s as [ | x s IH]; simpl.
  - reflexivity.
  - intro H. apply andb_true_iff in H. destruct H as [Hx Hs].
    apply negb_true_iff, Ascii.eqb_neq in Hx.
    destruct (ascii_dec c x) as [-> | _]; [contradiction Hx; reflexivity | ].
    rewrite (IH Hs). reflexivity.
Qed.

Lemma prefix_cons (a b : ascii) (s1 s2 : string) :
  prefix (String a s1) (String b s2)
  = if Ascii.eqb a b then prefix s1 s2 else false.
Proof.
  change (prefix (String a s1) (String b s2))
    with (if ascii_dec a b then prefix s1 s2 else false).
  destruct (ascii_dec a b) as [-> | H].
  - rewrite Ascii.eqb_refl. reflexivity.
  - apply Ascii.eqb_neq in H. rewrite H. reflexivity.
Qed.

Lemma prefix_nil (s : string) : prefix "" s = true.
Proof. destruct s; reflexivity. Qed.

Lemma remove_blank_cons_blank (s : string) :
  PyStr.replace " " "" (String " " s) = PyStr.replace " " "" s.
Proof.
  unfold PyStr.replace. cbn [PyStr.replace_from].
  rewrite prefix_cons, prefix_nil. reflexivity.
Qed.

Lemma remove_blank_cons (x : ascii) (s : string) :
  Ascii.eqb x " " = false ->
  PyStr.replace " " "" (String x s) = String x (PyStr.replace " " "" s).
Proof.
  intro Hx. unfold PyStr.replace. cbn [PyStr.replace_from].
  rewrite prefix_cons, Ascii.eqb_sym, Hx. reflexivity.
Qed.

Lemma remove_blank_blanks (n : nat) (s : string) :
  PyStr.replace " " "" (Grammar.blanks n ++ s) = PyStr.replace " " "" s.
Proof.
  induction n as [ | n IH]; cbn [Grammar.blanks append].
  - reflexivity.
  - rewrite remove_blank_cons_blank. exact IH.
Qed.

Lemma remove_blank_token (t s : string) :
  PyStr.forallb (fun a => negb (Ascii.eqb a " ")) t = true ->
  PyStr.replace " " "" (t ++ s) = t ++ PyStr.replace " " "" s.
Proof.
  induction t as [ | x t IH]; cbn [append PyStr.forallb].
  - reflexivity.
  - intro H. apply andb_true_iff in H. destruct H as [Hx Ht].
    apply negb_true_iff in Hx.
    rewrite (remove_blank_cons _ _ Hx), (IH Ht). reflexivity.
Qed.

(** ** [findall] *)

Lemma findall_from_skip (alts : list Re.alternative) (u rest : string) :
  Re.findall_from (String.length u) alts (u ++ rest)
  = Re.findall_from 0 alts rest.
Proof.
  induction u as [ | x u IH]; simpl.
  - destruct rest; reflexivity.
  - exact IH.
Qed.

(** A match at the start of the string is the first string returned,
    and the search goes on after it. *)
Lemma findall_match (alts : list Re.alternative) (c : ascii) (m rest : string) :
  Re.match_at alts (String c m ++ rest) = Some (String c m) ->
  Re.findall alts (String c m ++ rest) = String c m :: Re.findall alts rest.
Proof.
  intro H. unfold Re.findall. simpl in H |- *. rewrite H.
  simpl. rewrite Nat.sub_0_r, findall_from_skip. reflexivity.
Qed.

End Strings.

(* ================================================================= *)
(** * Numbers: what the tokenizer and [float()] make of a literal *)

Section Literals.

Local Open Scope string_scope.

(** All 256 characters, one by one. *)
Ltac each_char c := destruct c as [[] [] [] [] [] [] [] []].

Lemma token_char_facts (c : ascii) :
  Grammar.is_token_char c = true ->
  Ascii.eqb c " " = false /\ PyStr.is_space c = false
  /\ Ascii.eqb c "p" = false /\ Ascii.eqb c "e" = false.
Proof. each_char c; vm_compute; intro H; try discriminate H; auto. Qed.

Lemma digit_facts (c : ascii) :
  PyStr.is_digit c = true ->
  Grammar.is_token_char c = true
  /\ F64.is_float_space c = false /\ F64.is_underscore c = false
  /\ PyStr.lower c = c
  /\ Ascii.eqb c "i" = false /\ Ascii.eqb c "n" = false
  /\ Ascii.eqb c "." = false
  /\ F64.parse_sign (String c "") = (false, String c "").
Proof.
  each_char c; vm_compute; intro H; try discriminate H; repeat split.
Qed.

Lemma parse_sign_digit (c : ascii) (s : string) :
  PyStr.is_digit c = true -> F64.parse_sign (String c s) = (false, String c s).
Proof. each_char c; vm_compute; intro H; try discriminate H; reflexivity. Qed.

Lemma point_facts :
  Grammar.is_token_char "." = true
  /\ F64.is_float_space "." = false /\ F64.is_underscore "." = false
  /\ PyStr.is_digit "." = false.
Proof. vm_compute. repeat split. Qed.

(** A character other than the point, in a [match] on the point. *)
Lemma match_point {A : Type} (c : ascii) (r : string) (X : string -> A) (Y : A) :
  Ascii.eqb c "." = false ->
  match String c r with
  | String "." r2 => X r2
  | _ => Y
  end = Y.
Proof. each_char c; intro H; try reflexivity; discriminate H. Qed.

(** The shape of a decimal number. *)
Lemma literal_cases (lit : string) :
  Grammar.is_literal lit = true ->
  exists (c : ascii) (ip : string),
    PyStr.is_digit c = true /\ PyStr.forallb PyStr.is_digit ip = true
    /\ (lit = String c ip
        \/ exists fp, lit = String c ip ++ String "." fp
                      /\ PyStr.forallb PyStr.is_digit fp = true).
Proof.
  unfold Grammar.is_literal.
  destruct (span_spec PyStr.is_digit lit) as (Hlit & Hip & Hr).
  destruct (PyStr.span PyStr.is_digit lit) as [ip r]. simpl in Hlit, Hip, Hr.
  destruct ip as [ | c ip]; [discriminate | ].
  simpl in Hip. apply andb_true_iff in Hip. destruct Hip as [Hc Hip].
  intro H. simpl in H. exists c, ip. split; [exact Hc | split; [exact Hip | ]].
  destruct r as [ | c2 r].
  - left. rewrite Hlit. simpl. rewrite sapp_nil_r. reflexivity.
  - right. destruct (Ascii.eqb c2 ".") eqn:Hdot.
    + apply Ascii.eqb_eq in Hdot. subst c2. exists r. split; assumption.
    + rewrite (match_point _ _ _ _ Hdot) in H. discriminate H.
Qed.

Lemma literal_span (c : ascii) (ip rest : string) :
  PyStr.is_digit c = true -> PyStr.forallb PyStr.is_digit ip = true ->
  match rest with
  | EmptyString => True
  | String x _ => PyStr.is_digit x = false
  end ->
  PyStr.span PyStr.is_digit (String c ip ++ rest) = (String c ip, rest).
Proof.
  intros Hc Hip Hrest.
  rewrite span_app by (simpl; rewrite Hc, Hip; reflexivity).
  rewrite (span_stop _ _ Hrest). simpl. rewrite sapp_nil_r. reflexivity.
Qed.

Lemma ends_number_digit (rest : string) :
  Grammar.ends_number rest = true ->
  match rest with
  | EmptyString => True
  | String x _ => PyStr.is_digit x = false
  end.
Proof.
  destruct rest as [ | x r]; simpl; [auto | ].
  intro H. apply negb_true_iff, orb_false_iff in H. exact (proj1 H).
Qed.

(** The number alternative matches a decimal number entirely, when what
    follows cannot go on with it. *)
Lemma alt_number_literal (lit rest : string) :
  Grammar.is_literal lit = true -> Grammar.ends_number rest = true ->
  Re.alt_number (lit ++ rest) = Some lit.
Proof.
  intros Hlit Hrest.
  destruct (literal_cases _ Hlit) as (c & ip & Hc & Hip & [-> | (fp & -> & Hfp)]).
  - unfold Re.alt_number.
    change (String c ip ++ rest) with (String c (ip ++ rest)) at 1.
    cbv iota. rewrite Hc.
    rewrite (literal_span _ _ _ Hc Hip (ends_number_digit _ Hrest)).
    destruct rest as [ | x r]; [reflexivity | ].
    simpl in Hrest. apply negb_true_iff, orb_false_iff in Hrest.
    exact (match_point x r
             (fun r2 => Some (String c ip ++ String "."
                                (fst (PyStr.span PyStr.is_digit r2))))
             (Some (String c ip)) (proj2 Hrest)).
  - unfold Re.alt_number. rewrite sapp_assoc.
    change (String c ip ++ String "." fp ++ rest)
      with (String c (ip ++ String "." (fp ++ rest))) at 1.
    cbv iota. rewrite Hc.
    change (String c (ip ++ String "." (fp ++ rest)))
      with (String c ip ++ String "." (fp ++ rest)).
    rewrite (literal_span _ _ _ Hc Hip) by (simpl; apply point_facts).
    change (String "." fp ++ rest) with (String "." (fp ++ rest)). cbv iota.
    rewrite (span_app _ _ _ Hfp).
    rewrite (span_stop _ _ (ends_number_digit _ Hrest)). simpl.
    rewrite sapp_nil_r. reflexivity.
Qed.

Lemma literal_not_empty (lit : string) :
  Grammar.is_literal lit = true -> exists c m, lit = String c m.
Proof.
  intro H.
  destruct (literal_cases _ H) as (c & ip & _ & _ & [-> | (fp & -> & _)]).
  - exists c, ip. reflexivity.
  - exists c, (ip ++ String "." fp). reflexivity.
Qed.

Lemma literal_chars (lit : string) :
  Grammar.is_literal lit = true ->
  PyStr.forallb (fun c => PyStr.is_digit c || Ascii.eqb c ".") lit = true.
Proof.
  intro H.
  assert (Hd : forall s, PyStr.forallb PyStr.is_digit s = true ->
               PyStr.forallb (fun c => PyStr.is_digit c || Ascii.eqb c ".") s
               = true).
  { intro s. apply forallb_impl. intros x Hx. rewrite Hx. reflexivity. }
  destruct (literal_cases _ H) as (c & ip & Hc & Hip & [-> | (fp & -> & Hfp)]).
  - simpl. rewrite Hc, (Hd _ Hip). reflexivity.
  - rewrite forallb_app. simpl. rewrite Hc, (Hd _ Hip), (Hd _ Hfp). reflexivity.
Qed.

Lemma literal_token_ok (lit : string) :
  Grammar.is_literal lit = true -> Grammar.token_ok lit = true.
Proof.
  intro H. unfold Grammar.token_ok.
  destruct (literal_not_empty _ H) as (c & m & E).
  apply andb_true_iff. split.
  - rewrite E. reflexivity.
  - refine (forallb_impl _ _ _ _ (literal_chars _ H)).
    intros x Hx. unfold Grammar.is_token_char. rewrite Hx. reflexivity.
Qed.

(** ** [float()] of a decimal number *)

Lemma remove_underscores_none (prev : ascii) (s : string) :
  F64.is_underscore prev = false ->
  PyStr.forallb (fun c => negb (F64.is_underscore c)) s = true ->
  F64.remove_underscores prev s = Some s.
Proof.
  revert prev. induction s as [ | x s IH]; intros prev Hprev H; simpl.
  - rewrite Hprev. reflexivity.
  - simpl in H. apply andb_true_iff in H. destruct H as [Hx Hs].
    apply negb_true_iff in Hx. rewrite Hx, Hprev. simpl.
    rewrite (IH x Hx Hs). reflexivity.
Qed.

Lemma literal_plain_chars (lit : string) :
  Grammar.is_literal lit = true ->
  PyStr.forallb (fun c => negb (F64.is_float_space c)) lit = true
  /\ PyStr.forallb (fun c => negb (F64.is_underscore c)) lit = true.
Proof.
  intro H. pose proof (literal_chars _ H) as Hc.
  split; refine (forallb_impl _ _ _ _ Hc); intros x Hx;
    apply orb_true_iff in Hx; destruct Hx as [Hx | Hx].
  - destruct (digit_facts _ Hx) as (_ & -> & _). reflexivity.
  - apply Ascii.eqb_eq in Hx. subst x. reflexivity.
  - destruct (digit_facts _ Hx) as (_ & _ & -> & _). reflexivity.
  - apply Ascii.eqb_eq in Hx. subst x. reflexivity.
Qed.

Lemma not_inf_nan (c : ascii) (m : string) :
  PyStr.is_digit c = true ->
  let low := PyStr.map PyStr.lower (String c m) in
  (low =? "inf") = false /\ (low =? "infinity") = false /\ (low =? "nan") = false.
Proof.
  intro Hc. destruct (digit_facts _ Hc) as (_ & _ & _ & Hl & Hi & Hn & _).
  simpl. rewrite Hl, Hi, Hn. auto.
Qed.

(** [float()] reads a decimal number as the float nearest to it. *)
Lemma float_literal (lit : string) :
  Grammar.is_literal lit = true ->
  F64.of_string lit = Some (Grammar.literal_value lit).
Proof.
  intro H. unfold F64.of_string.
  destruct (literal_plain_chars _ H) as [Hsp Hus].
  rewrite (strip_with_none _ _ Hsp).
  rewrite (remove_underscores_none zero lit eq_refl Hus).
  unfold Grammar.literal_value, F64.parse_decimal.
  destruct (literal_cases _ H) as (c & ip & Hc & Hip & [-> | (fp & -> & Hfp)]).
  - rewrite (parse_sign_digit _ _ Hc).
    destruct (not_inf_nan c ip Hc) as (-> & -> & ->). simpl orb. cbv iota.
    rewrite <- (sapp_nil_r (String c ip)) at 1 2.
    rewrite (literal_span c ip "" Hc Hip I). reflexivity.
  - change (String c ip ++ String "." fp)
      with (String c (ip ++ String "." fp)) at 1 2.
    rewrite (parse_sign_digit _ _ Hc).
    destruct (not_inf_nan c (ip ++ String "." fp) Hc) as (-> & -> & ->).
    simpl orb. cbv iota.
    change (String c (ip ++ String "." fp))
      with (String c ip ++ String "." fp).
    rewrite (literal_span _ _ _ Hc Hip) by (simpl; apply point_facts).
    rewrite (span_all _ _ Hfp). reflexivity.
Qed.

Lemma is_num_literal (lit : string) :
  Grammar.is_literal lit = true -> is_num lit = true.
Proof.
  intro H. unfold is_num. rewrite (float_literal _ H). reflexivity.
Qed.

(** ** The tokens of an expression, found again in its text *)

Lemma findall_literal (lit rest : string) :
  Grammar.is_literal lit = true -> Grammar.ends_number rest = true ->
  Re.findall pattern (lit ++ rest) = lit :: Re.findall pattern rest.
Proof.
  intros Hlit Hrest.
  destruct (literal_not_empty _ Hlit) as (c & m & E).
  pose proof (alt_number_literal _ _ Hlit Hrest) as Halt.
  rewrite E in Halt |- *. apply findall_match.
  unfold pattern. cbn [Re.match_at]. rewrite Halt. reflexivity.
Qed.

Lemma findall_addop (o : addop) (rest : string) :
  Re.findall pattern (Grammar.addop_token o ++ rest)
  = Grammar.addop_token o :: Re.findall pattern rest.
Proof. destruct o; apply findall_match; reflexivity. Qed.

Lemma findall_mulop (o : mulop) (rest : string) :
  Re.findall pattern (Grammar.mulop_token o ++ rest)
  = Grammar.mulop_token o :: Re.findall pattern rest.
Proof. destruct o; apply findall_match; reflexivity. Qed.

Lemma findall_open (rest : string) :
  Re.findall pattern ("(" ++ rest) = "(" :: Re.findall pattern rest.
Proof. apply findall_match. reflexivity. Qed.

Lemma findall_close (rest : string) :
  Re.findall pattern (")" ++ rest) = ")" :: Re.findall pattern rest.
Proof. apply findall_match. reflexivity. Qed.

(** The text of the tokens of an expression, written without blanks, is
    split into these tokens again. *)
Lemma findall_expression :
  (forall e, Grammar.valid_expr e = true ->
     forall rest, Grammar.ends_number rest = true ->
       Re.findall pattern (PyStr.join (Grammar.expr_tokens e) ++ rest)
       = (Grammar.expr_tokens e ++ Re.findall pattern rest)%list)
  /\ (forall t, Grammar.valid_term t = true ->
        forall rest, Grammar.ends_number rest = true ->
          Re.findall pattern (PyStr.join (Grammar.term_tokens t) ++ rest)
          = (Grammar.term_tokens t ++ Re.findall pattern rest)%list)
  /\ (forall f, Grammar.valid_factor f = true ->
        forall rest, Grammar.ends_number rest = true ->
          Re.findall pattern (PyStr.join (Grammar.factor_tokens f) ++ rest)
          = (Grammar.factor_tokens f ++ Re.findall pattern rest)%list).
Proof.
  apply expr_mutind.
  - intros t IH Hv rest Hrest. exact (IH Hv rest Hrest).
  - intros e IHe o t IHt Hv rest Hrest.
    simpl in Hv. apply andb_true_iff in Hv. destruct Hv as [Hve Hvt].
    cbn [Grammar.expr_tokens].
    rewrite join_app. cbn [PyStr.join]. rewrite !sapp_assoc.
    rewrite IHe by (try exact Hve; destruct o; reflexivity).
    rewrite findall_addop, (IHt Hvt rest Hrest).
    rewrite <- List.app_assoc. reflexivity.
  - intros f IH Hv rest Hrest. exact (IH Hv rest Hrest).
  - intros t IHt o f IHf Hv rest Hrest.
    simpl in Hv. apply andb_true_iff in Hv. destruct Hv as [Hvt Hvf].
    cbn [Grammar.term_tokens].
    rewrite join_app. cbn [PyStr.join]. rewrite !sapp_assoc.
    rewrite IHt by (try exact Hvt; destruct o; reflexivity).
    rewrite findall_mulop, (IHf Hvf rest Hrest).
    rewrite <- List.app_assoc. reflexivity.
  - intros lit Hv rest Hrest. simpl in Hv.
    cbn [Grammar.factor_tokens PyStr.join]. rewrite sapp_nil_r.
    apply (findall_literal _ _ Hv Hrest).
  - intros e IHe Hv rest Hrest. simpl in Hv.
    cbn [Grammar.factor_tokens PyStr.join].
    rewrite join_app. cbn [PyStr.join]. rewrite sapp_nil_r, !sapp_assoc.
    rewrite findall_open, (IHe Hv) by reflexivity.
    rewrite findall_close. cbn [List.app].
    rewrite <- List.app_assoc. reflexivity.
Qed.

End Literals.

(* ================================================================= *)
(** * Expressions through the pipeline *)

Section Expressions.

Context {RT : Runtime}.

Local Open Scope string_scope.

(** ** The text of an expression and its tokens *)

Lemma tokens_ok :
  (forall e, Grammar.valid_expr e = true ->
     Forall (fun t => Grammar.token_ok t = true) (Grammar.expr_tokens e))
  /\ (forall t, Grammar.valid_term t = true ->
        Forall (fun t => Grammar.token_ok t = true) (Grammar.term_tokens t))
  /\ (forall f, Grammar.valid_factor f = true ->
        Forall (fun t => Grammar.token_ok t = true) (Grammar.factor_tokens f)).
Proof.
  apply expr_mutind; cbn [Grammar.expr_tokens Grammar.term_tokens
                            Grammar.factor_tokens Grammar.valid_expr
                            Grammar.valid_term Grammar.valid_factor].
  - intros t IH Hv. exact (IH Hv).
  - intros e IHe o t IHt Hv. apply andb_true_iff in Hv. destruct Hv as [He Ht].
    apply Forall_app. split; [exact (IHe He) | ].
    constructor; [destruct o; reflexivity | exact (IHt Ht)].
  - intros f IH Hv. exact (IH Hv).
  - intros t IHt o f IHf Hv. apply andb_true_iff in Hv. destruct Hv as [Ht Hf].
    apply Forall_app. split; [exact (IHt Ht) | ].
    constructor; [destruct o; reflexivity | exact (IHf Hf)].
  - intros lit Hv. constructor; [exact (literal_token_ok _ Hv) | constructor].
  - intros e IHe Hv. constructor; [reflexivity | ].
    apply Forall_app. split; [exact (IHe Hv) | ].
    constructor; [reflexivity | constructor].
Qed.

Lemma tokens_not_nil :
  (forall e, Grammar.expr_tokens e <> [])
  /\ (forall t, Grammar.term_tokens t <> [])
  /\ (forall f, Grammar.factor_tokens f <> []).
Proof.
  apply expr_mutind; cbn [Grammar.expr_tokens Grammar.term_tokens
                            Grammar.factor_tokens].
  - intros t IH. exact IH.
  - intros e IHe o t _ H. apply app_eq_nil in H. exact (IHe (proj1 H)).
  - intros f IH. exact IH.
  - intros t IHt o f _ H. apply app_eq_nil in H. exact (IHt (proj1 H)).
  - intros lit. discriminate.
  - intros e _. discriminate.
Qed.

Lemma token_ok_chars (t : string) :
  Grammar.token_ok t = true ->
  PyStr.forallb (fun a => negb (Ascii.eqb a " ")) t = true
  /\ PyStr.forallb Grammar.is_layout_char t = true
  /\ PyStr.forallb PyStr.is_space t = false.
Proof.
  unfold Grammar.token_ok. intro H. apply andb_true_iff in H.
  destruct H as [Hne Hch].
  split; [ | split].
  - refine (forallb_impl _ _ _ _ Hch). intros c Hc.
    destruct (token_char_facts _ Hc) as (-> & _). reflexivity.
  - refine (forallb_impl _ _ _ _ Hch). intros c Hc.
    unfold Grammar.is_layout_char. rewrite Hc. reflexivity.
  - destruct t as [ | c t]; [discriminate Hne | ].
    simpl in Hch |- *. apply andb_true_iff in Hch. destruct Hch as [Hc _].
    destruct (token_char_facts _ Hc) as (_ & -> & _). reflexivity.
Qed.

Lemma blanks_layout_chars (n : nat) :
  PyStr.forallb Grammar.is_layout_char (Grammar.blanks n) = true.
Proof. induction n as [ | n IH]; [reflexivity | exact IH]. Qed.

Lemma layout_chars (tokens : list string) (gaps : list nat) :
  Forall (fun t => Grammar.token_ok t = true) tokens ->
  PyStr.forallb Grammar.is_layout_char (Grammar.layout gaps tokens) = true.
Proof.
  intro H. revert gaps.
  induction H as [ | t tokens Ht _ IH]; intro gaps; cbn [Grammar.layout].
  - apply blanks_layout_chars.
  - rewrite !forallb_app, blanks_layout_chars, IH.
    destruct (token_ok_chars _ Ht) as (_ & -> & _). reflexivity.
Qed.

Lemma layout_without_blanks (tokens : list string) (gaps : list nat) :
  Forall (fun t => Grammar.token_ok t = true) tokens ->
  PyStr.replace " " "" (Grammar.layout gaps tokens) = PyStr.join tokens.
Proof.
  intro H. revert gaps.
  induction H as [ | t tokens Ht _ IH]; intro gaps; cbn [Grammar.layout PyStr.join].
  - rewrite <- (sapp_nil_r (Grammar.blanks _)), remove_blank_blanks.
    reflexivity.
  - rewrite remove_blank_blanks, remove_blank_token, IH;
      [reflexivity | exact (proj1 (token_ok_chars _ Ht))].
Qed.

Lemma layout_not_blank (t : string) (tokens : list string) (gaps : list nat) :
  Grammar.token_ok t = true ->
  PyStr.is_empty (PyStr.strip (Grammar.layout gaps (t :: tokens))) = false.
Proof.
  intro Ht. apply strip_with_some. cbn [Grammar.layout].
  rewrite !forallb_app.
  destruct (token_ok_chars _ Ht) as (_ & _ & ->).
  rewrite andb_false_r. reflexivity.
Qed.

Lemma layout_char_facts (c : ascii) :
  Grammar.is_layout_char c = true ->
  Ascii.eqb c "p" = false /\ Ascii.eqb c "e" = false.
Proof.
  destruct c as [[] [] [] [] [] [] [] []]; vm_compute; intro H;
    try discriminate H; auto.
Qed.

(** No constant is replaced in a text made of digits, points, operators,
    parentheses and blanks. *)
Lemma constants_absent (s : string) :
  PyStr.forallb Grammar.is_layout_char s = true ->
  replace_constants (constants init) s = s.
Proof.
  intro H. unfold replace_constants. cbn [constants init fold_left].
  rewrite (replace_absent "p" "i"), (replace_absent "e" "").
  - reflexivity.
  - refine (forallb_impl _ _ _ _ H). intros c Hc.
    destruct (layout_char_facts _ Hc) as [_ ->]. reflexivity.
  - refine (forallb_impl _ _ _ _ H). intros c Hc.
    destruct (layout_char_facts _ Hc) as [-> _]. reflexivity.
Qed.

(** [tokenize] returns the tokens of an expression, however its text is
    spaced. *)
Lemma tokens_in_layout (e : expr) (gaps : list nat) :
  Grammar.valid_expr e = true ->
  tokens_in (constants init) (Grammar.layout gaps (Grammar.expr_tokens e))
  = Grammar.expr_tokens e.
Proof.
  intro Hv. pose proof (proj1 tokens_ok e Hv) as Hok.
  unfold tokens_in.
  rewrite (constants_absent _ (layout_chars _ gaps Hok)).
  rewrite (layout_without_blanks _ gaps Hok).
  rewrite <- (sapp_nil_r (PyStr.join _)).
  rewrite (proj1 findall_expression e Hv "" eq_refl).
  apply List.app_nil_r.
Qed.

(** ** The converter on an expression *)

Local Abbreviation ops := (operators init).
Local Abbreviation funs := (functions init).

Lemma addop_facts (o : addop) :
  is_num (Grammar.addop_token o) = false
  /\ contains funs (Grammar.addop_token o) = false
  /\ contains ops (Grammar.addop_token o) = true
  /\ precedence ops (Grammar.addop_token o) = 1%nat.
Proof. destruct o; repeat split; vm_compute; reflexivity. Qed.

Lemma mulop_facts (o : mulop) :
  is_num (Grammar.mulop_token o) = false
  /\ contains funs (Grammar.mulop_token o) = false
  /\ contains ops (Grammar.mulop_token o) = true
  /\ precedence ops (Grammar.mulop_token o) = 2%nat.
Proof. destruct o; repeat split; vm_compute; reflexivity. Qed.

Lemma pending_weaken (l1 l2 : nat) (pend : list string) :
  (l2 <= l1)%nat -> pending ops l1 pend -> pending ops l2 pend.
Proof.
  intros Hle H. unfold pending in *.
  refine (Forall_impl _ _ H). intros t [Hc Hp]. split; [exact Hc | lia].
Qed.

Lemma low_top_weaken (l1 l2 : nat) (st : list string) :
  (l1 <= l2)%nat -> low_top ops l1 st = true -> low_top ops l2 st = true.
Proof.
  intros Hle. destruct st as [ | top st]; [reflexivity | ].
  unfold low_top. intro H.
  apply orb_true_iff in H. destruct H as [H | H].
  - rewrite H. reflexivity.
  - apply Nat.ltb_lt in H.
    assert (H' : (precedence ops top <? l2)%nat = true)
      by (apply Nat.ltb_lt; lia).
    rewrite H'. apply orb_true_r.
Qed.

(** An incoming operator pops the pending operators, whose precedence
    is at least its own, and stops at the stack below them. *)
Lemma pop_ops_pending (token : string) (pend output st : list string) :
  pending ops (precedence ops token) pend ->
  low_top ops (precedence ops token) st = true ->
  pop_ops ops token output (pend ++ st)%list = ((output ++ pend)%list, st).
Proof.
  intros Hpend Hst. revert output.
  induction Hpend as [ | t pend [Hc Hp] _ IH]; intro output.
  - rewrite List.app_nil_r. cbn [List.app].
    destruct st as [ | top st]; [reflexivity | ].
    cbn [pop_ops]. unfold low_top in Hst.
    destruct (String.eqb top "("); [reflexivity | ].
    destruct (contains ops top); [ | reflexivity].
    simpl in Hst. apply Nat.ltb_lt in Hst.
    assert (H : (precedence ops token <=? precedence ops top)%nat = false)
      by (apply Nat.leb_gt; exact Hst).
    rewrite H. reflexivity.
  - cbn [List.app pop_ops].
    destruct (operator_key _ Hc) as (_ & _ & ->). rewrite Hc.
    apply Nat.leb_le in Hp. rewrite Hp, IH, <- List.app_assoc. reflexivity.
Qed.

Lemma pop_until_paren_pending (level : nat) (pend output st : list string) :
  pending ops level pend ->
  pop_until_paren output (pend ++ "(" :: st)%list
  = ((output ++ pend)%list, "(" :: st).
Proof.
  intros Hpend. revert output.
  induction Hpend as [ | t pend [Hc _] _ IH]; intro output.
  - rewrite List.app_nil_r. reflexivity.
  - cbn [List.app pop_until_paren].
    destruct (operator_key _ Hc) as (_ & _ & ->).
    rewrite IH, <- List.app_assoc. reflexivity.
Qed.

Lemma shunt_open (rest output st : list string) :
  shunt ops funs ("(" :: rest) output st = shunt ops funs rest output ("(" :: st).
Proof. reflexivity. Qed.

Lemma shunt_close (level : nat) (rest output pend st : list string) :
  pending ops level pend ->
  no_function_on_top funs st = true ->
  shunt ops funs (")" :: rest) output (pend ++ "(" :: st)%list
  = shunt ops funs rest (output ++ pend)%list st.
Proof.
  intros Hpend Hst.
  change (shunt ops funs (")" :: rest) output (pend ++ "(" :: st)%list)
    with (let '(o, s) := close_paren funs output (pend ++ "(" :: st)%list in
          shunt ops funs rest o s).
  unfold close_paren. rewrite (pop_until_paren_pending _ _ _ _ Hpend).
  cbn [String.eqb Ascii.eqb Bool.eqb andb].
  change (("(" =? "(")%string) with true. cbv iota.
  destruct st as [ | top st]; [reflexivity | ].
  unfold no_function_on_top in Hst.
  apply negb_true_iff in Hst. rewrite Hst. reflexivity.
Qed.

(** The converter turns an expression into its postfix form: after it
    has read the tokens of an expression, the output holds that form
    except for the operators still pending on the stack. *)
Lemma shunt_expression :
  (forall e, Grammar.valid_expr e = true ->
     forall rest output st,
       no_function_on_top funs st = true -> low_top ops 1 st = true ->
       exists body pend,
         pending ops 1 pend
         /\ (body ++ pend)%list = Grammar.expr_postfix e
         /\ shunt ops funs (Grammar.expr_tokens e ++ rest)%list output st
            = shunt ops funs rest (output ++ body)%list (pend ++ st)%list)
  /\ (forall t, Grammar.valid_term t = true ->
        forall rest output st,
          no_function_on_top funs st = true -> low_top ops 2 st = true ->
          exists body pend,
            pending ops 2 pend
            /\ (body ++ pend)%list = Grammar.term_postfix t
            /\ shunt ops funs (Grammar.term_tokens t ++ rest)%list output st
               = shunt ops funs rest (output ++ body)%list (pend ++ st)%list)
  /\ (forall f, Grammar.valid_factor f = true ->
        forall rest output st,
          no_function_on_top funs st = true ->
          shunt ops funs (Grammar.factor_tokens f ++ rest)%list output st
          = shunt ops funs rest (output ++ Grammar.factor_postfix f)%list st).
Proof.
  apply expr_mutind; cbn [Grammar.expr_tokens Grammar.term_tokens
                            Grammar.factor_tokens Grammar.valid_expr
                            Grammar.valid_term Grammar.valid_factor
                            Grammar.expr_postfix Grammar.term_postfix
                            Grammar.factor_postfix].
  - (* a term as an expression *)
    intros t IH Hv rest output st Hfun Hlow.
    destruct (IH Hv rest output st Hfun (low_top_weaken 1 2 st ltac:(lia) Hlow))
      as (body & pend & Hpend & Hpost & Hrun).
    exists body, pend. split; [ | split; assumption].
    exact (pending_weaken 2 1 pend ltac:(lia) Hpend).
  - (* e o t *)
    intros e IHe o t IHt Hv rest output st Hfun Hlow.
    apply andb_true_iff in Hv. destruct Hv as [Hve Hvt].
    destruct (addop_facts o) as (Hn & Hf & Hc & Hp).
    destruct (IHe Hve (Grammar.addop_token o :: Grammar.term_tokens t ++ rest)%list
                  output st Hfun Hlow)
      as (body1 & pend1 & Hpend1 & Hpost1 & Hrun1).
    assert (Hfun' : no_function_on_top funs (Grammar.addop_token o :: st) = true)
      by (unfold no_function_on_top; rewrite Hf; reflexivity).
    assert (Hlow' : low_top ops 2 (Grammar.addop_token o :: st) = true).
    { unfold low_top. rewrite Hp. apply orb_true_r. }
    destruct (IHt Hvt rest ((output ++ body1) ++ pend1)%list
                  (Grammar.addop_token o :: st) Hfun' Hlow')
      as (body2 & pend2 & Hpend2 & Hpost2 & Hrun2).
    exists (body1 ++ pend1 ++ body2)%list, (pend2 ++ [Grammar.addop_token o])%list.
    split; [ | split].
    + apply Forall_app. split.
      * exact (pending_weaken 2 1 pend2 ltac:(lia) Hpend2).
      * constructor; [ | constructor]. split; [exact Hc | lia].
    + rewrite <- Hpost1, <- Hpost2. rewrite <- !List.app_assoc. reflexivity.
    + rewrite <- List.app_assoc. cbn [List.app]. rewrite Hrun1.
      rewrite (shunt_operator _ _ _ _ _ _ Hn Hf Hc).
      rewrite pop_ops_pending by (rewrite Hp; assumption).
      cbn [fst snd]. rewrite Hrun2.
      rewrite <- !List.app_assoc. reflexivity.
  - (* a factor as a term *)
    intros f IH Hv rest output st Hfun Hlow.
    exists (Grammar.factor_postfix f), []. split; [constructor | split].
    + apply List.app_nil_r.
    + exact (IH Hv rest output st Hfun).
  - (* t o f *)
    intros t IHt o f IHf Hv rest output st Hfun Hlow.
    apply andb_true_iff in Hv. destruct Hv as [Hvt Hvf].
    destruct (mulop_facts o) as (Hn & Hf & Hc & Hp).
    destruct (IHt Hvt (Grammar.mulop_token o :: Grammar.factor_tokens f ++ rest)%list
                  output st Hfun Hlow)
      as (body1 & pend1 & Hpend1 & Hpost1 & Hrun1).
    assert (Hfun' : no_function_on_top funs (Grammar.mulop_token o :: st) = true)
      by (unfold no_function_on_top; rewrite Hf; reflexivity).
    exists (body1 ++ pend1 ++ Grammar.factor_postfix f)%list,
           [Grammar.mulop_token o].
    split; [ | split].
    + constructor; [ | constructor]. split; [exact Hc | lia].
    + rewrite <- Hpost1. rewrite <- !List.app_assoc. reflexivity.
    + rewrite <- List.app_assoc. cbn [List.app]. rewrite Hrun1.
      rewrite (shunt_operator _ _ _ _ _ _ Hn Hf Hc).
      rewrite pop_ops_pending by (rewrite Hp; assumption).
      cbn [fst snd].
      rewrite (IHf Hvf rest _ _ Hfun').
      rewrite <- !List.app_assoc. reflexivity.
  - (* a number *)
    intros lit Hv rest output st _. cbn [List.app].
    apply shunt_number. exact (is_num_literal _ Hv).
  - (* ( e ) *)
    intros e IHe Hv rest output st Hfun.
    cbn [List.app]. rewrite shunt_open, <- List.app_assoc. cbn [List.app].
    destruct (IHe Hv (")" :: rest) output ("(" :: st) eq_refl eq_refl)
      as (body & pend & Hpend & Hpost & Hrun).
    rewrite Hrun, (shunt_close 1 _ _ _ _ Hpend Hfun).
    rewrite <- Hpost, <- List.app_assoc. reflexivity.
Qed.

Lemma shunt_whole_expression (e : expr) :
  Grammar.valid_expr e = true ->
  shunt ops funs (Grammar.expr_tokens e) [] [] = Grammar.expr_postfix e.
Proof.
  intro Hv.
  destruct (proj1 shunt_expression e Hv [] [] [] eq_refl eq_refl)
    as (body & pend & _ & Hpost & Hrun).
  rewrite List.app_nil_r in Hrun. rewrite Hrun. cbn [shunt List.app].
  rewrite List.app_nil_r. exact Hpost.
Qed.

(** ** The evaluator on a postfix form *)

Lemma and_then_ext {A B : Type} (o : outcome A) (f g : A -> outcome B) :
  (forall a, f a = g a) -> and_then o f = and_then o g.
Proof. intro H. destruct o; simpl; [apply H | reflexivity]. Qed.

Lemma eval_literal (lit : string) (stack : list val) :
  Grammar.is_literal lit = true ->
  eval_token ops funs lit stack
  = Ret (VFloat (Grammar.literal_value lit) :: stack).
Proof.
  intro H. unfold eval_token. rewrite (float_literal _ H). reflexivity.
Qed.

Lemma eval_addop (o : addop) (x y : F64.float64) (stack : list val) :
  eval_token ops funs (Grammar.addop_token o) (VFloat y :: VFloat x :: stack)
  = and_then (Grammar.apply_addop o x y) (fun z => Ret (VFloat z :: stack)).
Proof. destruct o; reflexivity. Qed.

Lemma eval_mulop (o : mulop) (x y : F64.float64) (stack : list val) :
  eval_token ops funs (Grammar.mulop_token o) (VFloat y :: VFloat x :: stack)
  = and_then (Grammar.apply_mulop o x y) (fun z => Ret (VFloat z :: stack)).
Proof.
  destruct o.
  - reflexivity.
  - unfold eval_token. simpl. destruct (F64.is_zero y); reflexivity.
Qed.

(** The evaluator computes, on the postfix form of an expression, what
    the reference evaluator computes on the expression, fault for
    fault, and pushes it. *)
Lemma eval_postfix_form :
  (forall e, Grammar.valid_expr e = true ->
     forall rest stack,
       eval_tokens ops funs (Grammar.expr_postfix e ++ rest)%list stack
       = and_then (Grammar.eval_expr e)
                  (fun x => eval_tokens ops funs rest (VFloat x :: stack)))
  /\ (forall t, Grammar.valid_term t = true ->
        forall rest stack,
          eval_tokens ops funs (Grammar.term_postfix t ++ rest)%list stack
          = and_then (Grammar.eval_term t)
                     (fun x => eval_tokens ops funs rest (VFloat x :: stack)))
  /\ (forall f, Grammar.valid_factor f = true ->
        forall rest stack,
          eval_tokens ops funs (Grammar.factor_postfix f ++ rest)%list stack
          = and_then (Grammar.eval_factor f)
                     (fun x => eval_tokens ops funs rest (VFloat x :: stack))).
Proof.
  apply expr_mutind; cbn [Grammar.valid_expr Grammar.valid_term
                            Grammar.valid_factor
                            Grammar.expr_postfix Grammar.term_postfix
                            Grammar.factor_postfix
                            Grammar.eval_expr Grammar.eval_term
                            Grammar.eval_factor].
  - intros t IH Hv rest stack. exact (IH Hv rest stack).
  - intros e IHe o t IHt Hv rest stack.
    apply andb_true_iff in Hv. destruct Hv as [Hve Hvt].
    rewrite <- !List.app_assoc. rewrite (IHe Hve).
    destruct (Grammar.eval_expr e) as [x | err]; cbn [and_then];
      [ | reflexivity].
    rewrite (IHt Hvt).
    destruct (Grammar.eval_term t) as [y | err]; cbn [and_then];
      [ | reflexivity].
    cbn [List.app eval_tokens]. rewrite eval_addop.
    destruct (Grammar.apply_addop o x y); reflexivity.
  - intros f IH Hv rest stack. exact (IH Hv rest stack).
  - intros t IHt o f IHf Hv rest stack.
    apply andb_true_iff in Hv. destruct Hv as [Hvt Hvf].
    rewrite <- !List.app_assoc. rewrite (IHt Hvt).
    destruct (Grammar.eval_term t) as [x | err]; cbn [and_then];
      [ | reflexivity].
    rewrite (IHf Hvf).
    destruct (Grammar.eval_factor f) as [y | err]; cbn [and_then];
      [ | reflexivity].
    cbn [List.app eval_tokens]. rewrite eval_mulop.
    destruct (Grammar.apply_mulop o x y); reflexivity.
  - intros lit Hv rest stack. cbn [List.app eval_tokens and_then].
    rewrite (eval_literal _ _ Hv). reflexivity.
  - intros e IHe Hv rest stack. exact (IHe Hv rest stack).
Qed.

Lemma format_float (x : F64.float64) :
  format_value (VFloat x) = Ret (present (Ret x)).
Proof.
  unfold format_value, present, py_is_integer, and_then.
  destruct x as [s | s | | s m e]; try reflexivity.
  destruct (F64.is_integer (S754_finite s m e)); reflexivity.
Qed.

End Expressions.

(* ================================================================= *)
(** * Expressions: [calculate] and the reference evaluator *)

Section Reference.

Context {RT : Runtime}.

Local Open Scope string_scope.

Lemma expression_not_blank (e : expr) (gaps : list nat) :
  Grammar.valid_expr e = true ->
  PyStr.is_empty (PyStr.strip (Grammar.layout gaps (Grammar.expr_tokens e)))
  = false.
Proof.
  intro Hv. pose proof (proj1 tokens_ok e Hv) as Hok.
  destruct (Grammar.expr_tokens e) as [ | t tokens] eqn:E.
  - contradiction (proj1 tokens_not_nil e).
  - apply layout_not_blank. inversion Hok. assumption.
Qed.

Lemma eval_whole_expression (e : expr) :
  Grammar.valid_expr e = true ->
  and_then (eval_tokens (operators init) (functions init)
                        (Grammar.expr_postfix e) []) single
  = and_then (Grammar.eval_expr e) (fun x => Ret (VFloat x)).
Proof.
  intro Hv. rewrite <- (List.app_nil_r (Grammar.expr_postfix e)).
  rewrite (proj1 eval_postfix_form e Hv [] []).
  destruct (Grammar.eval_expr e); reflexivity.
Qed.

(** C3 (as amended): for every expression over decimal numbers, [+ - * /]
    and parentheses, however its text is spaced, [tokenize] returns its
    tokens, the converter its postfix form, the evaluator the value of
    the reference evaluator, which follows the parse (multiplicative
    operators bind tighter, one level groups from left to right,
    parentheses first); and [calculate] returns that value as the
    result formatter presents it: as an integer when it has no
    fractional part, rounded to 10 decimal places otherwise, and as
    "Error: Division by zero" when the reference evaluator divides by
    zero.  [calculate("2 + 3 * 4")] is 14 and [calculate("(2 + 3) * 4")]
    is 20. *)
Theorem calculate_matches_reference :
  (forall (e : expr) (gaps : list nat),
      Grammar.valid_expr e = true ->
      tokenize (Grammar.layout gaps (Grammar.expr_tokens e)) init
      = (Ret (Grammar.expr_tokens e), init)
      /\ infix_to_postfix (Grammar.expr_tokens e) init
         = (Ret (Grammar.expr_postfix e), init)
      /\ evaluate_postfix (Grammar.expr_postfix e) init
         = (and_then (Grammar.eval_expr e) (fun x => Ret (VFloat x)), init)
      /\ calculate (Grammar.layout gaps (Grammar.expr_tokens e)) init
         = (present (Grammar.eval_expr e), init))
  /\ Grammar.layout [0; 1; 1; 1; 1]%nat
                    (Grammar.expr_tokens Grammar.sum_with_product)
     = "2 + 3 * 4"
  /\ calculate "2 + 3 * 4" init = (RInt 14, init)
  /\ Grammar.layout [0; 0; 1; 1; 0; 1; 1]%nat
                    (Grammar.expr_tokens Grammar.product_of_sum)
     = "(2 + 3) * 4"
  /\ calculate "(2 + 3) * 4" init = (RInt 20, init).
Proof.
  refine (conj _ (conj _ (conj _ (conj _ _)))).
  - intros e gaps Hv.
    refine (conj _ (conj _ (conj _ _))).
    + rewrite tokenize_run, (tokens_in_layout e gaps Hv). reflexivity.
    + rewrite infix_to_postfix_run, (shunt_whole_expression e Hv). reflexivity.
    + rewrite evaluate_postfix_run, (eval_whole_expression e Hv). reflexivity.
    + rewrite calculate_run. f_equal.
      rewrite (calculation_postfix _ _ (expression_not_blank e gaps Hv)).
      unfold postfix_in.
      rewrite (tokens_in_layout e gaps Hv), (shunt_whole_expression e Hv).
      rewrite (eval_whole_expression e Hv).
      destruct (Grammar.eval_expr e) as [x | err]; cbn [and_then].
      * rewrite format_float. reflexivity.
      * reflexivity.
  - reflexivity.
  - run.
  - reflexivity.
  - run.
Qed.

Lemma minus_literal_tokens (lit : string) :
  Grammar.is_literal lit = true ->
  tokens_in (constants init) ("-" ++ lit) = ["-"; lit].
Proof.
  intro H. pose proof (token_ok_chars _ (literal_token_ok _ H))
    as (Hnb & Hlc & _).
  unfold tokens_in.
  rewrite constants_absent
    by (change ("-" ++ lit) with (String "-" lit);
        cbn [PyStr.forallb]; rewrite Hlc; reflexivity).
  rewrite <- (sapp_nil_r ("-" ++ lit)) at 1.
  rewrite remove_blank_token
    by (change ("-" ++ lit) with (String "-" lit);
        cbn [PyStr.forallb]; rewrite Hnb; reflexivity).
  change (PyStr.replace " " "" "") with "". rewrite sapp_nil_r.
  rewrite (findall_addop Minus lit
           : Re.findall pattern ("-" ++ lit) = "-" :: Re.findall pattern lit).
  rewrite <- (sapp_nil_r lit) at 1.
  rewrite (findall_literal lit "" H eq_refl). reflexivity.
Qed.

(** C10: there is no unary minus.  For a decimal number preceded by
    ["-"], as in ["-5"], [tokenize] returns the two tokens ["-"] and
    the number, the converter the postfix sequence made of the number
    and ["-"], the evaluator meets ["-"] on a stack of one value, and
    [calculate] returns the message of the operands that are missing. *)
Theorem unary_minus_unsupported :
  (forall lit : string,
      Grammar.is_literal lit = true ->
      tokenize ("-" ++ lit) init = (Ret ["-"; lit], init)
      /\ infix_to_postfix ["-"; lit] init = (Ret [lit; "-"], init)
      /\ evaluate_postfix [lit; "-"] init
         = (Raise (ValueError (not_enough_operands "-")), init)
      /\ calculate ("-" ++ lit) init
         = (RStr "Error: Invalid expression: not enough operands for '-'",
            init))
  /\ Grammar.is_literal "5" = true
  /\ tokenize "-5" init = (Ret ["-"; "5"], init)
  /\ infix_to_postfix ["-"; "5"] init = (Ret ["5"; "-"], init)
  /\ calculate "-5" init
     = (RStr "Error: Invalid expression: not enough operands for '-'", init).
Proof.
  refine (conj _ (conj _ (conj _ (conj _ _)))).
  - intros lit H.
    destruct (addop_facts Minus) as (Hn & Hf & Hc & _).
    assert (Hshunt : shunt (operators init) (functions init) ["-"; lit] [] []
                     = [lit; "-"]).
    { rewrite (shunt_operator _ _ _ _ _ _ Hn Hf Hc). cbn [pop_ops fst snd].
      rewrite (shunt_number _ _ _ _ _ _ (is_num_literal _ H)). reflexivity. }
    assert (Heval : eval_tokens (operators init) (functions init) [lit; "-"] []
                    = Raise (ValueError (not_enough_operands "-"))).
    { cbn [eval_tokens]. rewrite (eval_literal _ _ H). reflexivity. }
    refine (conj _ (conj _ (conj _ _))).
    + rewrite tokenize_run, (minus_literal_tokens _ H). reflexivity.
    + rewrite infix_to_postfix_run, Hshunt. reflexivity.
    + rewrite evaluate_postfix_run, Heval. reflexivity.
    + rewrite calculate_run. f_equal.
      rewrite calculation_postfix by (apply strip_with_some; reflexivity).
      unfold postfix_in.
      rewrite (minus_literal_tokens _ H), Hshunt, Heval. reflexivity.
  - reflexivity.
  - run.
  - run.
  - run.
Qed.

End Reference.

(* ================================================================= *)
(** * The tokenizer on any text *)

Section TokenShapes.

Context {RT : Runtime}.

Local Open Scope string_scope.

Ltac each_char c := destruct c as [[] [] [] [] [] [] [] []].

Lemma string_length_ind (P : string -> Prop) :
  (forall s, (forall s', (String.length s' < String.length s)%nat -> P s') -> P s) ->
  forall s, P s.
Proof.
  intros H s.
  assert (Hn : forall n s', (String.length s' < n)%nat -> P s').
  { induction n as [ | n IH]; intros s' Hlt; [lia | ].
    apply H. intros s'' Hlt'. apply IH. lia. }
  exact (Hn (S (String.length s)) s (Nat.lt_succ_diag_r _)).
Qed.

Lemma star_slash_facts (c : ascii) :
  Re.is_single_operator c = false ->
  Ascii.eqb "*" c = false /\ Ascii.eqb "/" c = false.
Proof. each_char c; vm_compute; intro H; try discriminate H; auto. Qed.

(** The two literals never get their turn. *)
Lemma alt_literal_none (c : ascii) (s : string) :
  Re.is_single_operator c = false ->
  Re.alt_literal "**" (String c s) = None
  /\ Re.alt_literal "//" (String c s) = None.
Proof.
  intro H. destruct (star_slash_facts _ H) as [H1 H2].
  unfold Re.alt_literal. rewrite !prefix_cons, H1, H2. auto.
Qed.

Lemma literal_integer (d : string) :
  PyStr.is_empty d = false -> PyStr.forallb PyStr.is_digit d = true ->
  Grammar.is_literal d = true.
Proof.
  intros Hne Hd. unfold Grammar.is_literal.
  rewrite (span_all _ _ Hd), Hne. reflexivity.
Qed.

Lemma literal_decimal (d fp : string) :
  PyStr.is_empty d = false -> PyStr.forallb PyStr.is_digit d = true ->
  PyStr.forallb PyStr.is_digit fp = true ->
  Grammar.is_literal (d ++ String "." fp) = true.
Proof.
  intros Hne Hd Hfp. unfold Grammar.is_literal.
  rewrite (span_app _ _ _ Hd).
  rewrite (span_stop PyStr.is_digit (String "." fp) eq_refl).
  cbn [fst snd]. rewrite sapp_nil_r, Hne, Hfp. reflexivity.
Qed.

(** What the number alternative matches: a decimal number at the start
    of the text. *)
Lemma alt_number_splits (s m : string) :
  Re.alt_number s = Some m ->
  Grammar.is_literal m = true /\ exists rest, s = m ++ rest.
Proof.
  unfold Re.alt_number. destruct s as [ | c s]; [discriminate | ].
  destruct (PyStr.is_digit c) eqn:Hc; [ | discriminate].
  destruct (span_spec PyStr.is_digit (String c s)) as (Hs & Hd & _).
  destruct (span_head PyStr.is_digit c s Hc) as [a Ha].
  destruct (PyStr.span PyStr.is_digit (String c s)) as [d1 r1].
  cbn [fst snd] in Hs, Hd, Ha. subst d1.
  destruct r1 as [ | c1 r2].
  - intro H. injection H as <-. split.
    + apply literal_integer; [reflexivity | exact Hd].
    + exists "". exact Hs.
  - destruct (Ascii.eqb c1 ".") eqn:Hdot.
    + apply Ascii.eqb_eq in Hdot. subst c1.
      intro H. injection H as <-.
      destruct (span_spec PyStr.is_digit r2) as (Hr & Hfp & _).
      split.
      * apply (literal_decimal (String c a));
          [reflexivity | exact Hd | exact Hfp].
      * exists (snd (PyStr.span PyStr.is_digit r2)).
        rewrite Hr in Hs at 1. rewrite Hs. cbn [append]. f_equal.
        rewrite sapp_assoc. reflexivity.
    + assert (H : forall X Y : option string,
                 match c1 with "."%char => X | _ => Y end = Y).
      { intros X Y. each_char c1; try reflexivity. discriminate Hdot. }
      rewrite H. clear H.
      intro H. injection H as <-. split.
      * apply literal_integer; [reflexivity | exact Hd].
      * exists (String c1 r2). exact Hs.
Qed.

(** A match of the pattern has one of the three shapes, is not empty,
    and is the start of the text. *)
Lemma match_at_splits (s m : string) :
  Re.match_at pattern s = Some m ->
  Token.shape_ok m = true
  /\ exists c m' rest, m = String c m' /\ s = m ++ rest.
Proof.
  unfold pattern. cbn [Re.match_at].
  destruct (Re.alt_number s) as [m1 | ] eqn:H1.
  - intro H. injection H as <-.
    destruct (alt_number_head _ _ H1) as (c & m' & E & _).
    destruct (alt_number_splits _ _ H1) as (Hl & rest & Hs).
    split.
    + unfold Token.shape_ok. rewrite Hl. reflexivity.
    + exists c, m', rest. auto.
  - destruct s as [ | c s]; [discriminate | ].
    unfold Re.alt_single.
    destruct (Re.is_single_operator c) eqn:Hc.
    + intro H. injection H as <-. split.
      * unfold Token.shape_ok. cbn [Token.is_operator_char]. rewrite Hc.
        rewrite orb_true_r. reflexivity.
      * exists c, "", s. auto.
    + destruct (alt_literal_none c s Hc) as [-> ->].
      unfold Re.alt_identifier.
      destruct (PyStr.is_ident_start c) eqn:Hi; [ | discriminate].
      intro H. injection H as <-.
      destruct (span_spec PyStr.is_word s) as (Hs & Hw & _).
      split.
      * unfold Token.shape_ok. cbn [Token.is_identifier]. rewrite Hi, Hw.
        apply orb_true_r.
      * exists c, (fst (PyStr.span PyStr.is_word s)),
          (snd (PyStr.span PyStr.is_word s)).
        split; [reflexivity | ]. cbn [append]. rewrite <- Hs. reflexivity.
Qed.

Lemma findall_none (alts : list Re.alternative) (c : ascii) (s : string) :
  Re.match_at alts (String c s) = None ->
  Re.findall alts (String c s) = Re.findall alts s.
Proof. intro H. unfold Re.findall. cbn [Re.findall_from]. rewrite H. reflexivity. Qed.

Lemma alt_number_digit (c : ascii) (s : string) :
  PyStr.is_digit c = true -> Re.alt_number (String c s) <> None.
Proof.
  intro Hc. unfold Re.alt_number. rewrite Hc.
  destruct (PyStr.span PyStr.is_digit (String c s)) as [d1 r1].
  destruct r1 as [ | c1 r2]; [discriminate | ].
  each_char c1; discriminate.
Qed.

(** The pattern matches at a character that is a digit, one of the
    operator characters, an ASCII letter or an underscore, and nowhere
    else. *)
Lemma match_at_none (c : ascii) (s : string) :
  Re.match_at pattern (String c s) = None <-> Token.starts_token c = false.
Proof.
  unfold pattern, Token.starts_token. cbn [Re.match_at]. split.
  - destruct (PyStr.is_digit c) eqn:Hd.
    + pose proof (alt_number_digit c s Hd) as Hn.
      destruct (Re.alt_number (String c s)); [discriminate | contradiction].
    + destruct (Re.alt_number (String c s)); [discriminate | ].
      unfold Re.alt_single.
      destruct (Re.is_single_operator c) eqn:Hc; [discriminate | ].
      destruct (alt_literal_none c s Hc) as [-> ->].
      unfold Re.alt_identifier.
      destruct (PyStr.is_ident_start c); [discriminate | reflexivity].
  - intro H. apply orb_false_iff in H. destruct H as [H Hi].
    apply orb_false_iff in H. destruct H as [Hd Hc].
    unfold Re.alt_number, Re.alt_single, Re.alt_identifier.
    rewrite Hd, Hc, Hi.
    destruct (alt_literal_none c s Hc) as [-> ->]. reflexivity.
Qed.

(** [findall] by cases on what the pattern does at the start. *)
Lemma findall_cases (s : string) :
  s = "" /\ Re.findall pattern s = []
  \/ (exists c s', s = String c s' /\ Token.starts_token c = false
                   /\ Re.findall pattern s = Re.findall pattern s')
  \/ (exists m rest, Token.shape_ok m = true
                     /\ (String.length rest < String.length s)%nat
                     /\ s = m ++ rest
                     /\ Re.findall pattern s = m :: Re.findall pattern rest).
Proof.
  destruct s as [ | c s]; [left; auto | right].
  destruct (Re.match_at pattern (String c s)) as [m | ] eqn:Hm.
  - right. destruct (match_at_splits _ _ Hm) as (Hshape & c' & m' & rest & E & Hs).
    exists m, rest. split; [exact Hshape | ].
    split; [rewrite Hs, slength_app, E; simpl; lia | ].
    split; [exact Hs | ].
    rewrite Hs in Hm |- *. rewrite E in Hm |- *.
    exact (findall_match _ _ _ _ Hm).
  - left. exists c, s. split; [reflexivity | ].
    split; [exact (proj1 (match_at_none c s) Hm) | exact (findall_none _ _ _ Hm)].
Qed.

Lemma findall_shapes (s : string) :
  Forall (fun t => Token.shape_ok t = true) (Re.findall pattern s).
Proof.
  induction s as [s IH] using string_length_ind.
  destruct (findall_cases s)
    as [[_ ->] | [(c & s' & -> & _ & ->) | (m & rest & Hm & Hlt & _ & ->)]].
  - constructor.
  - apply IH. simpl. lia.
  - constructor; [exact Hm | exact (IH _ Hlt)].
Qed.

(** X1: whatever the expression and the object, every token [tokenize]
    returns is a decimal number (digits, then possibly a point and
    digits), one character among [+ - * / ( ) ^ %], or an identifier (an
    ASCII letter or underscore, then word characters); none is empty. *)
Theorem tokenize_token_shapes (self : Calculator) (expression : string) :
  exists tokens : list string,
    tokenize expression self = (Ret tokens, self)
    /\ Forall (fun t => Token.shape_ok t = true /\ PyStr.is_empty t = false)
              tokens.
Proof.
  exists (tokens_in (constants self) expression).
  split; [apply tokenize_run | ].
  unfold tokens_in.
  refine (Forall_impl _ _ (findall_shapes _)).
  intros t Ht. split; [exact Ht | ]. destruct t; [discriminate Ht | reflexivity].
Qed.

End TokenShapes.

(* ================================================================= *)
(** * What the tokenizer keeps of a text *)

Section ScannedTexts.

Context {RT : Runtime}.

Local Open Scope string_scope.

Ltac each_char c := destruct c as [[] [] [] [] [] [] [] []].

Lemma subsequence_app (m a b : string) :
  subsequence a b -> subsequence (m ++ a) (m ++ b).
Proof.
  intro H. induction m as [ | c m IH]; [exact H | ].
  cbn [append]. apply sub_keep. exact IH.
Qed.

Lemma join_findall_subsequence (s : string) :
  subsequence (PyStr.join (Re.findall pattern s)) s.
Proof.
  induction s as [s IH] using string_length_ind.
  destruct (findall_cases s)
    as [[-> ->] | [(c & s' & -> & _ & ->) | (m & rest & _ & Hlt & E & ->)]].
  - constructor.
  - apply sub_drop. apply IH. simpl. lia.
  - rewrite E. cbn [PyStr.join]. apply subsequence_app. exact (IH _ Hlt).
Qed.

Lemma join_findall_starters (s : string) :
  PyStr.forallb Token.starts_token s = true ->
  PyStr.join (Re.findall pattern s) = s.
Proof.
  induction s as [s IH] using string_length_ind. intro Hs.
  destruct (findall_cases s)
    as [[-> ->] | [(c & s' & -> & Hc & _) | (m & rest & _ & Hlt & E & ->)]].
  - reflexivity.
  - cbn [PyStr.forallb] in Hs. rewrite Hc in Hs. discriminate Hs.
  - cbn [PyStr.join]. rewrite E in Hs. rewrite forallb_app in Hs.
    apply andb_true_iff in Hs. rewrite (IH _ Hlt (proj2 Hs)).
    symmetry. exact E.
Qed.

Lemma findall_nothing (s : string) :
  PyStr.forallb (fun c => negb (Token.starts_token c)) s = true ->
  Re.findall pattern s = [].
Proof.
  induction s as [ | c s IH]; [reflexivity | ].
  cbn [PyStr.forallb]. intro H. apply andb_true_iff in H. destruct H as [Hc Hs].
  apply negb_true_iff in Hc.
  rewrite (findall_none _ _ _ (proj2 (match_at_none c s) Hc)). exact (IH Hs).
Qed.

(** ** Blanks *)

Lemma remove_blank_step (x : ascii) (s : string) :
  PyStr.replace " " "" (String x s)
  = if Ascii.eqb x " " then PyStr.replace " " "" s
    else String x (PyStr.replace " " "" s).
Proof.
  destruct (Ascii.eqb x " ") eqn:Hx.
  - apply Ascii.eqb_eq in Hx. subst x. apply remove_blank_cons_blank.
  - apply remove_blank_cons. exact Hx.
Qed.

Lemma remove_blank_forallb (p : ascii -> bool) (s : string) :
  PyStr.forallb p s = true -> PyStr.forallb p (PyStr.replace " " "" s) = true.
Proof.
  induction s as [ | x s IH]; [reflexivity | ].
  cbn [PyStr.forallb]. intro H. apply andb_true_iff in H. destruct H as [Hx Hs].
  rewrite remove_blank_step. destruct (Ascii.eqb x " ").
  - exact (IH Hs).
  - cbn [PyStr.forallb]. rewrite Hx, (IH Hs). reflexivity.
Qed.

Lemma remove_blank_none_left (s : string) :
  PyStr.forallb (fun a => negb (Ascii.eqb a " ")) (PyStr.replace " " "" s) = true.
Proof.
  induction s as [ | x s IH]; [reflexivity | ].
  rewrite remove_blank_step. destruct (Ascii.eqb x " ") eqn:Hx.
  - exact IH.
  - cbn [PyStr.forallb]. rewrite Hx, IH. reflexivity.
Qed.

Lemma remove_blank_twice (s : string) :
  PyStr.replace " " "" (PyStr.replace " " "" s) = PyStr.replace " " "" s.
Proof. apply (replace_absent " " "" ""). apply remove_blank_none_left. Qed.

Lemma remove_blank_spaces (s : string) :
  PyStr.forallb PyStr.is_space (PyStr.replace " " "" s)
  = PyStr.forallb PyStr.is_space s.
Proof.
  induction s as [ | x s IH]; [reflexivity | ].
  rewrite remove_blank_step. destruct (Ascii.eqb x " ") eqn:Hx.
  - apply Ascii.eqb_eq in Hx. subst x. exact IH.
  - cbn [PyStr.forallb]. rewrite IH. reflexivity.
Qed.

(** ** [strip] *)

Lemma drop_while_all (p : ascii -> bool) (s : string) :
  PyStr.forallb p s = true -> PyStr.drop_while p s = "".
Proof.
  induction s as [ | x s IH]; [reflexivity | ].
  cbn [PyStr.forallb PyStr.drop_while]. intro H.
  apply andb_true_iff in H. destruct H as [-> Hs]. exact (IH Hs).
Qed.

(** A string strips to the empty string exactly when all its characters
    are stripped. *)
Lemma strip_with_empty (p : ascii -> bool) (s : string) :
  PyStr.is_empty (PyStr.strip_with p s) = PyStr.forallb p s.
Proof.
  destruct (PyStr.forallb p s) eqn:H.
  - unfold PyStr.strip_with. rewrite (drop_while_all _ _ H). reflexivity.
  - exact (strip_with_some _ _ H).
Qed.

(** ** Constants *)

(** A text without the letters [p] and [e] holds no constant. *)
Lemma constants_untouched (s : string) :
  PyStr.forallb Token.is_plain s = true ->
  replace_constants (constants init) s = s.
Proof.
  intro H. unfold replace_constants. cbn [constants init fold_left].
  rewrite (replace_absent "p" "i"), (replace_absent "e" "").
  - reflexivity.
  - refine (forallb_impl _ _ _ _ H). intros c Hc. unfold Token.is_plain in Hc.
    apply negb_true_iff, orb_false_iff in Hc. rewrite (proj2 Hc). reflexivity.
  - refine (forallb_impl _ _ _ _ H). intros c Hc. unfold Token.is_plain in Hc.
    apply negb_true_iff, orb_false_iff in Hc. rewrite (proj1 Hc). reflexivity.
Qed.

Lemma tokens_in_plain (s : string) :
  PyStr.forallb Token.is_plain s = true ->
  tokens_in (constants init) s = Re.findall pattern (PyStr.replace " " "" s).
Proof.
  intro H. unfold tokens_in. rewrite (constants_untouched _ H). reflexivity.
Qed.

Lemma non_starter_plain (c : ascii) :
  Token.starts_token c = false -> Token.is_plain c = true.
Proof. each_char c; vm_compute; intro H; try discriminate H; reflexivity. Qed.

(** X2: the tokens are cut out of the text that is scanned (the
    expression with its constants replaced and without its blanks) from
    left to right: written one after the other, they are that text with
    some characters left out; nothing is added, doubled or moved.  When
    every character of the text is a digit, one of [+ - * / ( ) ^ %], an
    ASCII letter or an underscore, nothing is left out. *)
Theorem tokenize_keeps_text (self : Calculator) (expression : string) :
  exists tokens : list string,
    tokenize expression self = (Ret tokens, self)
    /\ subsequence (PyStr.join tokens)
                   (scanned_text (constants self) expression)
    /\ (PyStr.forallb Token.starts_token
                      (scanned_text (constants self) expression) = true ->
        PyStr.join tokens = scanned_text (constants self) expression).
Proof.
  exists (tokens_in (constants self) expression).
  split; [apply tokenize_run | ].
  unfold tokens_in, scanned_text.
  split; [apply join_findall_subsequence | apply join_findall_starters].
Qed.

(** [calculate] on a text without constants and on the same text
    without its blanks. *)
Lemma calculation_blanks (expression : string) :
  PyStr.forallb Token.is_plain expression = true ->
  tokens_in (constants init) expression
  = tokens_in (constants init) (PyStr.replace " " "" expression)
  /\ calculation init expression
     = calculation init (PyStr.replace " " "" expression).
Proof.
  intro H.
  assert (H' : PyStr.forallb Token.is_plain (PyStr.replace " " "" expression)
               = true) by (apply remove_blank_forallb; exact H).
  assert (Ht : tokens_in (constants init) expression
               = tokens_in (constants init) (PyStr.replace " " "" expression)).
  { rewrite (tokens_in_plain _ H), (tokens_in_plain _ H'), remove_blank_twice.
    reflexivity. }
  split; [exact Ht | ].
  unfold calculation, postfix_in, PyStr.strip.
  rewrite !strip_with_empty, remove_blank_spaces, Ht. reflexivity.
Qed.

(** X3: blanks never matter, not even inside a number or a name.  For
    an expression without the letters [p] and [e] (so that it holds no
    constant), [tokenize] and [calculate] return what they return for
    the expression written without its blanks. *)
Theorem blanks_never_matter (expression : string) :
  PyStr.forallb Token.is_plain expression = true ->
  tokenize expression init = tokenize (PyStr.replace " " "" expression) init
  /\ calculate expression init
     = calculate (PyStr.replace " " "" expression) init.
Proof.
  intro H. destruct (calculation_blanks _ H) as [Ht Hc].
  rewrite !tokenize_run, !calculate_run, Ht, Hc. auto.
Qed.

(** X4: an expression made of whitespace only (or empty) is answered
    with "Error: Empty expression", whatever the object.  An expression
    that is not, but in which the pattern matches nowhere (no digit, no
    operator character, no ASCII letter, no underscore) has no tokens
    and is answered with "Error: Invalid expression". *)
Theorem calculate_without_tokens (expression : string) :
  (forall self : Calculator,
      PyStr.forallb PyStr.is_space expression = true ->
      calculate expression self = (RStr "Error: Empty expression", self))
  /\ (PyStr.forallb PyStr.is_space expression = false ->
      PyStr.forallb (fun c => negb (Token.starts_token c)) expression = true ->
      tokenize expression init = (Ret [], init)
      /\ calculate expression init = (RStr "Error: Invalid expression", init)).
Proof.
  split.
  - intros self H. rewrite calculate_run. f_equal.
    unfold calculation, PyStr.strip. rewrite strip_with_empty, H. reflexivity.
  - intros Hsp Hno.
    assert (Hplain : PyStr.forallb Token.is_plain expression = true).
    { refine (forallb_impl _ _ _ _ Hno). intros c Hc.
      apply negb_true_iff in Hc. exact (non_starter_plain _ Hc). }
    assert (Ht : tokens_in (constants init) expression = []).
    { rewrite (tokens_in_plain _ Hplain). apply findall_nothing.
      apply remove_blank_forallb. exact Hno. }
    split.
    + rewrite tokenize_run, Ht. reflexivity.
    + rewrite calculate_run. f_equal.
      unfold calculation, postfix_in, PyStr.strip.
      rewrite strip_with_empty, Hsp, Ht. reflexivity.
Qed.

End ScannedTexts.

(* ================================================================= *)
(** * The converter and the evaluator on any token list *)

Section AnyTokens.

Context {RT : Runtime}.

Variable ops : dict (nat * (val -> val -> outcome val)).
Variable funs : dict (val -> outcome val).

Local Open Scope string_scope.

(** What the loop of an operator takes from the stack goes to the
    output, in the order it is taken. *)
Lemma pop_ops_moves (token : string) (output st : list string) :
  exists moved st',
    pop_ops ops token output st = ((output ++ moved)%list, st')
    /\ st = (moved ++ st')%list.
Proof.
  revert output. induction st as [ | top st IH]; intro output.
  - exists [], []. rewrite List.app_nil_r. auto.
  - cbn [pop_ops].
    destruct (String.eqb top "(");
      [exists [], (top :: st); rewrite List.app_nil_r; auto | ].
    destruct (contains ops top);
      [ | exists [], (top :: st); rewrite List.app_nil_r; auto].
    destruct (precedence ops token <=? precedence ops top)%nat;
      [ | exists [], (top :: st); rewrite List.app_nil_r; auto].
    destruct (IH (output ++ [top])%list) as (moved & st' & -> & ->).
    exists (top :: moved), st'. rewrite <- List.app_assoc. auto.
Qed.

Lemma pop_until_paren_moves (output st : list string) :
  exists moved st',
    pop_until_paren output st = ((output ++ moved)%list, st')
    /\ st = (moved ++ st')%list.
Proof.
  revert output. induction st as [ | top st IH]; intro output.
  - exists [], []. rewrite List.app_nil_r. auto.
  - cbn [pop_until_paren].
    destruct (String.eqb top "(");
      [exists [], (top :: st); rewrite List.app_nil_r; auto | ].
    destruct (IH (output ++ [top])%list) as (moved & st' & -> & ->).
    exists (top :: moved), st'. rewrite <- List.app_assoc. auto.
Qed.

(** A closing parenthesis moves tokens from the stack to the output and
    drops at most one ["("]. *)
Lemma close_paren_moves (output st : list string) :
  exists moved dropped called st',
    close_paren funs output st = ((output ++ moved ++ called)%list, st')
    /\ st = (moved ++ dropped ++ called ++ st')%list
    /\ (dropped = [] \/ dropped = ["("]).
Proof.
  unfold close_paren.
  destruct (pop_until_paren_moves output st) as (moved & s1 & -> & ->).
  assert (H : exists dropped s2,
             s1 = (dropped ++ s2)%list
             /\ (dropped = [] \/ dropped = ["("])
             /\ match s1 with
                | top :: below => if String.eqb top "(" then below else s1
                | [] => s1
                end = s2).
  { destruct s1 as [ | top below]; [exists [], []; auto | ].
    destruct (String.eqb top "(") eqn:E.
    - apply String.eqb_eq in E. subst top. exists ["("], below. auto.
    - exists [], (top :: below). auto. }
  destruct H as (dropped & s2 & -> & Hd & ->).
  destruct s2 as [ | top below].
  - exists moved, dropped, [], []. rewrite !List.app_nil_r. auto.
  - destruct (contains funs top).
    + exists moved, dropped, [top], below. rewrite <- List.app_assoc. auto.
    + exists moved, dropped, [], (top :: below). rewrite List.app_nil_r. auto.
Qed.

Lemma filter_length_app {A : Type} (P : A -> bool) (l1 l2 : list A) :
  List.length (filter P (l1 ++ l2))
  = (List.length (filter P l1) + List.length (filter P l2))%nat.
Proof. rewrite filter_app, List.length_app. reflexivity. Qed.

(** Counting the tokens that satisfy [P], the ["("] apart: the output
    holds what the output and the stack held, and the numbers, function
    names and operators among the tokens read. *)
Lemma shunt_count (P : string -> bool) (tokens output st : list string) :
  P "(" = false ->
  List.length (filter P (shunt ops funs tokens output st))
  = (List.length (filter P output) + List.length (filter P st)
     + List.length (filter (fun t => P t && is_converted ops funs t) tokens))%nat.
Proof.
  intro Hopen. revert output st.
  induction tokens as [ | token rest IH]; intros output st; cbn [shunt].
  - rewrite filter_length_app. cbn [filter List.length]. lia.
  - cbn [filter]. unfold is_converted at 1.
    destruct (is_num token) eqn:Hn; cbn [orb].
    { rewrite IH, filter_length_app. cbn [filter].
      rewrite andb_true_r. destruct (P token); cbn [List.length]; lia. }
    destruct (contains funs token) eqn:Hf; cbn [orb].
    { rewrite IH. cbn [filter].
      rewrite andb_true_r. destruct (P token); cbn [List.length]; lia. }
    destruct (contains ops token) eqn:Ho.
    { destruct (pop_ops_moves token output st) as (moved & st' & -> & ->).
      rewrite IH, !filter_length_app. cbn [filter].
      rewrite andb_true_r. destruct (P token); cbn [List.length]; lia. }
    rewrite andb_false_r.
    destruct (String.eqb token "(") eqn:E1.
    { apply String.eqb_eq in E1. subst token.
      rewrite IH. cbn [filter]. rewrite Hopen. lia. }
    destruct (String.eqb token ")"); [ | apply IH].
    destruct (close_paren_moves output st)
      as (moved & dropped & called & st' & -> & -> & Hd).
    rewrite IH, !filter_length_app.
    destruct Hd as [-> | ->]; cbn [filter]; rewrite ?Hopen;
      cbn [List.length]; lia.
Qed.

(** No number is ever put on the stack, and the numbers reach the
    output in the order they are read. *)
Lemma shunt_numbers (tokens output st : list string) :
  filter is_num st = [] ->
  filter is_num (shunt ops funs tokens output st)
  = (filter is_num output ++ filter is_num tokens)%list.
Proof.
  revert output st.
  induction tokens as [ | token rest IH]; intros output st Hst; cbn [shunt].
  - rewrite filter_app, Hst. reflexivity.
  - cbn [filter].
    destruct (is_num token) eqn:Hn.
    { rewrite (IH _ _ Hst), filter_app. cbn [filter]. rewrite Hn.
      rewrite <- List.app_assoc. reflexivity. }
    assert (Hpush : forall st', filter is_num st' = [] ->
                                filter is_num (token :: st') = []).
    { intros st' H. cbn [filter]. rewrite Hn. exact H. }
    destruct (contains funs token).
    { apply IH. apply Hpush. exact Hst. }
    destruct (contains ops token).
    { destruct (pop_ops_moves token output st) as (moved & st' & -> & ->).
      rewrite filter_app in Hst. apply app_eq_nil in Hst.
      destruct Hst as [Hm Hst'].
      rewrite (IH _ _ (Hpush _ Hst')), filter_app, Hm, List.app_nil_r.
      reflexivity. }
    destruct (String.eqb token "(").
    { apply IH. apply Hpush. exact Hst. }
    destruct (String.eqb token ")"); [ | apply IH; exact Hst].
    destruct (close_paren_moves output st)
      as (moved & dropped & called & st' & -> & -> & _).
    rewrite !filter_app in Hst.
    apply app_eq_nil in Hst. destruct Hst as [Hm Hst].
    apply app_eq_nil in Hst. destruct Hst as [_ Hst].
    apply app_eq_nil in Hst. destruct Hst as [Hc Hst'].
    rewrite (IH _ _ Hst'), !filter_app, Hm, Hc, !List.app_nil_r.
    reflexivity.
Qed.

Lemma count_occ_filter (l : list string) (t : string) :
  count_occ string_dec l t = List.length (filter (String.eqb t) l).
Proof.
  induction l as [ | x l IH]; [reflexivity | ].
  cbn [count_occ filter].
  destruct (string_dec x t) as [-> | Hne].
  - rewrite String.eqb_refl. cbn [List.length]. rewrite IH. reflexivity.
  - destruct (String.eqb t x) eqn:E.
    + apply String.eqb_eq in E. congruence.
    + exact IH.
Qed.

(** ** The operand stack *)

(** Every number pushes a value, every operator takes two and pushes
    one, a function takes one and pushes one, anything else leaves the
    stack as it is. *)
Lemma eval_tokens_height (postfix : list string) (stack stack' : list val) :
  eval_tokens ops funs postfix stack = Ret stack' ->
  (List.length stack' + List.length (filter (is_operator_token ops) postfix)
   = List.length stack + List.length (filter is_num postfix))%nat.
Proof.
  revert stack. induction postfix as [ | token rest IH]; intros stack H.
  - injection H as <-. reflexivity.
  - cbn [eval_tokens] in H.
    destruct (eval_token ops funs token stack) as [st1 | e] eqn:Ht;
      [ | discriminate H].
    apply IH in H. cbn [filter]. unfold is_operator_token at 1.
    unfold eval_token in Ht. unfold is_num at 1 2. unfold contains.
    destruct (F64.of_string token).
    + injection Ht as <-. cbn [negb andb List.length] in *. lia.
    + cbn [negb andb].
      destruct (lookup token ops) as [entry | ].
      * destruct stack as [ | b [ | a stack]]; try discriminate Ht.
        destruct (snd entry a b); [ | discriminate Ht].
        injection Ht as <-. cbn [List.length] in *. lia.
      * destruct (lookup token funs) as [f | ].
        -- destruct stack as [ | a stack]; [discriminate Ht | ].
           destruct (f a); [ | discriminate Ht].
           injection Ht as <-. cbn [List.length] in *. lia.
        -- injection Ht as <-. lia.
Qed.

End AnyTokens.

Section TokenCounts.

Context {RT : Runtime}.

Local Open Scope string_scope.

(** X5: the converter never fails and only moves tokens.  Whatever the
    tables, a token other than ["("] occurs in the postfix sequence as
    often as among the tokens read if it is a number, a key of
    [functions] or a key of [operators], and not at all otherwise; so
    nothing is added or doubled, and with the tables of [__init__] the
    postfix sequence holds no [")"]. *)
Theorem infix_to_postfix_moves_tokens (self : Calculator)
  (tokens : list string) :
  exists postfix : list string,
    infix_to_postfix tokens self = (Ret postfix, self)
    /\ (forall t : string,
           t <> "(" ->
           count_occ string_dec postfix t
           = if is_converted (operators self) (functions self) t
             then count_occ string_dec tokens t else 0%nat)
    /\ (self = init -> ~ In ")" postfix).
Proof.
  exists (shunt (operators self) (functions self) tokens [] []).
  split; [apply infix_to_postfix_run | ].
  assert (Hcount : forall t : string,
             t <> "(" ->
             count_occ string_dec
               (shunt (operators self) (functions self) tokens [] []) t
             = if is_converted (operators self) (functions self) t
               then count_occ string_dec tokens t else 0%nat).
  { intros t Ht. rewrite !count_occ_filter.
    rewrite (shunt_count _ _ (String.eqb t)).
    2:{ apply String.eqb_neq. exact Ht. }
    cbn [filter List.length Nat.add].
    destruct (is_converted (operators self) (functions self) t) eqn:Hc.
    - f_equal. apply filter_ext. intro x.
      destruct (String.eqb t x) eqn:E; [ | reflexivity].
      apply String.eqb_eq in E. subst x. rewrite Hc. reflexivity.
    - assert (E : filter (fun x => String.eqb t x
                                   && is_converted (operators self)
                                                   (functions self) x) tokens
                  = filter (fun _ => false) tokens).
      { apply filter_ext. intro x.
        destruct (String.eqb t x) eqn:E; [ | reflexivity].
        apply String.eqb_eq in E. subst x. rewrite Hc. reflexivity. }
      rewrite E. clear. induction tokens; [reflexivity | assumption]. }
  split; [exact Hcount | ].
  intros -> Hin.
  apply (count_occ_In string_dec) in Hin.
  rewrite (Hcount ")") in Hin by discriminate.
  assert (E : is_converted (operators init) (functions init) ")" = false)
    by reflexivity.
  rewrite E in Hin. lia.
Qed.

(** X6: the converter leaves the numbers in the order they are written:
    whatever the tables, the numbers of the postfix sequence are the
    numbers among the tokens read, in the same order. *)
Theorem infix_to_postfix_keeps_numbers (self : Calculator)
  (tokens : list string) :
  exists postfix : list string,
    infix_to_postfix tokens self = (Ret postfix, self)
    /\ filter is_num postfix = filter is_num tokens.
Proof.
  exists (shunt (operators self) (functions self) tokens [] []).
  split; [apply infix_to_postfix_run | ].
  apply (shunt_numbers _ _ tokens [] [] eq_refl).
Qed.

(** X7: the evaluator returns a value only for a postfix sequence that
    holds exactly one number more than it holds operators (tokens that
    are not numbers and are keys of [operators]), whatever the tables
    and the runtime; function names and other tokens do not count. *)
Theorem evaluate_postfix_needs_balance (self : Calculator)
  (postfix : list string) (v : val) :
  evaluate_postfix postfix self = (Ret v, self) ->
  List.length (filter is_num postfix)
  = S (List.length (filter (is_operator_token (operators self)) postfix)).
Proof.
  rewrite evaluate_postfix_run. intro H. apply pair_fst in H.
  destruct (eval_tokens (operators self) (functions self) postfix [])
    as [stack | e] eqn:He; [ | discriminate H].
  destruct stack as [ | x [ | y stack]]; try discriminate H.
  apply eval_tokens_height in He. cbn [List.length] in He. lia.
Qed.

Lemma calculation_balance (expression : string) :
  is_message (match calculation init expression with
              | Ret r => r
              | Raise e => handle e
              end) = false ->
  List.length (filter is_num (tokens_in (constants init) expression))
  = S (List.length (filter (is_operator_token (operators init))
                           (tokens_in (constants init) expression))).
Proof.
  intro H. unfold calculation in H.
  destruct (PyStr.is_empty (PyStr.strip expression)); [discriminate H | ].
  unfold postfix_in in H.
  destruct (eval_tokens (operators init) (functions init)
              (shunt (operators init) (functions init)
                     (tokens_in (constants init) expression) [] []) [])
    as [stack | e] eqn:He.
  2:{ destruct e; discriminate H. }
  destruct stack as [ | x [ | y stack]]; try discriminate H.
  apply eval_tokens_height in He. cbn [List.length] in He.
  rewrite (shunt_numbers _ _ _ [] [] eq_refl) in He. cbn [filter List.app] in He.
  rewrite (shunt_count _ _ (is_operator_token (operators init))) in He
    by reflexivity.
  cbn [filter List.length Nat.add] in He.
  assert (E : filter (fun t => is_operator_token (operators init) t
                               && is_converted (operators init)
                                               (functions init) t)
                     (tokens_in (constants init) expression)
              = filter (is_operator_token (operators init))
                       (tokens_in (constants init) expression)).
  { apply filter_ext. intro t. unfold is_operator_token, is_converted.
    destruct (contains (operators init) t);
      [rewrite orb_true_r, andb_true_r | rewrite andb_false_r]; reflexivity. }
  rewrite E in He. lia.
Qed.

(** X8: [calculate] returns a number only for an expression among whose
    tokens there is exactly one number more than there are operators;
    for any other expression it returns a message, as it does for
    ["2(3)"] (two numbers, no operator) and for ["2 +"] (one number, one
    operator).  Blanks do not separate tokens: ["2 3"] has the one token
    ["23"] and is answered with the integer 23. *)
Theorem calculate_needs_balance :
  (forall expression : string,
      is_message (fst (calculate expression init)) = false ->
      exists tokens : list string,
        tokenize expression init = (Ret tokens, init)
        /\ List.length (filter is_num tokens)
           = S (List.length (filter (is_operator_token (operators init))
                                    tokens)))
  /\ (forall (expression : string) (tokens : list string),
         tokenize expression init = (Ret tokens, init) ->
         List.length (filter is_num tokens)
         <> S (List.length (filter (is_operator_token (operators init))
                                   tokens)) ->
         is_message (fst (calculate expression init)) = true)
  /\ (tokenize "2(3)" init = (Ret ["2"; "("; "3"; ")"], init)
      /\ calculate "2(3)" init = (RStr "Error: Invalid expression", init))
  /\ (tokenize "2 +" init = (Ret ["2"; "+"], init)
      /\ calculate "2 +" init
         = (RStr "Error: Invalid expression: not enough operands for '+'",
            init))
  /\ (tokenize "2 3" init = (Ret ["23"], init)
      /\ calculate "2 3" init = (RInt 23, init)).
Proof.
  refine (conj _ (conj _ (conj _ (conj _ _)))).
  - intros expression H. rewrite calculate_run in H. cbn [fst] in H.
    exists (tokens_in (constants init) expression).
    split; [apply tokenize_run | exact (calculation_balance _ H)].
  - intros expression tokens Ht Hne.
    rewrite tokenize_run in Ht. apply pair_ret in Ht. subst tokens.
    rewrite calculate_run. cbn [fst].
    destruct (is_message _) eqn:E; [reflexivity | ].
    contradiction Hne. exact (calculation_balance _ E).
  - split; run.
  - split; run.
  - split; run.
Qed.

End TokenCounts.

(* ================================================================= *)
(** * Tokens written with blanks between them *)

Section WrittenTokens.

Context {RT : Runtime}.

Local Open Scope string_scope.

Ltac each_char c := destruct c as [[] [] [] [] [] [] [] []].

Lemma written_char_facts (c : ascii) :
  Token.is_plain c && negb (PyStr.is_space c) = true ->
  Token.is_plain c = true /\ Ascii.eqb c " " = false /\ PyStr.is_space c = false.
Proof. each_char c; vm_compute; intro H; try discriminate H; auto. Qed.

Lemma written_facts (t : string) :
  Token.is_written t = true ->
  PyStr.forallb Token.is_plain t = true
  /\ PyStr.forallb (fun a => negb (Ascii.eqb a " ")) t = true
  /\ PyStr.forallb PyStr.is_space t = false.
Proof.
  unfold Token.is_written. intro H. apply andb_true_iff in H.
  destruct H as [Hne H].
  split; [ | split].
  - refine (forallb_impl _ _ _ _ H). intros c Hc.
    exact (proj1 (written_char_facts _ Hc)).
  - refine (forallb_impl _ _ _ _ H). intros c Hc.
    destruct (written_char_facts _ Hc) as (_ & -> & _). reflexivity.
  - destruct t as [ | c t]; [discriminate Hne | ].
    cbn [PyStr.forallb] in H |- *. apply andb_true_iff in H.
    destruct (written_char_facts _ (proj1 H)) as (_ & _ & ->). reflexivity.
Qed.

Lemma blanks_plain (n : nat) :
  PyStr.forallb Token.is_plain (Grammar.blanks n) = true.
Proof. induction n as [ | n IH]; [reflexivity | exact IH]. Qed.

Lemma layout_plain (tokens : list string) (gaps : list nat) :
  Forall (fun t => Token.is_written t = true) tokens ->
  PyStr.forallb Token.is_plain (Grammar.layout gaps tokens) = true.
Proof.
  intro H. revert gaps.
  induction H as [ | t tokens Ht _ IH]; intro gaps; cbn [Grammar.layout].
  - apply blanks_plain.
  - rewrite !forallb_app, blanks_plain, IH.
    rewrite (proj1 (written_facts _ Ht)). reflexivity.
Qed.

Lemma layout_joined (tokens : list string) (gaps : list nat) :
  Forall (fun t => Token.is_written t = true) tokens ->
  PyStr.replace " " "" (Grammar.layout gaps tokens) = PyStr.join tokens.
Proof.
  intro H. revert gaps.
  induction H as [ | t tokens Ht _ IH]; intro gaps;
    cbn [Grammar.layout PyStr.join].
  - rewrite <- (sapp_nil_r (Grammar.blanks _)), remove_blank_blanks.
    reflexivity.
  - rewrite remove_blank_blanks, remove_blank_token, IH;
      [reflexivity | exact (proj1 (proj2 (written_facts _ Ht)))].
Qed.

(** The tokens of a text are those of the tokens written without
    blanks, wherever the blanks are put between them. *)
Lemma tokens_in_written (tokens : list string) (gaps : list nat) :
  Forall (fun t => Token.is_written t = true) tokens ->
  tokens_in (constants init) (Grammar.layout gaps tokens)
  = Re.findall pattern (PyStr.join tokens).
Proof.
  intro H. rewrite (tokens_in_plain _ (layout_plain _ gaps H)).
  rewrite (layout_joined _ gaps H). reflexivity.
Qed.

Lemma layout_has_text (tokens : list string) (gaps : list nat) :
  Forall (fun t => Token.is_written t = true) tokens -> tokens <> [] ->
  PyStr.is_empty (PyStr.strip (Grammar.layout gaps tokens)) = false.
Proof.
  intros H Hne. destruct H as [ | t tokens Ht _]; [contradiction | ].
  apply strip_with_some. cbn [Grammar.layout]. rewrite !forallb_app.
  rewrite (proj2 (proj2 (written_facts _ Ht))), andb_false_r. reflexivity.
Qed.

(** [calculate] on tokens that are found again in their text. *)
Lemma calculation_written (tokens : list string) (gaps : list nat) :
  Forall (fun t => Token.is_written t = true) tokens -> tokens <> [] ->
  Re.findall pattern (PyStr.join tokens) = tokens ->
  calculation init (Grammar.layout gaps tokens)
  = and_then (and_then (eval_tokens (operators init) (functions init)
                          (shunt (operators init) (functions init) tokens [] [])
                          [])
                       single)
             format_value.
Proof.
  intros H Hne Hfind.
  rewrite (calculation_postfix _ _ (layout_has_text _ gaps H Hne)).
  unfold postfix_in. rewrite (tokens_in_written _ gaps H), Hfind. reflexivity.
Qed.

Lemma digit_or_point_written (c : ascii) :
  PyStr.is_digit c || Ascii.eqb c "." = true ->
  Token.is_plain c && negb (PyStr.is_space c) = true.
Proof. each_char c; vm_compute; intro H; try discriminate H; reflexivity. Qed.

Lemma literal_written (lit : string) :
  Grammar.is_literal lit = true -> Token.is_written lit = true.
Proof.
  intro H. unfold Token.is_written.
  destruct (literal_not_empty _ H) as (c & m & E).
  apply andb_true_iff. split; [rewrite E; reflexivity | ].
  refine (forallb_impl _ _ _ _ (literal_chars _ H)).
  exact digit_or_point_written.
Qed.

End WrittenTokens.

(* ================================================================= *)
(** * The whole language through the pipeline *)

Section Formulas.

Context {RT : Runtime}.

Local Open Scope string_scope.

Local Abbreviation ops := (operators init).
Local Abbreviation funs := (functions init).

Lemma binop_facts (o : binop) :
  is_num (Formula.binop_token o) = false
  /\ contains funs (Formula.binop_token o) = false
  /\ contains ops (Formula.binop_token o) = true
  /\ precedence ops (Formula.binop_token o) = Formula.binop_level o
  /\ Token.is_written (Formula.binop_token o) = true.
Proof. destruct o; repeat split; vm_compute; reflexivity. Qed.

Lemma findall_binop (o : binop) (rest : string) :
  Re.findall pattern (Formula.binop_token o ++ rest)
  = Formula.binop_token o :: Re.findall pattern rest.
Proof. destruct o; apply findall_match; reflexivity. Qed.

Lemma eval_binop (o : binop) (x y : val) (stack : list val) :
  eval_token ops funs (Formula.binop_token o) (y :: x :: stack)
  = and_then (Formula.apply_binop o x y) (fun z => Ret (z :: stack)).
Proof. destruct o; reflexivity. Qed.

Lemma function_name_cases (name : string) :
  Formula.is_function_name name = true ->
  In name ["sin"; "cos"; "tan"; "sqrt"; "log"; "ln"; "abs"; "round"].
Proof.
  unfold Formula.is_function_name. intro H. apply existsb_exists in H.
  destruct H as (x & Hin & E). apply String.eqb_eq in E. subst x. exact Hin.
Qed.

Ltac each_name H :=
  apply function_name_cases in H; cbn [In] in H;
  repeat (destruct H as [<- | H]); [ .. | contradiction].

(** The names of the table are not numbers and not keys of
    [operators]; each is found again before a parenthesis, and the
    evaluator applies the function the table gives it. *)
Lemma function_facts (name : string) :
  Formula.is_function_name name = true ->
  is_num name = false /\ contains funs name = true
  /\ Token.is_written name = true.
Proof. intro H. each_name H; repeat split; vm_compute; reflexivity. Qed.

Lemma findall_function (name rest : string) :
  Formula.is_function_name name = true ->
  Re.findall pattern (name ++ String "(" rest)
  = name :: Re.findall pattern (String "(" rest).
Proof. intro H. each_name H; apply findall_match; reflexivity. Qed.

Lemma eval_function (name : string) (x : val) (stack : list val) :
  Formula.is_function_name name = true ->
  eval_token ops funs name (x :: stack)
  = and_then (Formula.call name x) (fun z => Ret (z :: stack)).
Proof. intro H. each_name H; reflexivity. Qed.

(** ** The tokens of a formula, found again in its text *)

Lemma formula_tokens_written (e : formula) :
  Formula.well_formed e = true ->
  Forall (fun t => Token.is_written t = true) (Formula.tokens e).
Proof.
  induction e as [lit | l IHl o r IHr | e IH | name e IH];
    cbn [Formula.well_formed Formula.tokens]; intro Hv.
  - constructor; [exact (literal_written _ Hv) | constructor].
  - apply andb_true_iff in Hv. destruct Hv as [Hv _].
    apply andb_true_iff in Hv. destruct Hv as [Hv _].
    apply andb_true_iff in Hv. destruct Hv as [Hl Hr].
    apply Forall_app. split; [exact (IHl Hl) | ].
    constructor; [apply binop_facts | exact (IHr Hr)].
  - constructor; [reflexivity | ].
    apply Forall_app. split; [exact (IH Hv) | ].
    constructor; [reflexivity | constructor].
  - apply andb_true_iff in Hv. destruct Hv as [Hn Hv].
    constructor; [apply (function_facts _ Hn) | ].
    constructor; [reflexivity | ].
    apply Forall_app. split; [exact (IH Hv) | ].
    constructor; [reflexivity | constructor].
Qed.

Lemma formula_tokens_not_nil (e : formula) : Formula.tokens e <> [].
Proof.
  destruct e as [lit | l o r | e | name e]; cbn [Formula.tokens];
    try discriminate.
  intro H. apply app_eq_nil in H. destruct H as [_ H]. discriminate H.
Qed.

Lemma findall_formula (e : formula) :
  Formula.well_formed e = true ->
  forall rest, Grammar.ends_number rest = true ->
    Re.findall pattern (PyStr.join (Formula.tokens e) ++ rest)
    = (Formula.tokens e ++ Re.findall pattern rest)%list.
Proof.
  induction e as [lit | l IHl o r IHr | e IH | name e IH];
    cbn [Formula.well_formed Formula.tokens]; intros Hv rest Hrest.
  - cbn [PyStr.join]. rewrite sapp_nil_r.
    apply (findall_literal _ _ Hv Hrest).
  - apply andb_true_iff in Hv. destruct Hv as [Hv _].
    apply andb_true_iff in Hv. destruct Hv as [Hv _].
    apply andb_true_iff in Hv. destruct Hv as [Hl Hr].
    rewrite join_app. cbn [PyStr.join]. rewrite !sapp_assoc.
    rewrite (IHl Hl) by (destruct o; reflexivity).
    rewrite findall_binop, (IHr Hr rest Hrest).
    rewrite <- List.app_assoc. reflexivity.
  - cbn [PyStr.join]. rewrite join_app. cbn [PyStr.join].
    rewrite sapp_nil_r, !sapp_assoc.
    rewrite findall_open, (IH Hv) by reflexivity.
    rewrite findall_close. cbn [List.app].
    rewrite <- List.app_assoc. reflexivity.
  - apply andb_true_iff in Hv. destruct Hv as [Hn Hv].
    cbn [PyStr.join]. rewrite join_app. cbn [PyStr.join].
    rewrite sapp_nil_r, !sapp_assoc.
    change ("(" ++ PyStr.join (Formula.tokens e) ++ ")" ++ rest)
      with (String "(" (PyStr.join (Formula.tokens e) ++ ")" ++ rest)).
    rewrite (findall_function _ _ Hn).
    change (String "(" (PyStr.join (Formula.tokens e) ++ ")" ++ rest))
      with ("(" ++ PyStr.join (Formula.tokens e) ++ ")" ++ rest).
    rewrite findall_open, (IH Hv) by reflexivity.
    rewrite findall_close. cbn [List.app].
    rewrite <- List.app_assoc. reflexivity.
Qed.

(** ** The converter on a formula *)

Lemma shunt_function (name : string) (rest output st : list string) :
  Formula.is_function_name name = true ->
  shunt ops funs (name :: rest) output st = shunt ops funs rest output (name :: st).
Proof.
  intro H. destruct (function_facts _ H) as (Hn & Hf & _).
  cbn [shunt]. rewrite Hn, Hf. reflexivity.
Qed.

(** The parenthesis that closes a call sends the name of the function
    to the output. *)
Lemma shunt_close_call (level : nat) (name : string)
  (rest output pend st : list string) :
  pending ops level pend -> contains funs name = true ->
  shunt ops funs (")" :: rest) output (pend ++ "(" :: name :: st)%list
  = shunt ops funs rest (output ++ pend ++ [name])%list st.
Proof.
  intros Hpend Hf.
  change (shunt ops funs (")" :: rest) output (pend ++ "(" :: name :: st)%list)
    with (let '(o, s) := close_paren funs output (pend ++ "(" :: name :: st)%list in
          shunt ops funs rest o s).
  unfold close_paren. rewrite (pop_until_paren_pending _ _ _ _ Hpend).
  change (("(" =? "(")%string) with true. cbv iota.
  rewrite Hf, <- List.app_assoc. reflexivity.
Qed.

(** After the converter has read the tokens of a formula, the output
    holds its postfix form except for the operators still pending on
    the stack, which are of the level at which the formula stands, or
    higher. *)
Lemma shunt_formula (e : formula) :
  Formula.well_formed e = true ->
  forall (lvl : nat) (rest output st : list string),
    (lvl <= Formula.level e)%nat ->
    no_function_on_top funs st = true -> low_top ops lvl st = true ->
    exists body pend,
      pending ops lvl pend
      /\ (body ++ pend)%list = Formula.postfix e
      /\ shunt ops funs (Formula.tokens e ++ rest)%list output st
         = shunt ops funs rest (output ++ body)%list (pend ++ st)%list.
Proof.
  induction e as [lit | l IHl o r IHr | e IH | name e IH];
    cbn [Formula.well_formed Formula.tokens Formula.postfix];
    intros Hv lvl rest output st Hlvl Hfun Hlow.
  - exists [lit], []. split; [constructor | ]. split; [reflexivity | ].
    cbn [List.app]. apply shunt_number. exact (is_num_literal _ Hv).
  - apply andb_true_iff in Hv. destruct Hv as [Hv Hlr].
    apply andb_true_iff in Hv. destruct Hv as [Hv Hll].
    apply andb_true_iff in Hv. destruct Hv as [Hl Hr].
    apply Nat.leb_le in Hll. apply Nat.ltb_lt in Hlr.
    cbn [Formula.level] in Hlvl.
    destruct (binop_facts o) as (Hn & Hf & Hc & Hp & _).
    destruct (IHl Hl (Formula.binop_level o)
                (Formula.binop_token o :: Formula.tokens r ++ rest)%list
                output st Hll Hfun
                (low_top_weaken _ _ _ Hlvl Hlow))
      as (bl & pl & Hpl & Hpostl & Hrunl).
    rewrite <- List.app_assoc. cbn [List.app]. rewrite Hrunl.
    rewrite (shunt_operator _ _ _ _ _ _ Hn Hf Hc).
    rewrite pop_ops_pending;
      [ | rewrite Hp; exact Hpl
        | rewrite Hp; exact (low_top_weaken _ _ _ Hlvl Hlow)].
    cbn [fst snd].
    destruct (IHr Hr (S (Formula.binop_level o)) rest
                ((output ++ bl) ++ pl)%list (Formula.binop_token o :: st) Hlr)
      as (br & pr & Hpr & Hpostr & Hrunr).
    { unfold no_function_on_top. rewrite Hf. reflexivity. }
    { unfold low_top. rewrite Hc, Hp.
      assert (E : (Formula.binop_level o <? S (Formula.binop_level o))%nat = true)
        by (apply Nat.ltb_lt; lia).
      rewrite E. apply orb_true_r. }
    rewrite Hrunr.
    exists (bl ++ pl ++ br)%list, (pr ++ [Formula.binop_token o])%list.
    split; [ | split].
    + apply Forall_app. split.
      * refine (pending_weaken _ _ _ _ Hpr). lia.
      * constructor; [ | constructor]. split; [exact Hc | rewrite Hp; exact Hlvl].
    + rewrite <- Hpostl, <- Hpostr, <- !List.app_assoc. reflexivity.
    + rewrite <- !List.app_assoc. reflexivity.
  - cbn [List.app]. rewrite shunt_open, <- List.app_assoc. cbn [List.app].
    destruct (IH Hv 1%nat (")" :: rest) output ("(" :: st))
      as (body & pend & Hpend & Hpost & Hrun).
    { destruct e; cbn [Formula.level]; [lia | destruct o; simpl; lia | lia | lia]. }
    { reflexivity. }
    { reflexivity. }
    rewrite Hrun, (shunt_close 1 _ _ _ _ Hpend Hfun).
    exists (body ++ pend)%list, []. split; [constructor | ].
    split; [rewrite List.app_nil_r; exact Hpost | ].
    rewrite <- List.app_assoc. reflexivity.
  - apply andb_true_iff in Hv. destruct Hv as [Hname Hv].
    cbn [List.app]. rewrite (shunt_function _ _ _ _ Hname), shunt_open.
    rewrite <- List.app_assoc. cbn [List.app].
    destruct (IH Hv 1%nat (")" :: rest) output ("(" :: name :: st))
      as (body & pend & Hpend & Hpost & Hrun).
    { destruct e; cbn [Formula.level]; [lia | destruct o; simpl; lia | lia | lia]. }
    { reflexivity. }
    { reflexivity. }
    rewrite Hrun.
    rewrite (shunt_close_call 1 _ _ _ _ _ Hpend
               (proj1 (proj2 (function_facts _ Hname)))).
    exists ((body ++ pend) ++ [name])%list, []. split; [constructor | ].
    split; [rewrite List.app_nil_r, Hpost; reflexivity | ].
    rewrite <- !List.app_assoc. reflexivity.
Qed.

(** ** The evaluator on the postfix form of a formula *)

Lemma eval_formula (e : formula) :
  Formula.well_formed e = true ->
  forall (rest : list string) (stack : list val),
    eval_tokens ops funs (Formula.postfix e ++ rest)%list stack
    = and_then (Formula.eval e)
               (fun x => eval_tokens ops funs rest (x :: stack)).
Proof.
  induction e as [lit | l IHl o r IHr | e IH | name e IH];
    cbn [Formula.well_formed Formula.postfix Formula.eval];
    intros Hv rest stack.
  - cbn [List.app eval_tokens and_then].
    rewrite (eval_literal _ _ Hv). reflexivity.
  - apply andb_true_iff in Hv. destruct Hv as [Hv _].
    apply andb_true_iff in Hv. destruct Hv as [Hv _].
    apply andb_true_iff in Hv. destruct Hv as [Hl Hr].
    rewrite <- !List.app_assoc, (IHl Hl).
    destruct (Formula.eval l) as [x | err]; cbn [and_then]; [ | reflexivity].
    rewrite (IHr Hr).
    destruct (Formula.eval r) as [y | err]; cbn [and_then]; [ | reflexivity].
    cbn [List.app eval_tokens]. rewrite eval_binop.
    destruct (Formula.apply_binop o x y); reflexivity.
  - exact (IH Hv rest stack).
  - apply andb_true_iff in Hv. destruct Hv as [Hname Hv].
    rewrite <- List.app_assoc, (IH Hv).
    destruct (Formula.eval e) as [x | err]; cbn [and_then]; [ | reflexivity].
    cbn [List.app eval_tokens]. rewrite (eval_function _ _ _ Hname).
    destruct (Formula.call name x); reflexivity.
Qed.

End Formulas.

(* ================================================================= *)
(** * [calculate] and the reference evaluator of the whole language *)

Section Language.

Context {RT : Runtime}.

Local Open Scope string_scope.

Local Abbreviation ops := (operators init).
Local Abbreviation funs := (functions init).

Lemma and_then_single (o : outcome val) :
  and_then (and_then o (fun x => Ret [x])) single = o.
Proof. destruct o; reflexivity. Qed.

(** ** Parentheses that do not balance *)

Lemma repeat_written (t : string) (n : nat) :
  Token.is_written t = true ->
  Forall (fun t => Token.is_written t = true) (repeat t n).
Proof. intro H. induction n; constructor; assumption. Qed.

Lemma findall_opens (n : nat) (l : list string) :
  Re.findall pattern (PyStr.join (repeat "(" n ++ l))
  = (repeat "(" n ++ Re.findall pattern (PyStr.join l))%list.
Proof.
  induction n as [ | n IH]; [reflexivity | ].
  cbn [repeat List.app PyStr.join]. rewrite findall_open, IH. reflexivity.
Qed.

Lemma findall_closes (m : nat) :
  Grammar.ends_number (PyStr.join (repeat ")" m)) = true
  /\ Re.findall pattern (PyStr.join (repeat ")" m)) = repeat ")" m.
Proof.
  induction m as [ | m [_ IH]]; [split; reflexivity | ].
  split; [reflexivity | ].
  cbn [repeat PyStr.join]. rewrite findall_close, IH. reflexivity.
Qed.

Lemma shunt_opens (n k : nat) (l output : list string) :
  shunt ops funs (repeat "(" n ++ l)%list output (repeat "(" k)
  = shunt ops funs l output (repeat "(" (n + k)).
Proof.
  revert k. induction n as [ | n IH]; intro k; [reflexivity | ].
  cbn [repeat List.app]. rewrite shunt_open.
  change ("(" :: repeat "(" k) with (repeat "(" (S k)).
  rewrite IH, Nat.add_succ_r. reflexivity.
Qed.

Lemma opens_on_stack (n : nat) :
  no_function_on_top funs (repeat "(" n) = true
  /\ low_top ops 1 (repeat "(" n) = true.
Proof. destruct n; split; reflexivity. Qed.

Lemma pop_until_paren_all (level : nat) (pend output : list string) :
  pending ops level pend ->
  pop_until_paren output pend = ((output ++ pend)%list, []).
Proof.
  intros Hpend. revert output.
  induction Hpend as [ | t pend [Hc _] _ IH]; intro output.
  - rewrite List.app_nil_r. reflexivity.
  - cbn [pop_until_paren]. destruct (operator_key _ Hc) as (_ & _ & ->).
    rewrite IH, <- List.app_assoc. reflexivity.
Qed.

(** Closing parentheses at the end: each takes an opening one from the
    stack as long as there is one, and does nothing otherwise. *)
Lemma shunt_closes (level m n : nat) (output pend : list string) :
  pending ops level pend ->
  shunt ops funs (repeat ")" m) output (pend ++ repeat "(" n)%list
  = (output ++ pend ++ repeat "(" (n - m))%list.
Proof.
  revert n output pend.
  induction m as [ | m IH]; intros n output pend Hpend.
  - rewrite Nat.sub_0_r. reflexivity.
  - cbn [repeat]. destruct n as [ | n].
    + cbn [repeat Nat.sub]. rewrite List.app_nil_r.
      change (shunt ops funs (")" :: repeat ")" m) output pend)
        with (let '(o, s) := close_paren funs output pend in
              shunt ops funs (repeat ")" m) o s).
      unfold close_paren. rewrite (pop_until_paren_all _ _ _ Hpend).
      cbv iota beta.
      pose proof (IH 0%nat (output ++ pend)%list [] (Forall_nil _)) as H.
      cbn [repeat Nat.sub List.app] in H. rewrite H, !List.app_nil_r.
      reflexivity.
    + cbn [repeat].
      rewrite (shunt_close level _ _ _ _ Hpend (proj1 (opens_on_stack n))).
      pose proof (IH n (output ++ pend)%list [] (Forall_nil _)) as H.
      cbn [List.app] in H. rewrite H.
      cbn [Nat.sub]. rewrite <- List.app_assoc. reflexivity.
Qed.

Lemma eval_opens (k : nat) (stack : list val) :
  eval_tokens ops funs (repeat "(" k) stack = Ret stack.
Proof. induction k as [ | k IH]; [reflexivity | exact IH]. Qed.

(** The tokens, the postfix form and the value of a formula between
    parentheses that need not balance. *)
Lemma wrapped_formula (e : formula) (n m : nat) :
  Formula.well_formed e = true ->
  Forall (fun t => Token.is_written t = true)
         (Formula.wrapped n m (Formula.tokens e))
  /\ Formula.wrapped n m (Formula.tokens e) <> []
  /\ Re.findall pattern (PyStr.join (Formula.wrapped n m (Formula.tokens e)))
     = Formula.wrapped n m (Formula.tokens e)
  /\ shunt ops funs (Formula.wrapped n m (Formula.tokens e)) [] []
     = (Formula.postfix e ++ repeat "(" (n - m))%list
  /\ and_then (eval_tokens ops funs
                 (Formula.postfix e ++ repeat "(" (n - m))%list []) single
     = Formula.eval e.
Proof.
  intro Hv. unfold Formula.wrapped.
  refine (conj _ (conj _ (conj _ (conj _ _)))).
  - apply Forall_app. split; [apply repeat_written; reflexivity | ].
    apply Forall_app. split; [exact (formula_tokens_written _ Hv) | ].
    apply repeat_written. reflexivity.
  - intro H. apply app_eq_nil in H. destruct H as [_ H].
    apply app_eq_nil in H. exact (formula_tokens_not_nil e (proj1 H)).
  - rewrite findall_opens, join_app.
    rewrite (findall_formula _ Hv _ (proj1 (findall_closes m))).
    rewrite (proj2 (findall_closes m)). reflexivity.
  - change (@nil string) with (repeat "(" 0) at 2.
    rewrite shunt_opens, Nat.add_0_r.
    destruct (shunt_formula e Hv 1%nat (repeat ")" m) [] (repeat "(" n))
      as (body & pend & Hpend & Hpost & Hrun).
    { destruct e; cbn [Formula.level]; [lia | destruct o; simpl; lia | lia | lia]. }
    { apply opens_on_stack. }
    { apply opens_on_stack. }
    rewrite Hrun, (shunt_closes 1 _ _ _ _ Hpend). cbn [List.app].
    rewrite List.app_assoc, Hpost. reflexivity.
  - rewrite (eval_formula _ Hv).
    rewrite <- (and_then_single (Formula.eval e)) at 2.
    destruct (Formula.eval e) as [x | err]; cbn [and_then]; [ | reflexivity].
    rewrite eval_opens. reflexivity.
Qed.

Lemma wrapped_none (tokens : list string) :
  Formula.wrapped 0 0 tokens = tokens.
Proof. unfold Formula.wrapped. cbn [repeat List.app]. apply List.app_nil_r. Qed.

(** X9: for every formula of the language (decimal numbers, the
    operators [+ - * / % ^], parentheses, calls of the eight functions)
    that is its own parse, however its text is spaced, [tokenize]
    returns its tokens, the converter its postfix form, the evaluator
    what the reference evaluator returns, value for value and fault for
    fault, and [calculate] that value through the result formatter or
    that fault through its [except] clauses.  So [^] binds tighter than
    [* / %], these tighter than [+ -], operators of one level group
    from left to right, and a function is applied to the value of the
    expression in its parentheses. *)
Theorem calculate_follows_formula (e : formula) (gaps : list nat) :
  Formula.well_formed e = true ->
  tokenize (Grammar.layout gaps (Formula.tokens e)) init
  = (Ret (Formula.tokens e), init)
  /\ infix_to_postfix (Formula.tokens e) init
     = (Ret (Formula.postfix e), init)
  /\ evaluate_postfix (Formula.postfix e) init = (Formula.eval e, init)
  /\ calculate (Grammar.layout gaps (Formula.tokens e)) init
     = (Formula.answer (Formula.eval e), init).
Proof.
  intro Hv.
  destruct (wrapped_formula e 0 0 Hv) as (Hw & Hne & Hfind & Hshunt & Heval).
  rewrite wrapped_none in Hw, Hne, Hfind, Hshunt.
  cbn [Nat.sub repeat] in Hshunt, Heval. rewrite List.app_nil_r in Hshunt, Heval.
  refine (conj _ (conj _ (conj _ _))).
  - rewrite tokenize_run, (tokens_in_written _ gaps Hw), Hfind. reflexivity.
  - rewrite infix_to_postfix_run, Hshunt. reflexivity.
  - rewrite evaluate_postfix_run, Heval. reflexivity.
  - rewrite calculate_run. f_equal.
    rewrite (calculation_written _ gaps Hw Hne Hfind), Hshunt, Heval.
    reflexivity.
Qed.

(** X10: parentheses around a whole expression need not balance.  With
    [n] opening parentheses before a formula and [m] closing ones after
    it, whatever [n] and [m], the tokens are found again, the postfix
    sequence is that of the formula followed by the [n - m] opening
    parentheses left on the stack, which the evaluator passes over, and
    [calculate] answers as it does for the formula alone. *)
Theorem calculate_ignores_unbalanced_parentheses (e : formula) (n m : nat)
  (gaps : list nat) :
  Formula.well_formed e = true ->
  tokenize (Grammar.layout gaps (Formula.wrapped n m (Formula.tokens e))) init
  = (Ret (Formula.wrapped n m (Formula.tokens e)), init)
  /\ infix_to_postfix (Formula.wrapped n m (Formula.tokens e)) init
     = (Ret (Formula.postfix e ++ repeat "(" (n - m))%list, init)
  /\ calculate (Grammar.layout gaps (Formula.wrapped n m (Formula.tokens e)))
               init
     = (Formula.answer (Formula.eval e), init).
Proof.
  intro Hv.
  destruct (wrapped_formula e n m Hv) as (Hw & Hne & Hfind & Hshunt & Heval).
  refine (conj _ (conj _ _)).
  - rewrite tokenize_run, (tokens_in_written _ gaps Hw), Hfind. reflexivity.
  - rewrite infix_to_postfix_run, Hshunt. reflexivity.
  - rewrite calculate_run. f_equal.
    rewrite (calculation_written _ gaps Hw Hne Hfind), Hshunt, Heval.
    reflexivity.
Qed.

End Language.

(* ================================================================= *)
(** * Constants, points and the words that [float()] accepts *)

Section TextualEdges.

Context {RT : Runtime}.

Local Open Scope string_scope.

Ltac each_char c := destruct c as [[] [] [] [] [] [] [] []].

Lemma digit_char_facts (c : ascii) :
  PyStr.is_digit c = true ->
  Ascii.eqb c "p" = false /\ Ascii.eqb c "e" = false /\ Ascii.eqb c " " = false
  /\ Token.is_plain c = true /\ PyStr.is_space c = false.
Proof. each_char c; vm_compute; intro H; try discriminate H; auto 6. Qed.

Lemma digits_without (x : ascii) (d : string) :
  PyStr.is_digit x = false ->
  PyStr.forallb PyStr.is_digit d = true ->
  PyStr.forallb (fun a => negb (Ascii.eqb a x)) d = true.
Proof.
  intros Hx. apply forallb_impl. intros c Hc.
  destruct (Ascii.eqb c x) eqn:E; [ | reflexivity].
  apply Ascii.eqb_eq in E. subst c. congruence.
Qed.

(** [replace] goes over characters that cannot begin [old]. *)
Lemma replace_after (c : ascii) (old new a r : string) :
  PyStr.forallb (fun x => negb (Ascii.eqb x c)) a = true ->
  PyStr.replace (String c old) new (a ++ r)
  = a ++ PyStr.replace (String c old) new r.
Proof.
  unfold PyStr.replace. induction a as [ | x a IH]; [reflexivity | ].
  cbn [PyStr.forallb append]. intro H. apply andb_true_iff in H.
  destruct H as [Hx Ha]. apply negb_true_iff in Hx.
  cbn [PyStr.replace_from].
  rewrite prefix_cons, Ascii.eqb_sym, Hx, (IH Ha). reflexivity.
Qed.

Lemma replace_pi (new a b : string) :
  PyStr.forallb PyStr.is_digit a = true ->
  PyStr.forallb PyStr.is_digit b = true ->
  PyStr.replace "pi" new (a ++ "pi" ++ b) = a ++ new ++ b.
Proof.
  intros Ha Hb.
  rewrite (replace_after "p" "i" new a _ (digits_without "p" a eq_refl Ha)).
  f_equal. unfold PyStr.replace. cbn [append PyStr.replace_from].
  rewrite !prefix_cons, prefix_nil. cbn [Ascii.eqb Bool.eqb String.length Nat.sub].
  f_equal. destruct b as [ | x b]; [reflexivity | ].
  exact (replace_absent "p" "i" new _ (digits_without "p" _ eq_refl Hb)).
Qed.

Lemma replace_e (new a b : string) :
  PyStr.forallb PyStr.is_digit a = true ->
  PyStr.forallb PyStr.is_digit b = true ->
  PyStr.replace "e" new (a ++ "e" ++ b) = a ++ new ++ b.
Proof.
  intros Ha Hb.
  rewrite (replace_after "e" "" new a _ (digits_without "e" a eq_refl Ha)).
  f_equal. unfold PyStr.replace. cbn [append PyStr.replace_from].
  rewrite !prefix_cons, prefix_nil. cbn [Ascii.eqb Bool.eqb String.length Nat.sub].
  f_equal.
  exact (replace_absent "e" "" new _ (digits_without "e" _ eq_refl Hb)).
Qed.

(** A text whose only token is a decimal number: [calculate] presents
    the value of the number. *)
Lemma calculation_one_literal (s lit : string) :
  Grammar.is_literal lit = true ->
  PyStr.forallb PyStr.is_space s = false ->
  tokens_in (constants init) s = [lit] ->
  calculation init s = Ret (present (Ret (Grammar.literal_value lit))).
Proof.
  intros H Hs Ht.
  rewrite calculation_postfix by (apply strip_with_some; exact Hs).
  unfold postfix_in. rewrite Ht.
  rewrite (shunt_number _ _ _ _ _ _ (is_num_literal _ H)).
  cbn [shunt List.app eval_tokens]. rewrite (eval_literal _ _ H).
  cbn [and_then single]. apply format_float.
Qed.

Lemma findall_one_literal (lit : string) :
  Grammar.is_literal lit = true ->
  Re.findall pattern (PyStr.replace " " "" lit) = [lit].
Proof.
  intro H. pose proof (literal_written _ H) as Hw.
  rewrite (replace_absent " " "" "" lit (proj1 (proj2 (written_facts _ Hw)))).
  rewrite <- (sapp_nil_r lit) at 1.
  rewrite (findall_literal lit "" H eq_refl). reflexivity.
Qed.

Lemma digits_around (a b fp : string) (c : ascii) :
  PyStr.forallb PyStr.is_digit a = true ->
  PyStr.forallb PyStr.is_digit b = true ->
  PyStr.is_digit c = true -> PyStr.forallb PyStr.is_digit fp = true ->
  Grammar.is_literal (a ++ String c (String "." fp) ++ b) = true.
Proof.
  intros Ha Hb Hc Hfp.
  replace (a ++ String c (String "." fp) ++ b)
    with ((a ++ String c "") ++ String "." (fp ++ b))
    by (rewrite sapp_assoc; reflexivity).
  apply literal_decimal.
  - destruct a; reflexivity.
  - rewrite forallb_app, Ha. cbn [PyStr.forallb]. rewrite Hc. reflexivity.
  - rewrite forallb_app, Hfp, Hb. reflexivity.
Qed.

Lemma not_blank_around (a b : string) (c : ascii) (m : string) :
  PyStr.is_space c = false ->
  PyStr.forallb PyStr.is_space (a ++ String c m ++ b) = false.
Proof.
  intro Hc. rewrite forallb_app. cbn [append PyStr.forallb]. rewrite Hc.
  apply andb_false_r.
Qed.

(** X11: the constants are replaced in the text of the expression before
    it is cut into tokens, [pi] first.  Where [str(math.pi)] is
    ["3.141592653589793"] and [str(math.e)] is ["2.718281828459045"], as
    in CPython, digits written before or after a constant run into its
    digits and make one number with them: ["2pi"] is the number
    [23.141592653589793], not twice [pi], and ["1e3"] is the number
    [12.7182818284590453], not a thousand.  The constant alone is read
    back as the float it stands for, and [calculate] rounds it to 10
    places. *)
Theorem constants_are_replaced_in_the_text :
  float_str F64.math_pi = "3.141592653589793" ->
  float_str F64.math_e = "2.718281828459045" ->
  (forall a b : string,
      PyStr.forallb PyStr.is_digit a = true ->
      PyStr.forallb PyStr.is_digit b = true ->
      (tokenize (a ++ "pi" ++ b) init
       = (Ret [a ++ "3.141592653589793" ++ b], init)
       /\ calculate (a ++ "pi" ++ b) init
          = (present (Ret (Grammar.literal_value
                             (a ++ "3.141592653589793" ++ b))), init))
      /\ (tokenize (a ++ "e" ++ b) init
          = (Ret [a ++ "2.718281828459045" ++ b], init)
          /\ calculate (a ++ "e" ++ b) init
             = (present (Ret (Grammar.literal_value
                                (a ++ "2.718281828459045" ++ b))), init)))
  /\ Grammar.literal_value "3.141592653589793" = F64.math_pi
  /\ Grammar.literal_value "2.718281828459045" = F64.math_e
  /\ calculate "pi" init = (RVal (VFloat (F64.round_ndigits F64.math_pi 10)), init)
  /\ calculate "e" init = (RVal (VFloat (F64.round_ndigits F64.math_e 10)), init).
Proof.
  intros Hpi He.
  assert (Hgen : forall a b : string,
             PyStr.forallb PyStr.is_digit a = true ->
             PyStr.forallb PyStr.is_digit b = true ->
             (tokens_in (constants init) (a ++ "pi" ++ b)
              = [a ++ "3.141592653589793" ++ b]
              /\ calculation init (a ++ "pi" ++ b)
                 = Ret (present (Ret (Grammar.literal_value
                                        (a ++ "3.141592653589793" ++ b)))))
             /\ (tokens_in (constants init) (a ++ "e" ++ b)
                 = [a ++ "2.718281828459045" ++ b]
                 /\ calculation init (a ++ "e" ++ b)
                    = Ret (present (Ret (Grammar.literal_value
                                           (a ++ "2.718281828459045" ++ b)))))).
  { intros a b Ha Hb.
    assert (Hlp : Grammar.is_literal (a ++ "3.141592653589793" ++ b) = true)
      by (apply (digits_around a b "141592653589793" "3" Ha Hb); reflexivity).
    assert (Hle : Grammar.is_literal (a ++ "2.718281828459045" ++ b) = true)
      by (apply (digits_around a b "718281828459045" "2" Ha Hb); reflexivity).
    assert (Htp : tokens_in (constants init) (a ++ "pi" ++ b)
                  = [a ++ "3.141592653589793" ++ b]).
    { unfold tokens_in, replace_constants. cbn [constants init fold_left].
      rewrite Hpi, He, (replace_pi _ a b Ha Hb).
      rewrite (replace_absent "e" "")
        by (rewrite !forallb_app, (digits_without "e" a eq_refl Ha),
              (digits_without "e" b eq_refl Hb); reflexivity).
      exact (findall_one_literal _ Hlp). }
    assert (Hte : tokens_in (constants init) (a ++ "e" ++ b)
                  = [a ++ "2.718281828459045" ++ b]).
    { unfold tokens_in, replace_constants. cbn [constants init fold_left].
      rewrite Hpi, He.
      rewrite (replace_absent "p" "i")
        by (rewrite !forallb_app, (digits_without "p" a eq_refl Ha),
              (digits_without "p" b eq_refl Hb); reflexivity).
      rewrite (replace_e _ a b Ha Hb).
      exact (findall_one_literal _ Hle). }
    split; (split; [assumption | ]).
    - apply (calculation_one_literal _ _ Hlp); [ | exact Htp].
      apply (not_blank_around a b "p" "i"). reflexivity.
    - apply (calculation_one_literal _ _ Hle); [ | exact Hte].
      apply (not_blank_around a b "e" ""). reflexivity. }
  assert (Vpi : Grammar.literal_value "3.141592653589793" = F64.math_pi)
    by (vm_compute; reflexivity).
  assert (Ve : Grammar.literal_value "2.718281828459045" = F64.math_e)
    by (vm_compute; reflexivity).
  refine (conj _ (conj Vpi (conj Ve (conj _ _)))).
  - intros a b Ha Hb. destruct (Hgen a b Ha Hb) as [[H1 H2] [H3 H4]].
    rewrite !tokenize_run, !calculate_run, H1, H2, H3, H4. auto.
  - destruct (Hgen "" "" eq_refl eq_refl) as [[_ H] _].
    rewrite calculate_run. f_equal.
    change ("" ++ "pi" ++ "") with "pi" in H. rewrite H.
    change ("" ++ "3.141592653589793" ++ "") with "3.141592653589793".
    rewrite Vpi. reflexivity.
  - destruct (Hgen "" "" eq_refl eq_refl) as [_ [_ H]].
    rewrite calculate_run. f_equal.
    change ("" ++ "e" ++ "") with "e" in H. rewrite H.
    change ("" ++ "2.718281828459045" ++ "") with "2.718281828459045".
    rewrite Ve. reflexivity.
Qed.

(** X12: a point that does not follow a digit is dropped.  For a
    decimal number written after a point, as in [".5"], the only token
    is the number, and [calculate] answers as for the number without the
    point: 5 for [".5"], not 0.5. *)
Theorem leading_point_is_dropped (lit : string) :
  Grammar.is_literal lit = true ->
  tokenize ("." ++ lit) init = (Ret [lit], init)
  /\ calculate ("." ++ lit) init = calculate lit init
  /\ calculate lit init = (present (Ret (Grammar.literal_value lit)), init).
Proof.
  intro H. pose proof (literal_written _ H) as Hw.
  destruct (written_facts _ Hw) as (Hplain & Hnb & Hsp).
  assert (Ht : tokens_in (constants init) lit = [lit]).
  { rewrite (tokens_in_plain _ Hplain). exact (findall_one_literal _ H). }
  assert (Htp : tokens_in (constants init) ("." ++ lit) = [lit]).
  { rewrite tokens_in_plain
      by (cbn [append PyStr.forallb]; rewrite Hplain; reflexivity).
    change ("." ++ lit) with (String "." lit).
    rewrite (remove_blank_cons "." lit eq_refl).
    rewrite (findall_none pattern "." _ eq_refl).
    exact (findall_one_literal _ H). }
  assert (Hc : calculation init lit
               = Ret (present (Ret (Grammar.literal_value lit))))
    by exact (calculation_one_literal _ _ H Hsp Ht).
  assert (Hcp : calculation init ("." ++ lit)
                = Ret (present (Ret (Grammar.literal_value lit))))
    by exact (calculation_one_literal ("." ++ lit) lit H eq_refl Htp).
  rewrite tokenize_run, !calculate_run, Htp, Hc, Hcp. auto.
Qed.

End TextualEdges.

(* ================================================================= *)
(** * The words that [float()] takes for numbers *)

Section FloatWords.

Context {RT : Runtime}.

Local Open Scope string_scope.

Ltac each_char c := destruct c as [[] [] [] [] [] [] [] []].

Lemma forallb_map (p : ascii -> bool) (f : ascii -> ascii) (s : string) :
  PyStr.forallb p (PyStr.map f s) = PyStr.forallb (fun c => p (f c)) s.
Proof.
  induction s as [ | c s IH]; [reflexivity | ].
  cbn [PyStr.map PyStr.forallb]. rewrite IH. reflexivity.
Qed.

(** A character whose lower case is an ASCII letter other than [p] and
    [e]. *)
Lemma letter_facts (c : ascii) :
  PyStr.between 97 122 (PyStr.lower c) && Token.is_plain (PyStr.lower c) = true ->
  (PyStr.is_ident_start c = true /\ PyStr.is_word c = true
   /\ Token.is_plain c = true)
  /\ (PyStr.is_space c = false /\ F64.is_float_space c = false
      /\ F64.is_underscore c = false /\ Ascii.eqb c " " = false)
  /\ (PyStr.is_digit c = false /\ Re.is_single_operator c = false
      /\ forall m, F64.parse_sign (String c m) = (false, String c m)).
Proof.
  each_char c; vm_compute; intro H; try discriminate H;
    repeat split; reflexivity.
Qed.

Lemma word_letters (s w : string) :
  PyStr.map PyStr.lower s = w ->
  PyStr.forallb (fun x => PyStr.between 97 122 x && Token.is_plain x) w = true ->
  PyStr.forallb (fun c => PyStr.between 97 122 (PyStr.lower c)
                          && Token.is_plain (PyStr.lower c)) s = true.
Proof. intros <- H. rewrite forallb_map in H. exact H. Qed.

(** A word of such letters is one identifier for the tokenizer. *)
Lemma findall_word (c : ascii) (m : string) :
  PyStr.forallb (fun c => PyStr.between 97 122 (PyStr.lower c)
                          && Token.is_plain (PyStr.lower c)) (String c m) = true ->
  tokens_in (constants init) (String c m) = [String c m]
  /\ PyStr.forallb PyStr.is_space (String c m) = false.
Proof.
  intro H.
  assert (Hplain : PyStr.forallb Token.is_plain (String c m) = true).
  { refine (forallb_impl _ _ _ _ H). intros x Hx.
    exact (proj2 (proj2 (proj1 (letter_facts _ Hx)))). }
  assert (Hnb : PyStr.forallb (fun a => negb (Ascii.eqb a " ")) (String c m) = true).
  { refine (forallb_impl _ _ _ _ H). intros x Hx.
    destruct (letter_facts _ Hx) as (_ & (_ & _ & _ & ->) & _). reflexivity. }
  assert (Hw : PyStr.forallb PyStr.is_word m = true).
  { cbn [PyStr.forallb] in H. apply andb_true_iff in H.
    refine (forallb_impl _ _ _ _ (proj2 H)). intros x Hx.
    exact (proj1 (proj2 (proj1 (letter_facts _ Hx)))). }
  cbn [PyStr.forallb] in H. apply andb_true_iff in H. destruct H as [Hc _].
  destruct (letter_facts _ Hc)
    as ((Hi & _ & _) & (Hsp & _ & _ & _) & (Hd & Ho & _)).
  split.
  - rewrite (tokens_in_plain _ Hplain), (replace_absent " " "" "" _ Hnb).
    rewrite <- (sapp_nil_r (String c m)) at 1. apply findall_match.
    unfold pattern. cbn [Re.match_at append].
    unfold Re.alt_number, Re.alt_single. rewrite Hd, Ho.
    destruct (alt_literal_none c (m ++ "") Ho) as [-> ->].
    unfold Re.alt_identifier. rewrite Hi, sapp_nil_r, (span_all _ _ Hw).
    reflexivity.
  - cbn [PyStr.forallb]. rewrite Hsp. reflexivity.
Qed.

(** [float()] of a word whose lower case is [w]. *)
Lemma of_string_word (c : ascii) (m : string) :
  PyStr.forallb (fun c => PyStr.between 97 122 (PyStr.lower c)
                          && Token.is_plain (PyStr.lower c)) (String c m) = true ->
  F64.of_string (String c m)
  = let low := PyStr.map PyStr.lower (String c m) in
    if (low =? "inf") || (low =? "infinity") then Some (S754_infinity false)
    else if low =? "nan" then Some S754_nan
    else F64.parse_decimal false (String c m).
Proof.
  intro H. unfold F64.of_string.
  rewrite strip_with_none.
  2:{ refine (forallb_impl _ _ _ _ H). intros x Hx.
      destruct (letter_facts _ Hx) as (_ & (_ & -> & _) & _). reflexivity. }
  rewrite (remove_underscores_none zero (String c m) eq_refl).
  2:{ refine (forallb_impl _ _ _ _ H). intros x Hx.
      destruct (letter_facts _ Hx) as (_ & (_ & _ & -> & _) & _). reflexivity. }
  cbn [PyStr.forallb] in H. apply andb_true_iff in H. destruct H as [Hc _].
  destruct (letter_facts _ Hc) as (_ & _ & (_ & _ & Hsign)).
  rewrite Hsign. reflexivity.
Qed.

(** X13: [is_number] is [float()], and [float()] takes more than
    decimal numbers.  A word that reads [inf], [infinity] or [nan] in
    any mix of upper and lower case is a number for [is_number]; the
    tokenizer returns it as one identifier, and [calculate] returns the
    float infinity, or the float that is not a number, instead of a
    message. *)
Theorem float_words_are_numbers (s : string) :
  In (PyStr.map PyStr.lower s) ["inf"; "infinity"; "nan"] ->
  (forall self : Calculator, is_number s self = (Ret true, self))
  /\ tokenize s init = (Ret [s], init)
  /\ calculate s init
     = (RVal (VFloat (if PyStr.map PyStr.lower s =? "nan" then S754_nan
                      else S754_infinity false)), init).
Proof.
  intro Hin.
  assert (Hl : PyStr.forallb (fun c => PyStr.between 97 122 (PyStr.lower c)
                                       && Token.is_plain (PyStr.lower c)) s
               = true).
  { cbn [In] in Hin.
    destruct Hin as [H | [H | [H | []]]];
      apply (word_letters _ _ (eq_sym H)); reflexivity. }
  assert (Hv : F64.of_string s
               = Some (if PyStr.map PyStr.lower s =? "nan" then S754_nan
                       else S754_infinity false)).
  { destruct s as [ | c m];
      [cbn [In PyStr.map] in Hin;
       destruct Hin as [H | [H | [H | []]]]; discriminate H | ].
    rewrite (of_string_word _ _ Hl). cbv zeta.
    cbn [In] in Hin.
    destruct Hin as [H | [H | [H | []]]]; rewrite <- H; reflexivity. }
  assert (Hn : is_num s = true) by (unfold is_num; rewrite Hv; reflexivity).
  destruct s as [ | c m];
    [cbn [In PyStr.map] in Hin;
     destruct Hin as [H | [H | [H | []]]]; discriminate H | ].
  destruct (findall_word _ _ Hl) as [Ht Hsp].
  refine (conj _ (conj _ _)).
  - intro self. rewrite is_number_run, Hn. reflexivity.
  - rewrite tokenize_run, Ht. reflexivity.
  - rewrite calculate_run. f_equal.
    rewrite calculation_postfix by (apply strip_with_some; exact Hsp).
    unfold postfix_in. rewrite Ht.
    rewrite (shunt_number _ _ _ _ _ _ Hn).
    cbn [shunt List.app eval_tokens]. unfold eval_token. rewrite Hv.
    cbn [and_then single]. rewrite format_float.
    destruct (PyStr.map PyStr.lower (String c m) =? "nan"); reflexivity.
Qed.

End FloatWords.

(* ================================================================= *)
(** * The interactive mode and the command line *)

Section ConsoleProperties.

Context {RT : Runtime}.

Variable obj_str : pyobj -> string.
Variable os_name : string.

Local Open Scope string_scope.

Local Abbreviation loop_body := (Console.loop_body obj_str os_name).
Local Abbreviation session := (Console.session obj_str os_name).
Local Abbreviation written_for := (Console.written_for obj_str os_name).
Local Abbreviation goes_on := (Console.goes_on obj_str os_name).

(** No event changes the object. *)
Lemma loop_body_object (calc : Calculator) (ev : input_event) :
  snd (loop_body calc ev) = calc.
Proof.
  destruct ev as [raw | | ]; try reflexivity.
  unfold Console.loop_body.
  destruct (PyStr.is_empty (PyStr.strip raw)); [reflexivity | ].
  destruct (existsb _ _); [reflexivity | ].
  destruct (_ =? "help"); [reflexivity | ].
  destruct (_ =? "clear"); [reflexivity | ].
  rewrite calculate_run. reflexivity.
Qed.

Lemma loop_body_parts (calc : Calculator) (ev : input_event) :
  loop_body calc ev
  = (fst (fst (loop_body calc ev)), goes_on calc ev, calc).
Proof.
  unfold Console.goes_on. rewrite <- (loop_body_object calc ev) at 4.
  destruct (loop_body calc ev) as [[w g] c]. reflexivity.
Qed.

Lemma session_step (calc : Calculator) (ev : input_event)
  (rest : list input_event) :
  session calc (ev :: rest)
  = if goes_on calc ev
    then ((written_for calc ev ++ fst (session calc rest))%list,
          snd (session calc rest))
    else (written_for calc ev, Console.Exited).
Proof.
  cbn [Console.session]. rewrite (loop_body_parts calc ev).
  unfold Console.written_for.
  destruct (goes_on calc ev); [ | reflexivity].
  destruct (session calc rest). reflexivity.
Qed.

Lemma goes_on_stops (calc : Calculator) (ev : input_event) :
  goes_on calc ev = negb (Console.stops ev).
Proof.
  destruct ev as [raw | | ]; try reflexivity.
  unfold Console.goes_on, Console.loop_body, Console.stops.
  destruct (PyStr.strip raw) as [ | c s] eqn:E; [reflexivity | ].
  cbn [PyStr.is_empty].
  destruct (existsb _ _); [reflexivity | ].
  destruct (_ =? "help"); [reflexivity | ].
  destruct (_ =? "clear"); [reflexivity | ].
  destruct (calculate _ calc). reflexivity.
Qed.


(** What the session writes for the event that ends it: the prompt and
    the goodbye, after a newline when [input()] was interrupted or met
    the end of the input. *)
Lemma written_for_stop (calc : Calculator) (ev : input_event) :
  Console.stops ev = true ->
  written_for calc ev
  = [ Console.Prompted Console.prompt;
      Console.Printed
        match ev with
        | Line _ => Console.goodbye
        | KeyboardInterrupt | EOFError =>
            (Console.text_of Console.newline ++ Console.goodbye)%list
        end ].
Proof.
  destruct ev as [raw | | ]; intro Hev; try reflexivity.
  unfold Console.stops in Hev.
  unfold Console.written_for, Console.loop_body.
  destruct (PyStr.strip raw) as [ | c s]; [discriminate Hev | ].
  cbn [PyStr.is_empty]. rewrite Hev. reflexivity.
Qed.


(** ** The command line *)

Lemma remove_blank_app (a b : string) :
  PyStr.replace " " "" (a ++ b)
  = PyStr.replace " " "" a ++ PyStr.replace " " "" b.
Proof.
  induction a as [ | x a IH]; [reflexivity | ].
  cbn [append]. rewrite !remove_blank_step, IH.
  destruct (Ascii.eqb x " "); reflexivity.
Qed.

Lemma join_with_blank (parts : list string) :
  PyStr.replace " " "" (Console.join_with " " parts)
  = PyStr.replace " " "" (PyStr.join parts)
  /\ (Forall (fun a => PyStr.forallb Token.is_plain a = true) parts ->
      PyStr.forallb Token.is_plain (Console.join_with " " parts) = true
      /\ PyStr.forallb Token.is_plain (PyStr.join parts) = true).
Proof.
  induction parts as [ | a parts [IH1 IH2]]; [split; [reflexivity | auto] | ].
  assert (E : Console.join_with " " (a :: parts)
              = match parts with
                | [] => a
                | _ => a ++ " " ++ Console.join_with " " parts
                end) by reflexivity.
  split.
  - rewrite E. cbn [PyStr.join]. destruct parts as [ | b parts].
    + cbn [PyStr.join]. rewrite sapp_nil_r. reflexivity.
    + rewrite (remove_blank_app a (PyStr.join (b :: parts))), <- IH1.
      rewrite (remove_blank_app a).
      change (" " ++ Console.join_with " " (b :: parts))
        with (String " " (Console.join_with " " (b :: parts))).
      rewrite remove_blank_cons_blank. reflexivity.
  - intro H. inversion H as [ | a' parts' Ha Hparts]; subst.
    destruct (IH2 Hparts) as [H1 H2].
    split.
    + rewrite E. destruct parts as [ | b parts]; [exact Ha | ].
      rewrite !forallb_app, Ha, H1. reflexivity.
    + cbn [PyStr.join]. rewrite forallb_app, Ha, H2. reflexivity.
Qed.


End ConsoleProperties.

(* ================================================================= *)
(** * The tokens that are numbers *)

Section NumbersAmongTokens.

Context {RT : Runtime}.

Local Open Scope string_scope.

Ltac each_char c := destruct c as [[] [] [] [] [] [] [] []].

Lemma word_char_facts (c : ascii) :
  PyStr.is_word c = true ->
  F64.is_float_space c = false
  /\ F64.is_underscore (PyStr.lower c) = F64.is_underscore c
  /\ PyStr.is_digit (PyStr.lower c) = PyStr.is_digit c.
Proof. each_char c; vm_compute; intro H; try discriminate H; auto. Qed.

Lemma ident_start_facts (c : ascii) :
  PyStr.is_ident_start c = true ->
  PyStr.is_word c = true /\ PyStr.is_digit c = false /\ Ascii.eqb c "." = false
  /\ (forall m, F64.parse_sign (String c m) = (false, String c m))
  /\ (F64.is_underscore c = true -> c = "_"%char).
Proof.
  each_char c; vm_compute; intro H; try discriminate H;
    repeat split; try reflexivity; intro H'; discriminate H'.
Qed.

Lemma operator_char_facts (c : ascii) :
  Re.is_single_operator c = true ->
  is_num (String c "") = false /\ Token.is_float_word (String c "") = false.
Proof. each_char c; vm_compute; intro H; try discriminate H; auto. Qed.

(** The three words hold no underscore and no digit. *)
Lemma float_word_chars (low : string) :
  existsb (String.eqb low) ["inf"; "infinity"; "nan"] = true ->
  PyStr.forallb (fun x => negb (F64.is_underscore x)) low = true
  /\ PyStr.forallb (fun x => negb (PyStr.is_digit x)) low = true.
Proof.
  intro H. apply existsb_exists in H. destruct H as (w & Hin & E).
  apply String.eqb_eq in E. subst w. cbn [In] in Hin.
  destruct Hin as [<- | [<- | [<- | []]]]; split; reflexivity.
Qed.

Lemma lower_keeps (p : ascii -> bool) (s : string) :
  PyStr.forallb PyStr.is_word s = true ->
  (forall c, PyStr.is_word c = true -> p (PyStr.lower c) = p c) ->
  PyStr.forallb (fun x => negb (p x)) (PyStr.map PyStr.lower s)
  = PyStr.forallb (fun x => negb (p x)) s.
Proof.
  intros Hw Hp. induction s as [ | c s IH]; [reflexivity | ].
  cbn [PyStr.forallb PyStr.map] in Hw |- *.
  apply andb_true_iff in Hw. destruct Hw as [Hc Hs].
  rewrite (Hp _ Hc), (IH Hs). reflexivity.
Qed.

(** [float()] does not read a decimal number in a text that begins with
    a letter. *)
Lemma parse_decimal_letter (c : ascii) (m : string) :
  PyStr.is_digit c = false -> Ascii.eqb c "." = false ->
  F64.parse_decimal false (String c m) = None.
Proof.
  intros Hd Hp. unfold F64.parse_decimal.
  cbn [PyStr.span]. rewrite Hd.
  assert (E : match String c m with
              | String "." r => PyStr.span PyStr.is_digit r
              | _ => ("", String c m)
              end = ("", String c m)).
  { exact (match_point c m (fun r => PyStr.span PyStr.is_digit r)
                       ("", String c m) Hp). }
  rewrite E. reflexivity.
Qed.

(** Where [float()] removes an underscore, a digit stands after it. *)
Lemma underscore_leaves_digit (s : string) :
  forall (prev : ascii) (s' : string),
    F64.remove_underscores prev s = Some s' ->
    PyStr.forallb (fun x => negb (F64.is_underscore x)) s = false ->
    PyStr.forallb (fun x => negb (PyStr.is_digit x)) s' = false.
Proof.
  induction s as [ | x s IH]; intros prev s' H Hu; [discriminate Hu | ].
  cbn [F64.remove_underscores] in H. cbn [PyStr.forallb] in Hu.
  destruct (F64.is_underscore x) eqn:Hx.
  - destruct (PyStr.is_digit prev); [ | discriminate H].
    destruct s as [ | y s1]; cbn [F64.remove_underscores] in H.
    + rewrite Hx in H. discriminate H.
    + destruct (F64.is_underscore y) eqn:Hy.
      * assert (E : PyStr.is_digit x = false).
        { revert Hx. clear. each_char x; vm_compute; intro H;
            try discriminate H; reflexivity. }
        rewrite E in H. discriminate H.
      * rewrite Hx in H. cbn [andb] in H.
        destruct (PyStr.is_digit y) eqn:Hd; cbn [negb] in H;
          [ | discriminate H].
        destruct (F64.remove_underscores y s1) as [s1' | ];
          [ | discriminate H].
        injection H as <-. cbn [PyStr.forallb]. rewrite Hd. reflexivity.
  - cbn [negb andb] in Hu.
    destruct (F64.is_underscore prev && negb (PyStr.is_digit x));
      [discriminate H | ].
    destruct (F64.remove_underscores x s) as [s0' | ] eqn:E;
      [ | discriminate H].
    injection H as <-. cbn [PyStr.forallb].
    rewrite (IH _ _ E Hu). apply andb_false_r.
Qed.

(** An identifier is a number exactly when it is one of the three
    words. *)
Lemma identifier_number (t : string) :
  Token.is_identifier t = true -> is_num t = Token.is_float_word t.
Proof.
  destruct t as [ | c r]; [discriminate | ].
  cbn [Token.is_identifier]. intro H. apply andb_true_iff in H.
  destruct H as [Hc Hr].
  destruct (ident_start_facts _ Hc) as (Hcw & Hcd & Hcp & Hsign & Hcu).
  assert (Hw : PyStr.forallb PyStr.is_word (String c r) = true)
    by (cbn [PyStr.forallb]; rewrite Hcw, Hr; reflexivity).
  assert (Hlu : PyStr.forallb (fun x => negb (F64.is_underscore x))
                              (PyStr.map PyStr.lower (String c r))
                = PyStr.forallb (fun x => negb (F64.is_underscore x))
                                (String c r)).
  { apply (lower_keeps F64.is_underscore _ Hw). intros x Hx.
    exact (proj1 (proj2 (word_char_facts _ Hx))). }
  unfold is_num, F64.of_string.
  rewrite strip_with_none.
  2:{ refine (forallb_impl _ _ _ _ Hw). intros x Hx.
      rewrite (proj1 (word_char_facts _ Hx)). reflexivity. }
  destruct (PyStr.forallb (fun x => negb (F64.is_underscore x)) (String c r))
    eqn:Hu.
  - rewrite (remove_underscores_none zero (String c r) eq_refl Hu), Hsign.
    rewrite (parse_decimal_letter c r Hcd Hcp).
    unfold Token.is_float_word. cbn [existsb].
    destruct (PyStr.map PyStr.lower (String c r) =? "inf");
      [reflexivity | ].
    destruct (PyStr.map PyStr.lower (String c r) =? "infinity");
      [reflexivity | ].
    destruct (PyStr.map PyStr.lower (String c r) =? "nan"); reflexivity.
  - assert (Hnw : Token.is_float_word (String c r) = false).
    { unfold Token.is_float_word.
      destruct (existsb _ _) eqn:E; [ | reflexivity].
      apply float_word_chars in E. rewrite Hlu in E.
      destruct E as [E _]. discriminate E. }
    rewrite Hnw.
    destruct (F64.remove_underscores zero (String c r)) as [t' | ] eqn:E;
      [ | reflexivity].
    pose proof (underscore_leaves_digit _ _ _ E Hu) as Hd.
    cbn [F64.remove_underscores] in E.
    destruct (F64.is_underscore c) eqn:Hcu'; [discriminate E | ].
    cbn [andb] in E.
    destruct (F64.remove_underscores c r) as [r' | ] eqn:Er;
      [ | discriminate E].
    injection E as <-. rewrite Hsign, (parse_decimal_letter c r' Hcd Hcp).
    assert (Hnot : existsb (String.eqb (PyStr.map PyStr.lower (String c r')))
                           ["inf"; "infinity"; "nan"] = false).
    { destruct (existsb _ _) eqn:E; [ | reflexivity].
      apply float_word_chars in E. destruct E as [_ E].
      assert (Hdl : PyStr.forallb (fun x => negb (PyStr.is_digit x))
                                  (PyStr.map PyStr.lower (String c r'))
                    = false).
      { clear E. revert Hd. generalize (String c r'). intro s.
        induction s as [ | x s IH]; [discriminate | ].
        cbn [PyStr.forallb PyStr.map].
        assert (Ex : PyStr.is_digit (PyStr.lower x) = PyStr.is_digit x)
          by (clear; each_char x; reflexivity).
        rewrite Ex. destruct (PyStr.is_digit x); [reflexivity | ].
        cbn [negb andb]. exact IH. }
      rewrite Hdl in E. discriminate E. }
    cbn [existsb] in Hnot.
    destruct (PyStr.map PyStr.lower (String c r') =? "inf");
      [discriminate Hnot | ].
    destruct (PyStr.map PyStr.lower (String c r') =? "infinity");
      [discriminate Hnot | ].
    destruct (PyStr.map PyStr.lower (String c r') =? "nan");
      [discriminate Hnot | reflexivity].
Qed.

(** X17: among the tokens [tokenize] returns, whatever the expression
    and the object, the numbers of [is_number] are exactly the decimal
    numbers and the words [inf], [infinity] and [nan] (in any case of
    letters); no other identifier and no operator character is one. *)
Theorem numbers_among_tokens (self : Calculator) (expression : string) :
  exists tokens : list string,
    tokenize expression self = (Ret tokens, self)
    /\ Forall (fun t =>
                 is_number t self
                 = (Ret (Grammar.is_literal t || Token.is_float_word t), self))
              tokens.
Proof.
  exists (tokens_in (constants self) expression).
  split; [apply tokenize_run | ].
  unfold tokens_in.
  refine (Forall_impl _ _ (findall_shapes _)).
  intros t Ht. rewrite is_number_run. do 2 f_equal.
  unfold Token.shape_ok in Ht.
  destruct (Grammar.is_literal t) eqn:Hl.
  - exact (is_num_literal _ Hl).
  - cbn [orb] in Ht |- *. apply orb_true_iff in Ht. destruct Ht as [Ho | Hi].
    + destruct t as [ | c [ | ]]; try discriminate Ho.
      destruct (operator_char_facts c Ho) as [-> ->]. reflexivity.
    + exact (identifier_number _ Hi).
Qed.

End NumbersAmongTokens.

(* ================================================================= *)
(** * Constants in the expressions of the language *)

Section ConstantsInFormulas.

Context {RT : Runtime}.

Local Open Scope string_scope.

Lemma prefix_app (u rest : string) : prefix u (u ++ rest) = true.
Proof.
  induction u as [ | c u IH]; [apply prefix_nil | ].
  cbn [append]. rewrite prefix_cons, Ascii.eqb_refl. exact IH.
Qed.

Lemma replace_from_skip (u old new rest : string) :
  PyStr.replace_from (String.length u) old new (u ++ rest)
  = PyStr.replace_from 0 old new rest.
Proof.
  induction u as [ | c u IH]; [destruct rest; reflexivity | exact IH].
Qed.

(** An occurrence of [old] at the start of the text is replaced, and the
    search goes on after it. *)
Lemma replace_at (c : ascii) (old new rest : string) :
  PyStr.replace (String c old) new (String c old ++ rest)
  = new ++ PyStr.replace (String c old) new rest.
Proof.
  unfold PyStr.replace. cbn [append PyStr.replace_from].
  change (String c (old ++ rest)) with (String c old ++ rest).
  rewrite prefix_app. cbn [String.length Nat.sub].
  rewrite Nat.sub_0_r, replace_from_skip. reflexivity.
Qed.

Lemma blanks_without (c : ascii) (n : nat) :
  Ascii.eqb " " c = false ->
  PyStr.forallb (fun x => negb (Ascii.eqb x c)) (Grammar.blanks n) = true.
Proof.
  intro H. induction n as [ | n IH]; [reflexivity | ].
  cbn [Grammar.blanks PyStr.forallb]. rewrite H, IH. reflexivity.
Qed.

(** [replace] on tokens written with blanks between them: each token
    that is [old] is replaced, the others are left as they are when the
    first character of [old] does not occur in them. *)
Lemma replace_layout (c : ascii) (old new : string) (written : list string) :
  Ascii.eqb " " c = false ->
  Forall (fun t => t = String c old
                   \/ PyStr.forallb (fun x => negb (Ascii.eqb x c)) t = true)
         written ->
  forall gaps : list nat,
    PyStr.replace (String c old) new (Grammar.layout gaps written)
    = Grammar.layout gaps
        (List.map (fun t => if t =? String c old then new else t) written).
Proof.
  intros Hc H. induction H as [ | t written Ht _ IH]; intro gaps;
    cbn [Grammar.layout List.map].
  - apply replace_absent. apply blanks_without. exact Hc.
  - rewrite (replace_after c old new _ _ (blanks_without c _ Hc)). f_equal.
    destruct (t =? String c old) eqn:E.
    + apply String.eqb_eq in E. subst t. rewrite replace_at, IH. reflexivity.
    + destruct Ht as [-> | Ht]; [rewrite String.eqb_refl in E; discriminate E | ].
      rewrite (replace_after c old new _ _ Ht), IH. reflexivity.
Qed.

Lemma plain_without (t : string) :
  PyStr.forallb Token.is_plain t = true ->
  PyStr.forallb (fun x => negb (Ascii.eqb x "p")) t = true
  /\ PyStr.forallb (fun x => negb (Ascii.eqb x "e")) t = true.
Proof.
  intro H. split; refine (forallb_impl _ _ _ _ H); intros x Hx;
    unfold Token.is_plain in Hx; apply negb_true_iff, orb_false_iff in Hx.
  - rewrite (proj1 Hx). reflexivity.
  - rewrite (proj2 Hx). reflexivity.
Qed.

(** A written token is the name of a constant, or the token it reads as. *)
Lemma read_constant_cases (t : string) :
  t = "pi" \/ t = "e" \/ Formula.read_constant t = t.
Proof.
  unfold Formula.read_constant.
  destruct (t =? "pi") eqn:E1; [left; apply String.eqb_eq; exact E1 | ].
  destruct (t =? "e") eqn:E2; [right; left; apply String.eqb_eq; exact E2 | ].
  right. right. reflexivity.
Qed.

(** The text in which constants are written by name is read as the
    tokens they stand for. *)
Lemma tokens_in_spelled (tokens written : list string) (gaps : list nat) :
  float_str F64.math_pi = "3.141592653589793" ->
  float_str F64.math_e = "2.718281828459045" ->
  Forall (fun t => Token.is_written t = true) tokens ->
  List.map Formula.read_constant written = tokens ->
  replace_constants (constants init) (Grammar.layout gaps written)
  = Grammar.layout gaps tokens
  /\ (tokens <> [] ->
      PyStr.forallb PyStr.is_space (Grammar.layout gaps written) = false).
Proof.
  intros Hpi He Htok Hmap.
  assert (Hw : Forall (fun t => t = "pi" \/ t = "e"
                                \/ PyStr.forallb Token.is_plain t = true
                                   /\ PyStr.forallb PyStr.is_space t = false)
                      written).
  { subst tokens. induction written as [ | t written IH]; [constructor | ].
    cbn [List.map] in Htok. inversion Htok as [ | x l Hx Hl]; subst.
    constructor; [ | exact (IH Hl)].
    destruct (read_constant_cases t) as [E | [E | E]]; [auto | auto | ].
    right. right. rewrite E in Hx.
    destruct (written_facts _ Hx) as (H1 & _ & H3). auto. }
  split.
  - unfold replace_constants. cbn [constants init fold_left]. rewrite Hpi, He.
    rewrite (replace_layout "p" "i" _ written eq_refl).
    2:{ refine (Forall_impl _ _ Hw). intros t [-> | [-> | [Ht _]]];
          [left; reflexivity | right; reflexivity | right ].
        exact (proj1 (plain_without _ Ht)). }
    rewrite (replace_layout "e" "" _ _ eq_refl).
    2:{ apply Forall_map. refine (Forall_impl _ _ Hw).
        intros t [-> | [-> | [Ht _]]];
          [right; reflexivity | left; reflexivity | ].
        destruct (t =? "pi"); [right; reflexivity | right].
        exact (proj2 (plain_without _ Ht)). }
    rewrite List.map_map, <- Hmap. f_equal. apply List.map_ext. intro t.
    unfold Formula.read_constant.
    destruct (t =? "pi"); reflexivity.
  - intro Hne. destruct Hw as [ | t written Ht _];
      [subst tokens; contradiction Hne; reflexivity | ].
    cbn [Grammar.layout]. rewrite !forallb_app.
    assert (E : PyStr.forallb PyStr.is_space t = false)
      by (destruct Ht as [-> | [-> | [_ Ht]]]; [reflexivity | reflexivity | exact Ht]).
    rewrite E, andb_false_r. reflexivity.
Qed.

(** X18: constants in the expressions of the language.  Where
    [str(math.pi)] is ["3.141592653589793"] and [str(math.e)] is
    ["2.718281828459045"], as in CPython, an expression in which [pi]
    and [e] are written where numbers can stand is read as the
    expression with the digits of the constants in their place: for
    every formula that is its own parse and every way of writing its
    tokens with the names of the constants for their digits, however
    the text is spaced, [tokenize] returns the tokens of the formula and
    [calculate] what the reference evaluator returns for it, through
    the result formatter and the [except] clauses. *)
Theorem calculate_reads_constants (e : formula) (written : list string)
  (gaps : list nat) :
  float_str F64.math_pi = "3.141592653589793" ->
  float_str F64.math_e = "2.718281828459045" ->
  Formula.well_formed e = true ->
  List.map Formula.read_constant written = Formula.tokens e ->
  tokenize (Grammar.layout gaps written) init = (Ret (Formula.tokens e), init)
  /\ calculate (Grammar.layout gaps written) init
     = (Formula.answer (Formula.eval e), init).
Proof.
  intros Hpi He Hv Hmap.
  destruct (wrapped_formula e 0 0 Hv) as (Hw & Hne & Hfind & Hshunt & Heval).
  rewrite wrapped_none in Hw, Hne, Hfind, Hshunt.
  cbn [Nat.sub repeat] in Hshunt, Heval. rewrite List.app_nil_r in Hshunt, Heval.
  destruct (tokens_in_spelled _ written gaps Hpi He Hw Hmap) as [Hrep Hsp].
  assert (Ht : tokens_in (constants init) (Grammar.layout gaps written)
               = Formula.tokens e).
  { unfold tokens_in. rewrite Hrep, (layout_joined _ gaps Hw). exact Hfind. }
  split.
  - rewrite tokenize_run, Ht. reflexivity.
  - rewrite calculate_run. f_equal.
    rewrite calculation_postfix by (apply strip_with_some; exact (Hsp Hne)).
    unfold postfix_in. rewrite Ht, Hshunt, Heval. reflexivity.
Qed.

End ConstantsInFormulas.

(* ================================================================= *)
(** * Division by zero, and the floor division that is never reached *)

Section DivisionByZero.

Context {RT : Runtime}.

(** No expression has ["//"] among its tokens, and none has it in its
    postfix sequence: the converter only moves the tokens it is
    given. *)
Lemma floor_division_unreachable (self : Calculator) (expression : string) :
  ~ In "//" (tokens_in (constants self) expression)
  /\ ~ In "//" (shunt (operators self) (functions self)
                      (tokens_in (constants self) expression) [] []).
Proof.
  assert (Ht : ~ In "//" (tokens_in (constants self) expression)).
  { unfold tokens_in, Re.findall. intro Hin.
    apply findall_from_match in Hin. destruct Hin as [s' Hs'].
    apply match_at_pattern_single in Hs'. destruct Hs' as [_ H].
    contradiction H. reflexivity. }
  split; [exact Ht | ].
  intro Hin. apply (count_occ_In string_dec) in Hin.
  rewrite count_occ_filter in Hin.
  rewrite (shunt_count _ _ (String.eqb "//")) in Hin by reflexivity.
  cbn [filter List.length Nat.add] in Hin.
  assert (E : filter (fun t => String.eqb "//" t
                               && is_converted (operators self)
                                               (functions self) t)
                     (tokens_in (constants self) expression) = []).
  { revert Ht. generalize (tokens_in (constants self) expression).
    intros l Hl. induction l as [ | x l IH]; [reflexivity | ].
    cbn [filter]. destruct (String.eqb "//" x) eqn:E.
    - apply String.eqb_eq in E. subst x. contradiction Hl. left. reflexivity.
    - cbn [andb]. apply IH. intro H. apply Hl. right. exact H. }
  rewrite E in Hin. cbn [List.length] in Hin. lia.
Qed.

(** C4 (what the code does): on floats, [/], [//] and [%] with a right
    operand equal to zero raise [ZeroDivisionError] (the operator's own
    fault: nothing in the evaluator tests the divisor), and [calculate]
    turns that fault into "Error: Division by zero".  When the postfix
    sequence of an expression reaches one of these operators with a
    zero on top of two floats, the operator is [/] or [%], the
    evaluation ends with that fault and [calculate] returns the
    message; so do [calculate("5/0")] and [calculate("5%0")].  Floor
    division is never reached: the pattern of the tokenizer lists the
    one-character operators before [//], so a [//] is cut into two [/],
    no expression has ["//"] among its tokens or in its postfix
    sequence, and [calculate("5//0")] returns the message of an
    operator that lacks an operand instead of "Error: Division by
    zero"; the operator of the table does raise [ZeroDivisionError],
    when the evaluator is handed ["//"] directly.  The message is none
    of those of the other categories, and a [ZeroDivisionError] or a
    [ValueError] whose own text is "Division by zero" are the only
    faults [calculate] turns into it. *)
Theorem division_by_zero_without_floor_division :
  (forall a b : F64.float64,
      F64.is_zero b = true ->
      py_truediv (VFloat a) (VFloat b) = Raise ZeroDivisionError
      /\ py_floordiv (VFloat a) (VFloat b) = Raise ZeroDivisionError
      /\ py_mod (VFloat a) (VFloat b) = Raise ZeroDivisionError)
  /\ (forall (expression : string) (tokens pre post : list string)
             (token : string) (a b : F64.float64) (rest : list val),
      PyStr.is_empty (PyStr.strip expression) = false ->
      tokenize expression init = (Ret tokens, init) ->
      infix_to_postfix tokens init = (Ret (pre ++ token :: post), init) ->
      evaluate_loop pre [] init = (Ret (VFloat b :: VFloat a :: rest), init) ->
      is_division token = true ->
      F64.is_zero b = true ->
      (token = "/" \/ token = "%")
      /\ evaluate_postfix (pre ++ token :: post) init
         = (Raise ZeroDivisionError, init)
      /\ calculate expression init = (RStr "Error: Division by zero", init))
  /\ (forall (self : Calculator) (expression : string)
             (tokens postfix : list string),
      tokenize expression self = (Ret tokens, self) ->
      infix_to_postfix tokens self = (Ret postfix, self) ->
      ~ In "//" tokens /\ ~ In "//" postfix)
  /\ calculate "5/0" init = (RStr "Error: Division by zero", init)
  /\ calculate "5%0" init = (RStr "Error: Division by zero", init)
  /\ tokenize "5//0" init = (Ret ["5"; "/"; "/"; "0"], init)
  /\ infix_to_postfix ["5"; "/"; "/"; "0"] init
     = (Ret ["5"; "/"; "0"; "/"], init)
  /\ calculate "5//0" init
     = (RStr "Error: Invalid expression: not enough operands for '/'", init)
  /\ evaluate_postfix ["5"; "0"; "//"] init = (Raise ZeroDivisionError, init)
  /\ RStr "Error: Division by zero" <> RStr "Error: Empty expression"
  /\ (forall token,
        handle (ValueError (not_enough_operands token))
        <> RStr "Error: Division by zero")
  /\ (forall token,
        handle (ValueError (not_enough_arguments token))
        <> RStr "Error: Division by zero")
  /\ handle (ValueError "Invalid expression") <> RStr "Error: Division by zero"
  /\ (forall msg, handle (OtherException msg) <> RStr "Error: Division by zero")
  /\ (forall e, handle e = RStr "Error: Division by zero" ->
                e = ZeroDivisionError \/ e = ValueError "Division by zero").
Proof.
  refine (conj _ (conj _ (conj _ (conj _ (conj _ (conj _ (conj _ (conj _
          (conj _ (conj _ (conj _ (conj _ (conj _ (conj _ _)))))))))))))).
  - intros a b Hz. unfold py_truediv, py_floordiv, py_mod. rewrite Hz.
    repeat split.
  - intros expression tokens pre post token a b rest
           Hblank Htok Hconv Hpre Hd Hz.
    rewrite tokenize_run in Htok. apply pair_ret in Htok.
    rewrite infix_to_postfix_run in Hconv. apply pair_ret in Hconv.
    rewrite evaluate_loop_run in Hpre. apply pair_fst in Hpre.
    assert (Heval : eval_tokens (operators init) (functions init)
                                (pre ++ token :: post) []
                    = Raise ZeroDivisionError).
    { rewrite eval_tokens_app, Hpre. cbn [and_then eval_tokens].
      rewrite (division_token_zero _ _ _ _ Hd Hz). reflexivity. }
    refine (conj _ (conj _ _)).
    + destruct (is_division_cases _ Hd) as [E | [E | E]]; [auto | | auto].
      exfalso. subst token tokens.
      apply (proj2 (floor_division_unreachable init expression)).
      rewrite Hconv. apply in_or_app. right. left. reflexivity.
    + rewrite evaluate_postfix_run, Heval. reflexivity.
    + rewrite calculate_run. unfold calculation, postfix_in.
      rewrite Hblank, Htok, Hconv, Heval. reflexivity.
  - intros self expression tokens postfix Htok Hconv.
    rewrite tokenize_run in Htok. apply pair_ret in Htok. subst tokens.
    rewrite infix_to_postfix_run in Hconv. apply pair_ret in Hconv.
    subst postfix. apply floor_division_unreachable.
  - run.
  - run.
  - run.
  - run.
  - run.
  - run.
  - discriminate.
  - intros token. simpl. discriminate.
  - intros token. simpl. discriminate.
  - simpl. discriminate.
  - intros msg. simpl. discriminate.
  - intros [ | msg | msg]; simpl; intro H.
    + left. reflexivity.
    + right. injection H as H. rewrite H. reflexivity.
    + discriminate.
Qed.

End DivisionByZero.

(* ================================================================= *)
(** * The theorems at concrete inputs, on the runtime of floats *)

Lemma evaluator_skips_unknown_tokens_witness :
  (is_number (RT := FloatRuntime.runtime) "(" init = (Ret false, init)
   /\ contains (operators (RT := FloatRuntime.runtime) init) "(" = false
   /\ contains (functions (RT := FloatRuntime.runtime) init) "(" = false)
  /\ evaluate_loop (RT := FloatRuntime.runtime) ["("; "2"] [] init
     = evaluate_loop ["2"] [] init
  /\ evaluate_postfix (RT := FloatRuntime.runtime)
       (["2"; "3"; "+"] ++ "(" :: []) init
     = evaluate_postfix (["2"; "3"; "+"] ++ []) init.
Proof.
  assert (H : is_number (RT := FloatRuntime.runtime) "(" init = (Ret false, init)
              /\ contains (operators (RT := FloatRuntime.runtime) init) "(" = false
              /\ contains (functions (RT := FloatRuntime.runtime) init) "(" = false).
  { repeat split. }
  split; [exact H | ].
  destruct H as (Hn & Ho & Hf).
  pose proof (evaluator_skips_unknown_tokens (RT := FloatRuntime.runtime))
    as (Hloop & Hpost & _).
  split.
  - exact (Hloop init "(" ["2"] [] Hn Ho Hf).
  - exact (Hpost init ["2"; "3"; "+"] [] "(" Hn Ho Hf).
Defined.

Lemma evaluate_postfix_failures_witness :
  (evaluate_loop (RT := FloatRuntime.runtime) ["5"] [] init
   = (Ret [VFloat (F64.of_Z 5)], init)
   /\ is_number (RT := FloatRuntime.runtime) "-" init = (Ret false, init)
   /\ contains (operators (RT := FloatRuntime.runtime) init) "-" = true
   /\ (List.length [VFloat (obj := Empty_set) (F64.of_Z 5)] < 2)%nat)
  /\ evaluate_postfix (RT := FloatRuntime.runtime) (["5"] ++ "-" :: []) init
     = (Raise (ValueError (not_enough_operands "-")), init)
  /\ evaluate_postfix (RT := FloatRuntime.runtime) ([] ++ "sin" :: []) init
     = (Raise (ValueError (not_enough_arguments "sin")), init)
  /\ evaluate_postfix (RT := FloatRuntime.runtime) ["2"; "3"] init
     = (Raise (ValueError "Invalid expression"), init).
Proof.
  assert (H : evaluate_loop (RT := FloatRuntime.runtime) ["5"] [] init
              = (Ret [VFloat (F64.of_Z 5)], init)
              /\ is_number (RT := FloatRuntime.runtime) "-" init = (Ret false, init)
              /\ contains (operators (RT := FloatRuntime.runtime) init) "-" = true
              /\ (List.length [VFloat (obj := Empty_set) (F64.of_Z 5)] < 2)%nat).
  { repeat split. simpl. lia. }
  split; [exact H | ].
  destruct H as (Hpre & Hn & Ho & Hlen).
  pose proof (evaluate_postfix_failures (RT := FloatRuntime.runtime))
    as (Hop & Hfun & Hcount & _).
  split; [ | split].
  - exact (Hop init ["5"] [] "-" _ Hpre Hn Ho Hlen).
  - apply (Hfun init [] [] "sin"); reflexivity.
  - apply (Hcount init ["2"; "3"] [VFloat (F64.of_Z 3); VFloat (F64.of_Z 2)]).
    + reflexivity.
    + simpl. lia.
Defined.


Lemma exponentiation_left_associative_witness :
  (float_pow (Runtime := FloatRuntime.runtime) (F64.of_Z 2) (F64.of_Z 3)
   = Ret (VFloat (F64.of_Z 8))
   /\ float_pow (Runtime := FloatRuntime.runtime) (F64.of_Z 8) (F64.of_Z 2)
      = Ret (VFloat (F64.of_Z 64)))
  /\ calculate (RT := FloatRuntime.runtime) "2^3^2" init = (RInt 64, init)
  /\ (is_number (RT := FloatRuntime.runtime) "7" init = (Ret true, init)
      /\ contains (operators (RT := FloatRuntime.runtime) init) "-" = true
      /\ contains (operators (RT := FloatRuntime.runtime) init) "+" = true
      /\ (precedence (operators (RT := FloatRuntime.runtime) init) "+"
          <= precedence (operators (RT := FloatRuntime.runtime) init) "-")%nat)
  /\ infix_to_postfix (RT := FloatRuntime.runtime) ["7"; "-"; "7"; "+"; "7"] init
     = (Ret ["7"; "7"; "-"; "7"; "+"], init)
  /\ pop_operators (RT := FloatRuntime.runtime) "+" ["7"; "7"] ["-"] init
     = pop_operators "+" (["7"; "7"] ++ ["-"]) [] init.
Proof.
  assert (Hp : float_pow (Runtime := FloatRuntime.runtime) (F64.of_Z 2) (F64.of_Z 3)
               = Ret (VFloat (F64.of_Z 8))
               /\ float_pow (Runtime := FloatRuntime.runtime) (F64.of_Z 8) (F64.of_Z 2)
                  = Ret (VFloat (F64.of_Z 64))).
  { split; vm_compute; reflexivity. }
  assert (Hk : is_number (RT := FloatRuntime.runtime) "7" init = (Ret true, init)
               /\ contains (operators (RT := FloatRuntime.runtime) init) "-" = true
               /\ contains (operators (RT := FloatRuntime.runtime) init) "+" = true
               /\ (precedence (operators (RT := FloatRuntime.runtime) init) "+"
                   <= precedence (operators (RT := FloatRuntime.runtime) init) "-")%nat).
  { repeat split. vm_compute. lia. }
  pose proof (exponentiation_left_associative (RT := FloatRuntime.runtime))
    as (Hpop & Hconv & _ & _ & _ & _ & Hcalc).
  destruct Hp as [H1 H2]. destruct Hk as (Hn & Hm & Ha & Hle).
  split; [split; assumption | ].
  split; [exact (proj1 (Hcalc H1 H2)) | ].
  split; [repeat split; assumption | ].
  split.
  - exact (Hconv "7" "7" "7" "-" "+" Hn Hn Hn Hm Ha Hle).
  - exact (Hpop "-" "+" ["7"; "7"] [] Hm Ha Hle).
Defined.


Lemma tokenize_splits_two_character_operators_witness :
  tokenize (RT := FloatRuntime.runtime) "2**3" init
  = (Ret ["2"; "*"; "*"; "3"], init)
  /\ ~ In "**" ["2"; "*"; "*"; "3"] /\ ~ In "//" ["2"; "*"; "*"; "3"].
Proof.
  assert (H : tokenize (RT := FloatRuntime.runtime) "2**3" init
              = (Ret ["2"; "*"; "*"; "3"], init)) by reflexivity.
  split; [exact H | ].
  exact (proj1 (tokenize_splits_two_character_operators
                  (RT := FloatRuntime.runtime)) init "2**3" _ H).
Defined.

(** [" 1  /3"], with blanks at its end: the tokens of [1 / 3] and its
    value as the result formatter presents it. *)
Lemma calculate_matches_reference_witness :
  Grammar.valid_expr Grammar.one_third = true
  /\ tokenize (RT := FloatRuntime.runtime)
       (Grammar.layout [1; 2; 0; 3]%nat (Grammar.expr_tokens Grammar.one_third))
       init
     = (Ret (Grammar.expr_tokens Grammar.one_third), init)
  /\ calculate (RT := FloatRuntime.runtime)
       (Grammar.layout [1; 2; 0; 3]%nat (Grammar.expr_tokens Grammar.one_third))
       init
     = (present (Grammar.eval_expr Grammar.one_third), init).
Proof.
  assert (Hv : Grammar.valid_expr Grammar.one_third = true) by reflexivity.
  pose proof (proj1 (calculate_matches_reference (RT := FloatRuntime.runtime))
                Grammar.one_third [1; 2; 0; 3]%nat Hv) as (Ht & _ & _ & Hc).
  split; [exact Hv | split; [exact Ht | exact Hc]].
Defined.

(** [calculate("1/3")] is not the value of the reference evaluator, the
    float nearest to one third, but that value rounded to 10 decimal
    places. *)
Lemma calculate_rounds_one_third :
  Grammar.valid_expr Grammar.one_third = true
  /\ Grammar.layout [] (Grammar.expr_tokens Grammar.one_third) = "1/3"
  /\ exists x : F64.float64,
       Grammar.eval_expr Grammar.one_third = Ret x
       /\ fst (calculate (RT := FloatRuntime.runtime) "1/3" init)
          = RVal (VFloat (F64.round_ndigits x 10))
       /\ ~ same_value (fst (calculate (RT := FloatRuntime.runtime) "1/3" init))
                       x.
Proof.
  split; [reflexivity | split; [reflexivity | ]].
  exists (S754_finite false 6004799503160661 (-54)).
  assert (Hc : fst (calculate (RT := FloatRuntime.runtime) "1/3" init)
               = RVal (VFloat (S754_finite false 6004799502560181 (-54)))).
  { reflexivity. }
  split; [reflexivity | split].
  - reflexivity.
  - rewrite Hc. intros [H | (n & H & _)]; discriminate H.
Defined.

(** ["-12.5"]: two tokens, and the operand that is missing. *)
Lemma unary_minus_unsupported_witness :
  Grammar.is_literal "12.5" = true
  /\ tokenize (RT := FloatRuntime.runtime) ("-" ++ "12.5") init
     = (Ret ["-"; "12.5"], init)
  /\ infix_to_postfix (RT := FloatRuntime.runtime) ["-"; "12.5"] init
     = (Ret ["12.5"; "-"], init)
  /\ calculate (RT := FloatRuntime.runtime) ("-" ++ "12.5") init
     = (RStr "Error: Invalid expression: not enough operands for '-'", init).
Proof.
  assert (Hl : Grammar.is_literal "12.5" = true) by reflexivity.
  pose proof (proj1 (unary_minus_unsupported (RT := FloatRuntime.runtime))
                "12.5" Hl) as (Ht & Hp & _ & Hc).
  split; [exact Hl | split; [exact Ht | split; [exact Hp | exact Hc]]].
Defined.

(* ================================================================= *)
(** * Further theorems at concrete inputs *)

Lemma tokenize_keeps_text_witness :
  PyStr.forallb Token.starts_token
    (scanned_text (RT := FloatRuntime.runtime)
      (constants (RT := FloatRuntime.runtime) init) "2 + x1") = true
  /\ exists tokens : list string,
       tokenize (RT := FloatRuntime.runtime) "2 + x1" init = (Ret tokens, init)
       /\ PyStr.join tokens
          = scanned_text (RT := FloatRuntime.runtime)
      (constants (RT := FloatRuntime.runtime) init) "2 + x1".
Proof.
  assert (H : PyStr.forallb Token.starts_token
                (scanned_text (RT := FloatRuntime.runtime)
      (constants (RT := FloatRuntime.runtime) init)
                              "2 + x1") = true) by reflexivity.
  split; [exact H | ].
  destruct (tokenize_keeps_text (RT := FloatRuntime.runtime) init "2 + x1")
    as (tokens & Ht & _ & Hj).
  exists tokens. split; [exact Ht | exact (Hj H)].
Defined.

Lemma blanks_never_matter_witness :
  PyStr.forallb Token.is_plain "1 2 + 3" = true
  /\ tokenize (RT := FloatRuntime.runtime) "1 2 + 3" init
     = tokenize (PyStr.replace " " "" "1 2 + 3") init
  /\ calculate (RT := FloatRuntime.runtime) "1 2 + 3" init
     = calculate (PyStr.replace " " "" "1 2 + 3") init.
Proof.
  assert (H : PyStr.forallb Token.is_plain "1 2 + 3" = true) by reflexivity.
  split; [exact H | ].
  exact (blanks_never_matter (RT := FloatRuntime.runtime) "1 2 + 3" H).
Defined.

Lemma calculate_without_tokens_witness :
  calculate (RT := FloatRuntime.runtime) "  " init
  = (RStr "Error: Empty expression", init)
  /\ (tokenize (RT := FloatRuntime.runtime) "$ ." init = (Ret [], init)
      /\ calculate (RT := FloatRuntime.runtime) "$ ." init
         = (RStr "Error: Invalid expression", init)).
Proof.
  split.
  - exact (proj1 (calculate_without_tokens (RT := FloatRuntime.runtime) "  ")
                 init eq_refl).
  - exact (proj2 (calculate_without_tokens (RT := FloatRuntime.runtime) "$ .")
                 eq_refl eq_refl).
Defined.

Lemma infix_to_postfix_moves_tokens_witness :
  exists postfix : list string,
    infix_to_postfix (RT := FloatRuntime.runtime)
      ["("; "2"; "+"; "x"; "3"; ")"; ")"] init = (Ret postfix, init)
    /\ count_occ string_dec postfix "+"
       = (if is_converted (operators (RT := FloatRuntime.runtime) init)
                          (functions init) "+"
          then count_occ string_dec ["("; "2"; "+"; "x"; "3"; ")"; ")"] "+"
          else 0%nat)
    /\ ~ In ")" postfix.
Proof.
  destruct (infix_to_postfix_moves_tokens (RT := FloatRuntime.runtime) init
              ["("; "2"; "+"; "x"; "3"; ")"; ")"])
    as (postfix & H1 & H2 & H3).
  exists postfix. split; [exact H1 | ].
  split; [apply H2; discriminate | exact (H3 eq_refl)].
Defined.

Lemma evaluate_postfix_needs_balance_witness :
  evaluate_postfix (RT := FloatRuntime.runtime) ["2"; "3"; "+"] init
  = (Ret (VFloat (F64.of_Z 5)), init)
  /\ List.length (filter is_num ["2"; "3"; "+"])
     = S (List.length
            (filter (is_operator_token
                       (operators (RT := FloatRuntime.runtime) init))
                    ["2"; "3"; "+"])).
Proof.
  assert (H : evaluate_postfix (RT := FloatRuntime.runtime) ["2"; "3"; "+"] init
              = (Ret (VFloat (F64.of_Z 5)), init)) by reflexivity.
  split; [exact H | ].
  exact (evaluate_postfix_needs_balance (RT := FloatRuntime.runtime)
           init ["2"; "3"; "+"] _ H).
Defined.

Lemma calculate_needs_balance_witness :
  is_message (fst (calculate (RT := FloatRuntime.runtime) "(2 + 3) * 4" init))
  = false
  /\ exists tokens : list string,
       tokenize (RT := FloatRuntime.runtime) "(2 + 3) * 4" init
       = (Ret tokens, init)
       /\ List.length (filter is_num tokens)
          = S (List.length
                 (filter (is_operator_token
                            (operators (RT := FloatRuntime.runtime) init))
                         tokens)).
Proof.
  assert (H : is_message (fst (calculate (RT := FloatRuntime.runtime)
                                 "(2 + 3) * 4" init)) = false) by reflexivity.
  split; [exact H | ].
  exact (proj1 (calculate_needs_balance (RT := FloatRuntime.runtime))
               "(2 + 3) * 4" H).
Defined.

Lemma calculate_follows_formula_witness :
  Formula.well_formed Formula.sample = true
  /\ Grammar.layout [0; 0; 0; 1; 1; 0; 1; 1; 1; 1; 1; 1]%nat
                    (Formula.tokens Formula.sample)
     = "abs(2 - 5) * 2 ^ 3 % 5"
  /\ calculate (RT := FloatRuntime.runtime)
       (Grammar.layout [0; 0; 0; 1; 1; 0; 1; 1; 1; 1; 1; 1]%nat
                       (Formula.tokens Formula.sample)) init
     = (Formula.answer (Formula.eval Formula.sample), init)
  /\ Formula.answer (RT := FloatRuntime.runtime) (Formula.eval Formula.sample)
     = RInt 4.
Proof.
  assert (H : Formula.well_formed Formula.sample = true) by reflexivity.
  split; [exact H | ]. split; [reflexivity | ].
  split; [ | reflexivity].
  exact (proj2 (proj2 (proj2
           (calculate_follows_formula (RT := FloatRuntime.runtime)
              Formula.sample [0; 0; 0; 1; 1; 0; 1; 1; 1; 1; 1; 1]%nat H)))).
Defined.

Lemma calculate_ignores_unbalanced_parentheses_witness :
  Formula.well_formed Formula.sample = true
  /\ infix_to_postfix (RT := FloatRuntime.runtime)
       (Formula.wrapped 3 1 (Formula.tokens Formula.sample)) init
     = (Ret (Formula.postfix Formula.sample ++ repeat "(" (3 - 1))%list, init)
  /\ calculate (RT := FloatRuntime.runtime)
       (Grammar.layout [1; 0; 2]%nat
          (Formula.wrapped 3 1 (Formula.tokens Formula.sample))) init
     = (Formula.answer (Formula.eval Formula.sample), init).
Proof.
  assert (H : Formula.well_formed Formula.sample = true) by reflexivity.
  split; [exact H | ].
  exact (proj2 (calculate_ignores_unbalanced_parentheses
                  (RT := FloatRuntime.runtime)
                  Formula.sample 3 1 [1; 0; 2]%nat H)).
Defined.

Lemma constants_are_replaced_in_the_text_witness :
  (float_str (Runtime := FloatRuntime.runtime) F64.math_pi = "3.141592653589793"
   /\ float_str (Runtime := FloatRuntime.runtime) F64.math_e
      = "2.718281828459045")
  /\ tokenize (RT := FloatRuntime.runtime) ("2" ++ "pi" ++ "")%string init
     = (Ret [("2" ++ "3.141592653589793" ++ "")%string], init)
  /\ tokenize (RT := FloatRuntime.runtime) ("1" ++ "e" ++ "3")%string init
     = (Ret [("1" ++ "2.718281828459045" ++ "3")%string], init)
  /\ calculate (RT := FloatRuntime.runtime) "pi" init
     = (RVal (VFloat (F64.round_ndigits F64.math_pi 10)), init).
Proof.
  assert (Hpi : float_str (Runtime := FloatRuntime.runtime) F64.math_pi
                = "3.141592653589793") by reflexivity.
  assert (He : float_str (Runtime := FloatRuntime.runtime) F64.math_e
               = "2.718281828459045") by reflexivity.
  split; [split; assumption | ].
  destruct (constants_are_replaced_in_the_text (RT := FloatRuntime.runtime)
              Hpi He) as (Hgen & _ & _ & Hcalc & _).
  split; [exact (proj1 (proj1 (Hgen "2" "" eq_refl eq_refl))) | ].
  split; [exact (proj1 (proj2 (Hgen "1" "3" eq_refl eq_refl))) | exact Hcalc].
Defined.

Lemma leading_point_is_dropped_witness :
  Grammar.is_literal "5" = true
  /\ tokenize (RT := FloatRuntime.runtime) ("." ++ "5")%string init = (Ret ["5"], init)
  /\ calculate (RT := FloatRuntime.runtime) ("." ++ "5")%string init
     = calculate "5" init
  /\ calculate (RT := FloatRuntime.runtime) "5" init
     = (present (Ret (Grammar.literal_value "5")), init).
Proof.
  assert (H : Grammar.is_literal "5" = true) by reflexivity.
  split; [exact H | ].
  exact (leading_point_is_dropped (RT := FloatRuntime.runtime) "5" H).
Defined.

Lemma float_words_are_numbers_witness :
  In (PyStr.map PyStr.lower "InF") ["inf"; "infinity"; "nan"]
  /\ tokenize (RT := FloatRuntime.runtime) "InF" init = (Ret ["InF"], init)
  /\ calculate (RT := FloatRuntime.runtime) "InF" init
     = (RVal (VFloat (if PyStr.map PyStr.lower "InF" =? "nan" then S754_nan
                      else S754_infinity false)), init).
Proof.
  assert (H : In (PyStr.map PyStr.lower "InF") ["inf"; "infinity"; "nan"])
    by (left; reflexivity).
  split; [exact H | ].
  exact (proj2 (float_words_are_numbers (RT := FloatRuntime.runtime) "InF" H)).
Defined.




Lemma calculate_reads_constants_witness :
  (float_str (Runtime := FloatRuntime.runtime) F64.math_pi = "3.141592653589793"
   /\ float_str (Runtime := FloatRuntime.runtime) F64.math_e
      = "2.718281828459045")
  /\ (Formula.well_formed Formula.twice_pi = true
      /\ List.map Formula.read_constant ["2"; "*"; "pi"]
         = Formula.tokens Formula.twice_pi)
  /\ Grammar.layout [0; 1; 1]%nat ["2"; "*"; "pi"] = "2 * pi"
  /\ calculate (RT := FloatRuntime.runtime)
       (Grammar.layout [0; 1; 1]%nat ["2"; "*"; "pi"]) init
     = (Formula.answer (Formula.eval Formula.twice_pi), init).
Proof.
  assert (Hpi : float_str (Runtime := FloatRuntime.runtime) F64.math_pi
                = "3.141592653589793") by reflexivity.
  assert (He : float_str (Runtime := FloatRuntime.runtime) F64.math_e
               = "2.718281828459045") by reflexivity.
  assert (Hv : Formula.well_formed Formula.twice_pi = true) by reflexivity.
  assert (Hm : List.map Formula.read_constant ["2"; "*"; "pi"]
               = Formula.tokens Formula.twice_pi) by reflexivity.
  split; [split; assumption | ].
  split; [split; assumption | ].
  split; [reflexivity | ].
  exact (proj2 (calculate_reads_constants (RT := FloatRuntime.runtime)
                  Formula.twice_pi ["2"; "*"; "pi"] [0; 1; 1]%nat
                  Hpi He Hv Hm)).
Defined.

Lemma division_by_zero_without_floor_division_witness :
  (PyStr.is_empty (PyStr.strip "5/0") = false
   /\ tokenize (RT := FloatRuntime.runtime) "5/0" init
      = (Ret ["5"; "/"; "0"], init)
   /\ infix_to_postfix (RT := FloatRuntime.runtime) ["5"; "/"; "0"] init
      = (Ret (["5"; "0"] ++ "/" :: []), init)
   /\ evaluate_loop (RT := FloatRuntime.runtime) ["5"; "0"] [] init
      = (Ret [VFloat (S754_zero false); VFloat (F64.of_Z 5)], init)
   /\ is_division "/" = true
   /\ F64.is_zero (S754_zero false) = true)
  /\ evaluate_postfix (RT := FloatRuntime.runtime) (["5"; "0"] ++ "/" :: []) init
     = (Raise ZeroDivisionError, init)
  /\ calculate (RT := FloatRuntime.runtime) "5/0" init
     = (RStr "Error: Division by zero", init)
  /\ py_floordiv (RT := FloatRuntime.runtime)
       (VFloat (F64.of_Z 5)) (VFloat (S754_zero true))
     = Raise ZeroDivisionError
  /\ (tokenize (RT := FloatRuntime.runtime) "5//0" init
      = (Ret ["5"; "/"; "/"; "0"], init)
      /\ infix_to_postfix (RT := FloatRuntime.runtime) ["5"; "/"; "/"; "0"] init
         = (Ret ["5"; "/"; "0"; "/"], init))
  /\ ~ In "//" ["5"; "/"; "/"; "0"] /\ ~ In "//" ["5"; "/"; "0"; "/"].
Proof.
  assert (H : PyStr.is_empty (PyStr.strip "5/0") = false
              /\ tokenize (RT := FloatRuntime.runtime) "5/0" init
                 = (Ret ["5"; "/"; "0"], init)
              /\ infix_to_postfix (RT := FloatRuntime.runtime) ["5"; "/"; "0"] init
                 = (Ret (["5"; "0"] ++ "/" :: []), init)
              /\ evaluate_loop (RT := FloatRuntime.runtime) ["5"; "0"] [] init
                 = (Ret [VFloat (S754_zero false); VFloat (F64.of_Z 5)], init)
              /\ is_division "/" = true
              /\ F64.is_zero (S754_zero false) = true).
  { repeat split. }
  assert (H' : tokenize (RT := FloatRuntime.runtime) "5//0" init
               = (Ret ["5"; "/"; "/"; "0"], init)
               /\ infix_to_postfix (RT := FloatRuntime.runtime)
                    ["5"; "/"; "/"; "0"] init
                  = (Ret ["5"; "/"; "0"; "/"], init)).
  { split; reflexivity. }
  split; [exact H | ].
  destruct H as (Hb & Ht & Hc & He & Hd & Hz).
  pose proof (division_by_zero_without_floor_division
                (RT := FloatRuntime.runtime))
    as (Hops & Hcalc & Hfloor & _).
  destruct (Hcalc "5/0" _ _ _ _ _ _ _ Hb Ht Hc He Hd Hz) as (_ & E1 & E2).
  refine (conj E1 (conj E2 (conj _ (conj H' _)))).
  - exact (proj1 (proj2 (Hops (F64.of_Z 5) (S754_zero true) eq_refl))).
  - exact (Hfloor init "5//0" _ _ (proj1 H') (proj2 H')).
Defined.
